(** * Video editor backend: overlay compiler, progress extractor,
      transcode supervisor and job store

    A shallow embedding of [backend/main.py].  Python values are modelled
    as the program has them:

    - [int] is [Z];
    - [float] is an IEEE-754 binary64 value, [spec_float] with the
      operations of [SpecFloat] at precision 53 and maximal exponent 1024;
    - [str] and [bytes] are [string] (sequences of 8-bit characters; the
      decimal digits and white space of the model are the ASCII ones);
    - a raised exception is the [Raise] case of [res]; [str(e)] is its
      message;
    - the jobs directory is a finite map from file names to file contents;
    - the external programs (the prober, the transcoding engine) and the
      file system are fields of an [environment] record. *)

From Stdlib Require Import ZArith List String Ascii Bool Lia.
From Stdlib Require Import Floats.SpecFloat DecimalString DecimalPos DecimalFacts.
From Stdlib Require Import QArith.QArith_base QArith.Qround QArith.Qpower.
From stdpp Require Import base option list gmap strings.

Open Scope string_scope.
Open Scope Z_scope.

(** ** Exceptions *)

Inductive exn_kind :=
  | ValueError | OverflowError | ZeroDivisionError | JSONDecodeError
  | CalledProcessError | OSError | PlainException
  | HTTPException (status_code : Z).

Record exn := Exn { exn_kind_of : exn_kind; exn_msg : string }.

Inductive res (A : Type) :=
  | Ok (a : A)
  | Raise (e : exn).
Arguments Ok {A} a.
Arguments Raise {A} e.

Global Instance res_ret : MRet res := @Ok.
Global Instance res_bind : MBind res := λ A B f m,
  match m with Ok a => f a | Raise e => Raise e end.

Definition is_Ok {A} (r : res A) : bool :=
  match r with Ok _ => true | Raise _ => false end.

(** ** Strings *)

Module PyStr.

Definition chr (n : nat) : ascii := ascii_of_nat n.

(** [bytes.strip()] white space: space, tab, newline, return, vertical
    tab, form feed. *)
Definition is_space_bytes (c : ascii) : bool :=
  let n := nat_of_ascii c in
  ((9 <=? n) && (n <=? 13) || (n =? 32))%nat.

(** [str.strip()] white space below code point 128: the above and the
    separators 0x1c-0x1f. *)
Definition is_space_str (c : ascii) : bool :=
  let n := nat_of_ascii c in
  ((9 <=? n) && (n <=? 13) || (28 <=? n) && (n <=? 32))%nat.

Fixpoint lstrip (sp : ascii → bool) (s : string) : string :=
  match s with
  | String c s' => if sp c then lstrip sp s' else s
  | EmptyString => EmptyString
  end.

(** Strips at the right end: a character is dropped when everything
    after it has been dropped. *)
Fixpoint rstrip (sp : ascii → bool) (s : string) : string :=
  match s with
  | String c s' =>
      match rstrip sp s' with
      | EmptyString => if sp c then EmptyString else String c EmptyString
      | r => String c r
      end
  | EmptyString => EmptyString
  end.

Definition strip (sp : ascii → bool) (s : string) : string :=
  rstrip sp (lstrip sp s).

(** [s.replace(old, new)] for a one-character [old]. *)
Fixpoint replace (old : ascii) (new : string) (s : string) : string :=
  match s with
  | String c s' =>
      if Ascii.eqb c old then new +:+ replace old new s'
      else String c (replace old new s')
  | EmptyString => EmptyString
  end.

(** [s.split(sep)] for a one-character [sep]: never empty. *)
Fixpoint split (sep : ascii) (s : string) : list string :=
  match s with
  | String c s' =>
      if Ascii.eqb c sep then EmptyString :: split sep s'
      else
        match split sep s' with
        | f :: fs => String c f :: fs
        | [] => [String c EmptyString]
        end
  | EmptyString => [EmptyString]
  end.

Definition is_digit (c : ascii) : bool :=
  let n := nat_of_ascii c in ((48 <=? n) && (n <=? 57))%nat.

Definition digit_val (c : ascii) : Z := Z.of_nat (nat_of_ascii c) - 48.

(** [str(n)] for an [int]. *)
Definition of_int (z : Z) : string := NilZero.string_of_int (Z.to_int z).

Fixpoint ends_with (suffix s : string) : bool :=
  String.eqb suffix s ||
  match s with
  | String _ s' => ends_with suffix s'
  | EmptyString => false
  end.

Fixpoint concat (l : list string) : string :=
  match l with
  | [] => EmptyString
  | s :: l' => s +:+ concat l'
  end.

End PyStr.

(** ** Floats *)

Module PyFloat.

Definition prec : Z := 53.
Definition emax : Z := 1024.
Abbreviation float := spec_float.

Definition zero : float := S754_zero false.

(** [float(n)] for an [int]: rounded to nearest even; too large an
    [int] raises. *)
Definition of_int (z : Z) : res float :=
  match binary_normalize prec emax z 0 false with
  | S754_infinity _ =>
      Raise (Exn OverflowError "int too large to convert to float")
  | f => Ok f
  end.

Definition mul : float → float → float := SFmul prec emax.
Definition add : float → float → float := SFadd prec emax.

(** [x / y] *)
Definition div (x y : float) : res float :=
  if SFeqb y zero then Raise (Exn ZeroDivisionError "float division by zero")
  else Ok (SFdiv prec emax x y).

Definition eqb : float → float → bool := SFeqb.
Definition ltb : float → float → bool := SFltb.

(** Truth value of a float: false for [0.0] and [-0.0] only. *)
Definition truthy (f : float) : bool := negb (SFeqb f zero).

(** [int(x)]: truncation toward zero. *)
Definition to_int (f : float) : res Z :=
  match f with
  | S754_nan => Raise (Exn ValueError "cannot convert float NaN to integer")
  | S754_infinity _ =>
      Raise (Exn OverflowError "cannot convert float infinity to integer")
  | S754_zero _ => Ok 0
  | S754_finite s m e => Ok (cond_Zopp s (Z.shiftl (Zpos m) e))
  end.

(** The mathematical floor of a finite float ([None] for NaN and the
    infinities). *)
Definition floor (f : float) : option Z :=
  match f with
  | S754_zero _ => Some 0
  | S754_finite s m e => Some (Z.shiftl (cond_Zopp s (Zpos m)) e)
  | _ => None
  end.

(** The float nearest to [(-1)^s * m * 10^e10], ties to even. *)
Definition of_decimal (s : bool) (m : Z) (e10 : Z) : float :=
  match m with
  | Zpos p =>
      if 0 <=? e10 then
        match m * 10 ^ e10 with
        | Zpos n => binary_round prec emax s n 0
        | _ => S754_zero s
        end
      else
        let '(q, e, l) :=
          SFdiv_core_binary prec emax (Zpos p) 0 (10 ^ (- e10)) 0 in
        binary_round_aux prec emax s q e l
  | _ => S754_zero s
  end.

(** *** Reading a float: [float(s)] *)

(** Underscores may only stand between two digits; they are removed
    before the number is read. *)
Fixpoint drop_underscores (prev : ascii) (s : string) : option string :=
  match s with
  | EmptyString =>
      if Ascii.eqb prev "_" then None else Some EmptyString
  | String c s' =>
      if Ascii.eqb c "_" then
        if PyStr.is_digit prev then drop_underscores c s' else None
      else
        if Ascii.eqb prev "_" && negb (PyStr.is_digit c) then None
        else String c <$> drop_underscores c s'
  end.

(** Reads a run of digits: its value continued from [acc], its length,
    and what follows. *)
Fixpoint read_digits (acc : Z) (n : Z) (s : string) : Z * Z * string :=
  match s with
  | String c s' =>
      if PyStr.is_digit c
      then read_digits (10 * acc + PyStr.digit_val c) (n + 1) s'
      else (acc, n, s)
  | EmptyString => (acc, n, s)
  end.

Definition read_sign (s : string) : bool * string :=
  match s with
  | String "-" s' => (true, s')
  | String "+" s' => (false, s')
  | _ => (false, s)
  end.

Definition lower (c : ascii) : ascii :=
  let n := nat_of_ascii c in
  if ((65 <=? n) && (n <=? 90))%nat then ascii_of_nat (n + 32) else c.

Fixpoint lower_string (s : string) : string :=
  match s with
  | String c s' => String (lower c) (lower_string s')
  | EmptyString => EmptyString
  end.

(** The exponent part: [e], an optional sign and at least one digit;
    anything else leaves the text where it is. *)
Definition read_exponent (s : string) : Z * string :=
  match s with
  | String c s' =>
      if Ascii.eqb (lower c) "e" then
        let '(neg, s1) := read_sign s' in
        let '(v, n, s2) := read_digits 0 0 s1 in
        if n =? 0 then (0, s) else ((if neg then - v else v), s2)
      else (0, s)
  | EmptyString => (0, s)
  end.

(** A sign-free literal: [inf], [infinity], [nan] or a decimal number
    that takes the whole text. *)
Definition read_unsigned (neg : bool) (s : string) : option float :=
  let l := lower_string s in
  if String.eqb l "inf" || String.eqb l "infinity" then Some (S754_infinity neg)
  else if String.eqb l "nan" then Some S754_nan
  else
    let '(ip, n1, s1) := read_digits 0 0 s in
    let '(m, n2, s2) :=
      match s1 with
      | String "." s1' =>
          let '(m, n2, s2) := read_digits ip 0 s1' in (m, n2, s2)
      | _ => (ip, 0, s1)
      end in
    if n1 + n2 =? 0 then None
    else
      let '(ex, s3) := read_exponent s2 in
      match s3 with
      | EmptyString => Some (of_decimal neg m (ex - n2))
      | _ => None
      end.

Definition repr_quoted (s : string) : string := "'" +:+ s +:+ "'".

(** [float(s)]: white space (that of [bytes.strip()], also for a [str]
    argument) is dropped at both ends. *)
Definition of_string (s : string) : res float :=
  let bad := Raise (Exn ValueError
               ("could not convert string to float: " +:+ repr_quoted s)) in
  match drop_underscores " " (PyStr.strip PyStr.is_space_bytes s) with
  | None => bad
  | Some t =>
      let '(neg, u) := read_sign t in
      match read_unsigned neg u with
      | Some f => Ok f
      | None => bad
      end
  end.

(** *** Printing a float: [repr(x)], which is also [str(x)] and what an
    f-string field prints

    The shortest decimal digit string that reads back as the same
    float (of those, the nearest to it), laid out in fixed notation
    when the decimal point position is in (-4, 16] and in exponent
    notation otherwise. *)

Fixpoint ndigits10_aux (fuel : nat) (z : Z) : Z :=
  match fuel with
  | O => 1
  | S f => if z <? 10 then 1 else 1 + ndigits10_aux f (z / 10)
  end.

(** Number of decimal digits of [z >= 1]. *)
Definition ndigits10 (z : Z) : Z := ndigits10_aux (Z.to_nat (Z.log2 z)) z.

Fixpoint scale_up (fuel : nat) (num den : Z) (j : Z) : Z :=
  match fuel with
  | O => j
  | S f => if den <=? num * 10 ^ j then j else scale_up f num den (j + 1)
  end.

(** The [n] with [10^n <= num/den < 10^(n+1)], for [num, den > 0]. *)
Definition decimal_exponent (num den : Z) : Z :=
  if den <=? num then ndigits10 (num / den) - 1
  else - scale_up (Z.to_nat (Z.log2 den) + 1) num den 1.

(** Compares [d * 10^q] with [num / den]. *)
Definition cmp_dec (d q num den : Z) : comparison :=
  if 0 <=? q then (d * 10 ^ q * den ?= num)
  else (d * den ?= num * 10 ^ (- q)).

Section Shortest.
(** The float [vn/den] and the ends [lo/den], [hi/den] of the interval
    of the reals that round to it; [closed] tells whether the ends
    belong to it. *)
Variables (vn lo hi den : Z) (closed : bool).

Definition inside (d q : Z) : bool :=
  match cmp_dec d q lo den, cmp_dec d q hi den with
  | Gt, Lt => true
  | Eq, (Lt | Eq) | Gt, Eq => closed
  | _, _ => false
  end.

(** With [k] digits: the two [k]-digit decimals around the float, the
    nearer first. *)
Definition try_digits (n k : Z) : option (Z * Z) :=
  let q := n - k + 1 in
  let d0 :=
    if 0 <=? q then vn / (den * 10 ^ q) else vn * 10 ^ (- q) / den in
  let d1 := d0 + 1 in
  let nearer_low :=
    match cmp_dec (d0 + d1) q (2 * vn) den with
    | Gt => true
    | Eq => Z.even d0
    | Lt => false
    end in
  let '(a, b) := if nearer_low then (d0, d1) else (d1, d0) in
  if inside a q then Some (a, q)
  else if inside b q then Some (b, q)
  else None.

Fixpoint shortest_from (fuel : nat) (n k : Z) : Z * Z :=
  match fuel with
  | O => (0, 0)
  | S f =>
      match try_digits n k with
      | Some r => r
      | None => shortest_from f n (k + 1)
      end
  end.
End Shortest.

Fixpoint strip_zeros (fuel : nat) (d : Z) (q : Z) : Z * Z :=
  match fuel with
  | O => (d, q)
  | S f => if (d mod 10 =? 0) && (0 <? d) then strip_zeros f (d / 10) (q + 1)
           else (d, q)
  end.

(** The digits [d] and the decimal point position [decpt] of a positive
    finite float [m * 2^e]: it prints as [0.d * 10^decpt]. *)
Definition shortest_digits (m : positive) (e : Z) : Z * Z :=
  let boundary := (Zpos m =? 2 ^ (prec - 1)) && (emin prec emax <? e) in
  let s := e - 2 in
  let scale := if 0 <=? s then 2 ^ s else 1 in
  let den := if 0 <=? s then 1 else 2 ^ (- s) in
  let vn := 4 * Zpos m * scale in
  let lo := (4 * Zpos m - (if boundary then 1 else 2)) * scale in
  let hi := (4 * Zpos m + 2) * scale in
  let n := decimal_exponent vn den in
  let '(d, q) := shortest_from vn lo hi den (Z.even (Zpos m)) 18 n 1 in
  let '(d', q') := strip_zeros 18 d q in
  (d', ndigits10 d' + q').

Fixpoint zeros (n : nat) : string :=
  match n with O => EmptyString | S n' => String "0" (zeros n') end.

Definition take_str (n : Z) (s : string) : string :=
  String.substring 0 (Z.to_nat n) s.
Definition drop_str (n : Z) (s : string) : string :=
  String.substring (Z.to_nat n) (String.length s - Z.to_nat n) s.

Definition repr_finite (m : positive) (e : Z) : string :=
  let '(d, decpt) := shortest_digits m e in
  let ds := PyStr.of_int d in
  let len := Z.of_nat (String.length ds) in
  if (-4 <? decpt) && (decpt <=? 16) then
    if decpt <=? 0 then "0." +:+ zeros (Z.to_nat (- decpt)) +:+ ds
    else if len <=? decpt then ds +:+ zeros (Z.to_nat (decpt - len)) +:+ ".0"
    else take_str decpt ds +:+ "." +:+ drop_str decpt ds
  else
    let x := decpt - 1 in
    let xs := PyStr.of_int (Z.abs x) in
    take_str 1 ds +:+ (if 1 <? len then "." +:+ drop_str 1 ds else "")
      +:+ "e" +:+ (if x <? 0 then "-" else "+")
      +:+ (if Z.abs x <? 10 then "0" else "") +:+ xs.

Definition repr (f : float) : string :=
  match f with
  | S754_nan => "nan"
  | S754_infinity s => if s then "-inf" else "inf"
  | S754_zero s => if s then "-0.0" else "0.0"
  | S754_finite s m e => (if s then "-" else "") +:+ repr_finite m e
  end.

End PyFloat.

(** ** Integers *)

Module PyInt.

(** The digits of an integer literal: single underscores may stand
    between digits. *)
Fixpoint read_body (prev : ascii) (acc : Z) (s : string) : option Z :=
  match s with
  | EmptyString => if Ascii.eqb prev "_" then None else Some acc
  | String c s' =>
      if Ascii.eqb c "_" then
        if Ascii.eqb prev "_" then None else read_body c acc s'
      else if PyStr.is_digit c
           then read_body c (10 * acc + PyStr.digit_val c) s'
           else None
  end.

(** [int(s)] in base 10; white space (that of [bytes.strip()]) is
    dropped at both ends. *)
Definition of_string (s : string) : res Z :=
  let bad := Raise (Exn ValueError
               ("invalid literal for int() with base 10: "
                  +:+ PyFloat.repr_quoted s)) in
  let '(neg, u) := PyFloat.read_sign (PyStr.strip PyStr.is_space_bytes s) in
  match u with
  | EmptyString | String "_" _ => bad
  | _ =>
      match read_body "0" 0 u with
      | Some v => Ok (if neg then - v else v)
      | None => bad
      end
  end.

(** [max(a, b)], [min(a, b)] *)
Definition max (a b : Z) : Z := if a <? b then b else a.
Definition min (a b : Z) : Z := if b <? a then b else a.

End PyInt.

(** ** Models *)

Record OverlayMetadata := {
  ov_id : option string;
  ov_type : string;          (* "text", "image", "video" *)
  ov_content : string;       (* text content or filename *)
  ov_start_time : PyFloat.float;
  ov_end_time : PyFloat.float;
  ov_x : PyFloat.float;
  ov_y : PyFloat.float;
  ov_width : option PyFloat.float;
  ov_height : option PyFloat.float
}.

(** The floats [0.2] and [0.05] of the source text. *)
Definition f_0_2 : PyFloat.float := Eval vm_compute in PyFloat.of_decimal false 2 (-1).
Definition f_0_05 : PyFloat.float := Eval vm_compute in PyFloat.of_decimal false 5 (-2).

(** One element of the submitted overlay list, as the request carries it:
    [width] and [height] may be absent ([None]), [null] ([Some None]) or
    a number. *)
Record overlay_item := {
  it_id : option (option string);
  it_type : string;
  it_content : string;
  it_start_time : PyFloat.float;
  it_end_time : PyFloat.float;
  it_x : PyFloat.float;
  it_y : PyFloat.float;
  it_width : option (option PyFloat.float);
  it_height : option (option PyFloat.float)
}.

(** The constructor of the model applied to one item: an absent field
    takes the default that the model declares. *)
Definition OverlayMetadata_init (item : overlay_item) : OverlayMetadata := {|
  ov_id := default None (it_id item);
  ov_type := it_type item;
  ov_content := it_content item;
  ov_start_time := it_start_time item;
  ov_end_time := it_end_time item;
  ov_x := it_x item;
  ov_y := it_y item;
  ov_width := default (Some f_0_2) (it_width item);
  ov_height := default (Some f_0_2) (it_height item)
|}.

(** ** The world outside the program *)

(** A finished child process: the lines of its diagnostic stream and its
    exit code. *)
Record process := {
  stderr : list string;
  returncode : Z
}.

Record environment := {
  (** [subprocess.check_output(cmd)]: the output of the prober, or the
      exception of a failed run *)
  check_output : list string → res string;
  (** [subprocess.Popen(cmd, ...)]: the engine run to its end, or the
      exception of a failed launch *)
  Popen : list string → res process;
  (** [str(OUTPUT_DIR / name)] and [str(OVERLAY_DIR / name)] *)
  OUTPUT_DIR : string → string;
  OVERLAY_DIR : string → string;
  (** [path.exists()] *)
  path_exists : string → bool
}.

(** ** Utility functions *)

(** What the supervisor does to the world, in order. *)
Inductive event :=
  | Save (job_id status : string) (progress : Z) (error : option string)
  | Launch (cmd : list string).

Definition get_video_duration (env : environment) (input_path : string)
  : PyFloat.float :=
  let cmd := ["ffprobe"; "-v"; "error"; "-show_entries"; "format=duration";
              "-of"; "default=noprint_wrappers=1:nokey=1"; input_path] in
  match out ← check_output env cmd;
        PyFloat.of_string (PyStr.strip PyStr.is_space_bytes out) with
  | Ok d => d
  | Raise _ => PyFloat.zero
  end.

(** [h, m, s = fields] *)
Definition unpack3 (fields : list string) : res (string * string * string) :=
  match fields with
  | [h; m; s] => Ok (h, m, s)
  | _ :: _ :: _ :: _ :: _ =>
      Raise (Exn ValueError "too many values to unpack (expected 3)")
  | _ =>
      Raise (Exn ValueError
        ("not enough values to unpack (expected 3, got "
           +:+ PyStr.of_int (Z.of_nat (length fields)) +:+ ")"))
  end.

(** The body of the [try] of [time_str_to_sec]. *)
Definition time_str_to_sec_try (time_str : string) : res PyFloat.float :=
  '(h, m, s) ← unpack3 (PyStr.split ":" time_str);
  hi ← PyInt.of_string h;
  mi ← PyInt.of_string m;
  sf ← PyFloat.of_string s;
  hm ← PyFloat.of_int (hi * 3600 + mi * 60);
  Ok (PyFloat.add hm sf).

Definition time_str_to_sec (time_str : string) : PyFloat.float :=
  match time_str_to_sec_try time_str with
  | Ok v => v
  | Raise _ => PyFloat.zero
  end.

(** ** The filter graph *)

Record graph := {
  input_args : list string;
  filter_complex : string;
  last_stream_label : string
}.

(** [int(frac * dim)] for a float [frac] and an int [dim]. *)
Definition to_pixels (frac : PyFloat.float) (dim : Z) : res Z :=
  d ← PyFloat.of_int dim;
  PyFloat.to_int (PyFloat.mul frac d).

(** [v or d] for an optional float. *)
Definition or_default (v : option PyFloat.float) (d : PyFloat.float)
  : PyFloat.float :=
  match v with
  | Some f => if PyFloat.truthy f then f else d
  | None => d
  end.

(** [if t % 2 != 0: t -= 1] *)
Definition make_even (t : Z) : Z :=
  if negb (t mod 2 =? 0) then t - 1 else t.

Definition safe_text (content : string) : string :=
  PyStr.replace ":" "\:" (PyStr.replace "'" "'\''" content).

Definition enable (ov : OverlayMetadata) : string :=
  "enable='between(t," +:+ PyFloat.repr (ov_start_time ov) +:+ ","
    +:+ PyFloat.repr (ov_end_time ov) +:+ ")'".

(** [font_size = max(16, int((ov.height or 0.05) * H))] *)
Definition font_size (ov : OverlayMetadata) (H : Z) : res Z :=
  fs ← to_pixels (or_default (ov_height ov) f_0_05) H;
  Ok (PyInt.max 16 fs).

(** [target = int((size or 0.2) * dim)], made even. *)
Definition target_size (size : option PyFloat.float) (dim : Z) : res Z :=
  t ← to_pixels (or_default size f_0_2) dim;
  Ok (make_even t).

(** One turn of the loop over [enumerate(overlays)]. *)
Definition overlay_step (env : environment) (W H : Z)
    (i : Z) (ov : OverlayMetadata) (g : graph) : res graph :=
  x_px ← to_pixels (ov_x ov) W;
  y_px ← to_pixels (ov_y ov) H;
  if String.eqb (ov_type ov) "text" then
    font_size ← font_size ov H;
    let next_label := "[v" +:+ PyStr.of_int (i + 1) +:+ "]" in
    Ok {| input_args := input_args g;
          filter_complex :=
            filter_complex g
              +:+ (last_stream_label g +:+ "drawtext=text='"
                     +:+ safe_text (ov_content ov) +:+ "':"
                   +:+ "fontcolor=white:fontsize=" +:+ PyStr.of_int font_size
                     +:+ ":x=" +:+ PyStr.of_int x_px
                     +:+ ":y=" +:+ PyStr.of_int y_px +:+ ":"
                   +:+ enable ov +:+ next_label +:+ ";");
          last_stream_label := next_label |}
  else if String.eqb (ov_type ov) "image" || String.eqb (ov_type ov) "video" then
    let ov_path := OVERLAY_DIR env (ov_content ov) in
    if negb (path_exists env ov_path) then Ok g
    else
      let input_args' := (input_args g ++ ["-i"; ov_path])%list in
      let input_index := Z.of_nat (length input_args') / 2 - 1 in
      target_w ← target_size (ov_width ov) W;
      target_h ← target_size (ov_height ov) H;
      let scaled_label := "[sc" +:+ PyStr.of_int i +:+ "]" in
      let next_label := "[v" +:+ PyStr.of_int (i + 1) +:+ "]" in
      Ok {| input_args := input_args';
            filter_complex :=
              (filter_complex g
                 +:+ ("[" +:+ PyStr.of_int input_index +:+ ":v]scale="
                        +:+ PyStr.of_int target_w +:+ ":"
                        +:+ PyStr.of_int target_h +:+ scaled_label +:+ ";"))
                +:+ (last_stream_label g +:+ scaled_label +:+ "overlay="
                       +:+ PyStr.of_int x_px +:+ ":" +:+ PyStr.of_int y_px
                       +:+ ":"
                     +:+ enable ov +:+ next_label +:+ ";");
            last_stream_label := next_label |}
  else Ok g.

(** [enumerate(l)], counting from [i]. *)
Fixpoint enumerate {A} (i : Z) (l : list A) : list (Z * A) :=
  match l with
  | [] => []
  | a :: l' => (i, a) :: enumerate (i + 1) l'
  end.

(** The loop [for i, ov in ...]. *)
Fixpoint overlay_loop (env : environment) (W H : Z)
    (items : list (Z * OverlayMetadata)) (g : graph) : res graph :=
  match items with
  | [] => Ok g
  | (i, ov) :: rest =>
      g' ← overlay_step env W H i ov g;
      overlay_loop env W H rest g'
  end.

(** The graph after the loop: trailing semicolons dropped, and [null]
    for an empty expression. *)
Definition finish_graph (g : graph) : graph :=
  let fc := PyStr.rstrip (Ascii.eqb ";") (filter_complex g) in
  {| input_args := input_args g;
     filter_complex := if String.eqb fc "" then "null" else fc;
     last_stream_label := last_stream_label g |}.

Definition initial_graph (video_path : string) : graph :=
  {| input_args := ["-i"; video_path];
     filter_complex := "";
     last_stream_label := "[0:v]" |}.

Definition build_filter (env : environment) (W H : Z) (video_path : string)
    (overlays : list OverlayMetadata) : res graph :=
  g ← overlay_loop env W H (enumerate 0 overlays) (initial_graph video_path);
  Ok (finish_graph g).

Definition ffmpeg_cmd (g : graph) (output_path : string) : list string :=
  (["ffmpeg"; "-y"] ++ input_args g ++
   ["-filter_complex"; filter_complex g;
    "-map"; last_stream_label g;
    "-map"; "0:a?";
    "-c:v"; "libx264";
    "-preset"; "ultrafast";
    "-c:a"; "aac";
    output_path])%list.

(** ** Progress extraction *)

(** The pattern [\d{2}:\d{2}:\d{2}\.\d{2}] at the head of [s]: the text
    it matches. *)
Definition match_clock (s : string) : option string :=
  match s with
  | String h1 (String h2 (String c1 (String m1 (String m2 (String c2
      (String s1 (String s2 (String c3 (String f1 (String f2 _)))))))))) =>
      if PyStr.is_digit h1 && PyStr.is_digit h2 && Ascii.eqb c1 ":"
         && PyStr.is_digit m1 && PyStr.is_digit m2 && Ascii.eqb c2 ":"
         && PyStr.is_digit s1 && PyStr.is_digit s2 && Ascii.eqb c3 "."
         && PyStr.is_digit f1 && PyStr.is_digit f2
      then Some (String.substring 0 11 s)
      else None
  | _ => None
  end.

(** The pattern [time=(\d{2}:\d{2}:\d{2}\.\d{2})] at the head of [s]:
    its group 1. *)
Definition match_time (s : string) : option string :=
  match s with
  | String a (String b (String c (String d (String e s')))) =>
      if Ascii.eqb a "t" && Ascii.eqb b "i" && Ascii.eqb c "m"
         && Ascii.eqb d "e" && Ascii.eqb e "="
      then match_clock s'
      else None
  | _ => None
  end.

(** [time_pattern.search(line)]: group 1 of the leftmost match. *)
Fixpoint search_time (line : string) : option string :=
  match match_time line with
  | Some g => Some g
  | None =>
      match line with
      | String _ rest => search_time rest
      | EmptyString => None
      end
  end.

(** The body of the loop over the diagnostic lines: the progress to
    save, if any. *)
Definition line_progress (total_duration : PyFloat.float) (line : string)
  : res (option Z) :=
  match search_time line with
  | Some g =>
      let current_sec := time_str_to_sec g in
      if PyFloat.ltb PyFloat.zero total_duration then
        q ← PyFloat.div current_sec total_duration;
        hundred ← PyFloat.of_int 100;
        percent ← PyFloat.to_int (PyFloat.mul q hundred);
        Ok (Some (PyInt.min percent 99))
      else Ok None
  | None => Ok None
  end.

(** ** The supervisor *)

(** A computation that acts on the world and may raise: the events so
    far, and the outcome. *)
Definition task (A : Type) : Type := list event * res A.

Definition emit (e : event) : task unit := ([e], Ok tt).
Definition lift {A} (r : res A) : task A := ([], r).

Global Instance task_ret : MRet task := λ A a, ([], Ok a).
Global Instance task_bind : MBind task := λ A B f m,
  match m with
  | (evs, Ok a) => let '(evs', r) := f a in ((evs ++ evs')%list, r)
  | (evs, Raise e) => (evs, Raise e)
  end.

Definition save_job_status (job_id status : string) (progress : Z)
    (error : option string) : task unit :=
  emit (Save job_id status progress error).

(** [W, H = map(int, probe_out.split('x'))]: the fields are converted
    one by one as the unpacking asks for them. *)
Definition unpack_dimensions (fields : list string) : res (Z * Z) :=
  match fields with
  | [] => Raise (Exn ValueError "not enough values to unpack (expected 2, got 0)")
  | [w] =>
      _ ← PyInt.of_string w;
      Raise (Exn ValueError "not enough values to unpack (expected 2, got 1)")
  | w :: h :: more =>
      W ← PyInt.of_string w;
      H ← PyInt.of_string h;
      match more with
      | [] => Ok (W, H)
      | x :: _ =>
          _ ← PyInt.of_string x;
          Raise (Exn ValueError "too many values to unpack (expected 2)")
      end
  end.

(** The dimensions in the output of the prober. *)
Definition read_dimensions (out : string) : res (Z * Z) :=
  let probe_out := PyStr.strip PyStr.is_space_str out in
  if String.eqb probe_out "" then
    Raise (Exn PlainException "Could not determine video dimensions.")
  else unpack_dimensions (PyStr.split "x" probe_out).

Definition cmd_probe (video_path : string) : list string :=
  ["ffprobe"; "-v"; "error"; "-select_streams"; "v:0";
   "-show_entries"; "stream=width,height"; "-of"; "csv=s=x:p=0";
   video_path].

(** Step 1: probe the duration and the dimensions. *)
Definition probe (env : environment) (video_path : string)
  : res (PyFloat.float * Z * Z) :=
  let total_duration := get_video_duration env video_path in
  if PyFloat.eqb total_duration PyFloat.zero then
    Raise (Exn PlainException
             "Could not determine video duration. Is the file corrupted?")
  else
    out ← check_output env (cmd_probe video_path);
    '(W, H) ← read_dimensions out;
    Ok (total_duration, W, H).

(** The loop over the diagnostic lines of the engine. *)
Fixpoint report_progress (job_id : string) (total_duration : PyFloat.float)
    (lines : list string) : task unit :=
  match lines with
  | [] => mret tt
  | line :: rest =>
      p ← lift (line_progress total_duration line);
      _ ← match p with
          | Some percent => save_job_status job_id "processing" percent None
          | None => mret tt
          end;
      report_progress job_id total_duration rest
  end.

(** The body of the [try] of [process_video_task]. *)
Definition process_video_try (env : environment) (job_id video_path : string)
    (overlays : list OverlayMetadata) : task unit :=
  let output_path := OUTPUT_DIR env (job_id +:+ ".mp4") in
  '(total_duration, W, H) ← lift (probe env video_path);
  _ ← save_job_status job_id "processing" 0 None;
  g ← lift (build_filter env W H video_path overlays);
  let cmd := ffmpeg_cmd g output_path in
  _ ← emit (Launch cmd);
  proc ← lift (Popen env cmd);
  _ ← report_progress job_id total_duration (stderr proc);
  if returncode proc =? 0 then
    save_job_status job_id "completed" 100 None
  else
    lift (Raise (Exn PlainException "FFmpeg process failed")).

(** [process_video_task]: what one run of a job does, in order. *)
Definition process_video_task (env : environment) (job_id video_path : string)
    (overlays : list OverlayMetadata) : list event :=
  match process_video_try env job_id video_path overlays with
  | (evs, Ok _) => evs
  | (evs, Raise e) => (evs ++ [Save job_id "failed" 0 (Some (exn_msg e))])%list
  end.

(** ** JSON texts: [json.loads] *)

Module Json.

#[warnings="-register-all"]
Inductive value :=
  | JNull
  | JBool (b : bool)
  | JInt (z : Z)
  | JFloat (f : PyFloat.float)
  | JStr (s : string)
  | JList (l : list value)
  | JDict (d : list (string * value)).

(** A scan either yields a result or stops with the message of the
    decoding error (without its position). *)
Inductive scan (A : Type) :=
  | Scanned (a : A)
  | Bad (msg : string).
Arguments Scanned {A} a.
Arguments Bad {A} msg.

Global Instance scan_ret : MRet scan := @Scanned.
Global Instance scan_bind : MBind scan := λ A B f m,
  match m with Scanned a => f a | Bad msg => Bad msg end.

Definition is_ws (c : ascii) : bool :=
  Ascii.eqb c " " || Ascii.eqb c "009" || Ascii.eqb c "010" || Ascii.eqb c "013".

Definition skip_ws : string → string := PyStr.lstrip is_ws.

Definition hex_val (c : ascii) : option Z :=
  let n := Z.of_nat (nat_of_ascii c) in
  if (48 <=? n) && (n <=? 57) then Some (n - 48)
  else if (65 <=? n) && (n <=? 70) then Some (n - 55)
  else if (97 <=? n) && (n <=? 102) then Some (n - 87)
  else None.

Definition hex4 (a b c d : ascii) : option Z :=
  x ← hex_val a; y ← hex_val b; z ← hex_val c; w ← hex_val d;
  Some (((x * 16 + y) * 16 + z) * 16 + w).

Definition byte (z : Z) : ascii := ascii_of_nat (Z.to_nat z).

(** The UTF-8 bytes of a code point. *)
Definition utf8 (cp : Z) : string :=
  if cp <? 128 then String (byte cp) ""
  else if cp <? 2048 then
    String (byte (192 + cp / 64)) (String (byte (128 + cp mod 64)) "")
  else if cp <? 65536 then
    String (byte (224 + cp / 4096))
      (String (byte (128 + cp / 64 mod 64))
         (String (byte (128 + cp mod 64)) ""))
  else
    String (byte (240 + cp / 262144))
      (String (byte (128 + cp / 4096 mod 64))
         (String (byte (128 + cp / 64 mod 64))
            (String (byte (128 + cp mod 64)) ""))).

Definition simple_escape (c : ascii) : option ascii :=
  if Ascii.eqb c "034" then Some "034"%char
  else if Ascii.eqb c "\" then Some "\"%char
  else if Ascii.eqb c "/" then Some "/"%char
  else if Ascii.eqb c "b" then Some "008"%char
  else if Ascii.eqb c "f" then Some "012"%char
  else if Ascii.eqb c "n" then Some "010"%char
  else if Ascii.eqb c "r" then Some "013"%char
  else if Ascii.eqb c "t" then Some "009"%char
  else None.

(** The low half of a surrogate pair at the head of [s]. *)
Definition low_surrogate (s : string) : option (Z * string) :=
  match s with
  | String "\" (String "u" (String a (String b (String c (String d t))))) =>
      match hex4 a b c d with
      | Some lo => if (56320 <=? lo) && (lo <=? 57343) then Some (lo, t) else None
      | None => None
      end
  | _ => None
  end.

(** The text of a string after its opening quote: the string and what
    follows its closing quote. *)
Fixpoint scanstring (s : string) : scan (string * string) :=
  match s with
  | EmptyString => Bad "Unterminated string starting at"
  | String c s' =>
      if Ascii.eqb c "034" then Scanned (EmptyString, s')
      else if Ascii.eqb c "\" then
        match s' with
        | EmptyString => Bad "Unterminated string starting at"
        | String "u" s'' =>
            match s'' with
            | String a (String b (String c' (String d t))) =>
                match hex4 a b c' d with
                | Some cp =>
                    match
                      (if (55296 <=? cp) && (cp <=? 56319)
                       then low_surrogate t else None),
                      t
                    with
                    | Some (lo, _),
                      String _ (String _ (String _ (String _ (String _ (String _ t'))))) =>
                        '(r, rest) ← scanstring t';
                        Scanned
                          (utf8 (65536 + (cp - 55296) * 1024 + (lo - 56320))
                             +:+ r, rest)
                    | _, _ =>
                        '(r, rest) ← scanstring t;
                        Scanned (utf8 cp +:+ r, rest)
                    end
                | None => Bad "Invalid \uXXXX escape"
                end
            | _ => Bad "Invalid \uXXXX escape"
            end
        | String e s'' =>
            match simple_escape e with
            | Some ch =>
                '(r, rest) ← scanstring s'';
                Scanned (String ch r, rest)
            | None => Bad "Invalid \escape"
            end
        end
      else if (nat_of_ascii c <? 32)%nat then
        Bad "Invalid control character at"
      else
        '(r, rest) ← scanstring s';
        Scanned (String c r, rest)
  end.

(** A number at the head of [s]: an optional minus sign, an integer
    part ([0], or digits that do not start with [0]), an optional
    fraction (a point and digits) and an optional exponent. *)
Definition scan_number (s : string) : option (value * string) :=
  let '(neg, s0) :=
    match s with String "-" r => (true, r) | _ => (false, s) end in
  '(ip, s1) ←
    match s0 with
    | String "0" r => Some (0, r)
    | String c _ =>
        if PyStr.is_digit c
        then let '(v, _, r) := PyFloat.read_digits 0 0 s0 in Some (v, r)
        else None
    | EmptyString => None
    end;
  let '(m, nfrac, s2) :=
    match s1 with
    | String "." r =>
        let '(v, n, r') := PyFloat.read_digits ip 0 r in
        if n =? 0 then (ip, 0, s1) else (v, n, r')
    | _ => (ip, 0, s1)
    end in
  let '(ex, s3) := PyFloat.read_exponent s2 in
  if (nfrac =? 0) && String.eqb s3 s2
  then Some (JInt (if neg then - ip else ip), s2)
  else Some (JFloat (PyFloat.of_decimal neg m (ex - nfrac)), s3).

Definition starts_with (p s : string) : option string :=
  if String.prefix p s
  then Some (String.substring (String.length p)
               (String.length s - String.length p) s)
  else None.

(** The constants and numbers. *)
Definition scan_atom (s : string) : scan (value * string) :=
  match starts_with "null" s, starts_with "true" s, starts_with "false" s with
  | Some r, _, _ => Scanned (JNull, r)
  | _, Some r, _ => Scanned (JBool true, r)
  | _, _, Some r => Scanned (JBool false, r)
  | _, _, _ =>
      match scan_number s with
      | Some r => Scanned r
      | None =>
          match starts_with "NaN" s, starts_with "Infinity" s,
                starts_with "-Infinity" s with
          | Some r, _, _ => Scanned (JFloat S754_nan, r)
          | _, Some r, _ => Scanned (JFloat (S754_infinity false), r)
          | _, _, Some r => Scanned (JFloat (S754_infinity true), r)
          | _, _, _ => Bad "Expecting value"
          end
      end
  end.

(** [d[k] = v] on a dictionary kept in insertion order. *)
Fixpoint dict_set (k : string) (v : value) (d : list (string * value))
  : list (string * value) :=
  match d with
  | [] => [(k, v)]
  | (k', v') :: d' =>
      if String.eqb k k' then (k, v) :: d' else (k', v') :: dict_set k v d'
  end.

(** One value at the head of [s].  [fuel] bounds the nesting depth and
    the number of items of an array or object; the length of the text is
    enough for both. *)
Fixpoint scan_once (fuel : nat) (s : string) {struct fuel}
  : scan (value * string) :=
  match fuel with
  | O => Bad "Expecting value"
  | S f =>
      let fix items (n : nat) (s : string) (acc : list value) {struct n}
        : scan (value * string) :=
        match n with
        | O => Bad "Expecting value"
        | S n' =>
            '(v, r) ← scan_once f s;
            match skip_ws r with
            | String "]" r' => Scanned (JList (rev (v :: acc)), r')
            | String "," r' => items n' (skip_ws r') (v :: acc)
            | _ => Bad "Expecting ',' delimiter"
            end
        end in
      let fix members (n : nat) (s : string) (acc : list (string * value))
          {struct n} : scan (value * string) :=
        match n with
        | O => Bad "Expecting value"
        | S n' =>
            match s with
            | String "034" r0 =>
                '(k, r1) ← scanstring r0;
                match skip_ws r1 with
                | String ":" r2 =>
                    '(v, r3) ← scan_once f (skip_ws r2);
                    let acc' := dict_set k v acc in
                    match skip_ws r3 with
                    | String "}" r' => Scanned (JDict acc', r')
                    | String "," r' => members n' (skip_ws r') acc'
                    | _ => Bad "Expecting ',' delimiter"
                    end
                | _ => Bad "Expecting ':' delimiter"
                end
            | _ => Bad "Expecting property name enclosed in double quotes"
            end
        end in
      match s with
      | String "034" r =>
          '(str, rest) ← scanstring r;
          Scanned (JStr str, rest)
      | String "{" r =>
          match skip_ws r with
          | String "}" r' => Scanned (JDict [], r')
          | r' => members (S (String.length r')) r' []
          end
      | String "[" r =>
          match skip_ws r with
          | String "]" r' => Scanned (JList [], r')
          | r' => items (S (String.length r')) r' []
          end
      | _ => scan_atom s
      end
  end.

(** [json.loads(s)] *)
Definition loads (s : string) : res value :=
  match scan_once (S (String.length s)) (skip_ws s) with
  | Scanned (v, rest) =>
      match skip_ws rest with
      | EmptyString => Ok v
      | _ => Raise (Exn JSONDecodeError "Extra data")
      end
  | Bad msg => Raise (Exn JSONDecodeError msg)
  end.

(** Truth value: [None], [False], zero and the empty string, list and
    dictionary are false. *)
Definition truthy (v : value) : bool :=
  match v with
  | JNull => false
  | JBool b => b
  | JInt z => negb (z =? 0)
  | JFloat f => PyFloat.truthy f
  | JStr s => negb (String.eqb s "")
  | JList l => match l with [] => false | _ => true end
  | JDict d => match d with [] => false | _ => true end
  end.

End Json.

(** ** The job store and its read path *)

(** The jobs directory: the files in it, by name, with their contents. *)
Abbreviation jobs_dir := (gmap string string).

(** FIX: Crash-Proof Loader *)
Definition load_job_status (JOBS_DIR : jobs_dir) (job_id : string)
  : res (option Json.value) :=
  match JOBS_DIR !! (job_id +:+ ".json") with
  | Some text =>
      let content := PyStr.strip PyStr.is_space_str text in
      match (if String.eqb content "" then Ok None
             else v ← Json.loads content; Ok (Some v)) with
      | Ok r => Ok r
      | Raise e =>
          match exn_kind_of e with
          | JSONDecodeError => Ok None
          | _ => Raise e
          end
      end
  | None => Ok None
  end.

(** [not status] *)
Definition falsy (status : option Json.value) : bool :=
  match status with
  | Some v => negb (Json.truthy v)
  | None => true
  end.

(** [GET /status/{job_id}] *)
Definition get_status (JOBS_DIR : jobs_dir) (job_id : string)
  : res (option Json.value) :=
  status ← load_job_status JOBS_DIR job_id;
  if falsy status then Raise (Exn (HTTPException 404) "Job not found")
  else Ok status.

(** The files that [JOBS_DIR.glob("*.json")] yields. *)
Definition glob_json (JOBS_DIR : jobs_dir) : list (string * string) :=
  filter (λ f, PyStr.ends_with ".json" (fst f) = true) (map_to_list JOBS_DIR).

Fixpoint load_all (files : list (string * string)) : res (list Json.value) :=
  match files with
  | [] => Ok []
  | f :: rest =>
      v ← Json.loads (snd f);
      vs ← load_all rest;
      Ok (v :: vs)
  end.

(** [GET /jobs]: the count and the snapshots. *)
Definition list_jobs (JOBS_DIR : jobs_dir) : res (Z * list Json.value) :=
  jobs_list ← load_all (glob_json JOBS_DIR);
  Ok (Z.of_nat (length jobs_list), jobs_list).

(** ** Writing snapshots: [json.dump] *)

Module JsonDump.

(** The code points of a text held as UTF-8 bytes; a byte that starts no
    well-formed sequence stands for itself. *)
Fixpoint code_points (s : string) : list Z :=
  match s with
  | EmptyString => []
  | String a s1 =>
      let x := Z.of_nat (nat_of_ascii a) in
      let cont (c : ascii) : option Z :=
        let y := Z.of_nat (nat_of_ascii c) in
        if (128 <=? y) && (y <? 192) then Some (y - 128) else None in
      match s1 with
      | String b s2 =>
          match cont b with
          | Some y1 =>
              if (192 <=? x) && (x <? 224) then
                ((x - 192) * 64 + y1) :: code_points s2
              else
                match s2 with
                | String c s3 =>
                    match cont c with
                    | Some y2 =>
                        if (224 <=? x) && (x <? 240) then
                          ((x - 224) * 4096 + y1 * 64 + y2) :: code_points s3
                        else
                          match s3 with
                          | String d s4 =>
                              match cont d with
                              | Some y3 =>
                                  if (240 <=? x) && (x <? 248) then
                                    ((x - 240) * 262144 + y1 * 4096
                                       + y2 * 64 + y3) :: code_points s4
                                  else x :: code_points s1
                              | None => x :: code_points s1
                              end
                          | EmptyString => x :: code_points s1
                          end
                    | None => x :: code_points s1
                    end
                | EmptyString => x :: code_points s1
                end
          | None => x :: code_points s1
          end
      | EmptyString => [x]
      end
  end.

Definition hex_digit (n : Z) : ascii :=
  if n <? 10 then ascii_of_nat (Z.to_nat (48 + n))
  else ascii_of_nat (Z.to_nat (87 + n)).

(** [\uXXXX], four lower-case hexadecimal digits. *)
Definition u_escape (n : Z) : string :=
  String "\" (String "u"
    (String (hex_digit (n / 4096 mod 16))
       (String (hex_digit (n / 256 mod 16))
          (String (hex_digit (n / 16 mod 16))
             (String (hex_digit (n mod 16)) ""))))).

(** What one code point becomes inside a string of the output. *)
Definition escape (cp : Z) : string :=
  if cp =? 92 then "\\"
  else if cp =? 34 then String "\" (String "034" "")
  else if cp =? 8 then "\b"
  else if cp =? 12 then "\f"
  else if cp =? 10 then "\n"
  else if cp =? 13 then "\r"
  else if cp =? 9 then "\t"
  else if (32 <=? cp) && (cp <=? 126) then String (ascii_of_nat (Z.to_nat cp)) ""
  else if cp <? 65536 then u_escape cp
  else u_escape (55296 + (cp - 65536) / 1024)
         +:+ u_escape (56320 + (cp - 65536) mod 1024).

(** [json.dumps(s)] for a string. *)
Definition dumps_str (s : string) : string :=
  String "034" (PyStr.concat (map escape (code_points s))) +:+ String "034" "".

(** [json.dumps(v)] for an optional string: [null] for [None]. *)
Definition dumps_opt (v : option string) : string :=
  match v with
  | Some s => dumps_str s
  | None => "null"
  end.

End JsonDump.

(** The text that [save_job_status] writes: [json.dump(data, f)] for the
    dictionary of the five fields, [updated_at] being the time of the
    write. *)
Definition snapshot_json (job_id status : string) (progress : Z)
    (error : option string) (updated_at : string) : string :=
  "{" +:+ JsonDump.dumps_str "job_id" +:+ ": " +:+ JsonDump.dumps_str job_id
    +:+ ", " +:+ JsonDump.dumps_str "status" +:+ ": "
    +:+ JsonDump.dumps_str status
    +:+ ", " +:+ JsonDump.dumps_str "progress" +:+ ": " +:+ PyStr.of_int progress
    +:+ ", " +:+ JsonDump.dumps_str "error" +:+ ": " +:+ JsonDump.dumps_opt error
    +:+ ", " +:+ JsonDump.dumps_str "updated_at" +:+ ": "
    +:+ JsonDump.dumps_str updated_at +:+ "}".

(** The effect of [save_job_status] on the jobs directory: the file of
    the job is written anew. *)
Definition save_job_file (JOBS_DIR : jobs_dir) (job_id status : string)
    (progress : Z) (error : option string) (updated_at : string) : jobs_dir :=
  <[job_id +:+ ".json" := snapshot_json job_id status progress error updated_at]>
    JOBS_DIR.

(** The jobs directory after the writes of a trace; [now n] is the time
    of the write number [n]. *)
Fixpoint store_after (now : nat → string) (n : nat) (evs : list event)
    (JOBS_DIR : jobs_dir) : jobs_dir :=
  match evs with
  | [] => JOBS_DIR
  | Save j st p e :: rest =>
      store_after now (S n) rest (save_job_file JOBS_DIR j st p e (now n))
  | Launch _ :: rest => store_after now n rest JOBS_DIR
  end.

(** ** The result request *)

(** What a request handler answers: a response, an HTTP error that it
    raises, or another exception (by its name) that leaves it. *)
Inductive reply (A : Type) :=
  | Reply (a : A)
  | HTTPError (status_code : Z) (detail : string)
  | Unhandled (exception : string).
Arguments Reply {A} a.
Arguments HTTPError {A} status_code detail.
Arguments Unhandled {A} exception.

Fixpoint dict_get (key : string) (d : list (string * Json.value))
  : option Json.value :=
  match d with
  | [] => None
  | (k, v) :: d' => if String.eqb key k then Some v else dict_get key d'
  end.

(** [v[key]] for a decoded value [v] and a string [key]: the item, or the
    name of the exception. *)
Definition getitem (v : Json.value) (key : string) : string + Json.value :=
  match v with
  | Json.JDict d =>
      match dict_get key d with
      | Some x => inr x
      | None => inl "KeyError"
      end
  | _ => inl "TypeError"
  end.

(** [v != s] for a decoded value [v] and a string [s]. *)
Definition differs (v : Json.value) (s : string) : bool :=
  match v with
  | Json.JStr t => negb (String.eqb t s)
  | _ => true
  end.

(** The file response: path, media type and file name. *)
Record FileResponse := {
  path : string;
  media_type : string;
  filename : string
}.

(** [GET /result/{job_id}] *)
Definition get_result (env : environment) (JOBS_DIR : jobs_dir)
    (job_id : string) : reply FileResponse :=
  match load_job_status JOBS_DIR job_id with
  | Raise e => Unhandled (exn_msg e)
  | Ok status =>
      if falsy status then HTTPError 404 "Job not found"
      else
        match status with
        | None => HTTPError 404 "Job not found"
        | Some v =>
            match getitem v "status" with
            | inl exception => Unhandled exception
            | inr st =>
                if differs st "completed" then HTTPError 400 "Not ready"
                else
                  let output_path := OUTPUT_DIR env (job_id +:+ ".mp4") in
                  if negb (path_exists env output_path)
                  then HTTPError 404 "File missing"
                  else Reply {| path := output_path;
                                media_type := "video/mp4";
                                filename := "render_" +:+ job_id +:+ ".mp4" |}
            end
        end
  end.

(** ** Notions the properties are stated with *)

(** *** Traces *)

Definition is_save (e : event) : bool :=
  match e with Save _ _ _ _ => true | Launch _ => false end.

Definition is_launch (e : event) : bool :=
  match e with Launch _ => true | Save _ _ _ _ => false end.

(** The snapshot writes of a trace, in order. *)
Definition saves (evs : list event) : list event := List.filter is_save evs.

(** The launches of the engine in a trace. *)
Definition launches (evs : list event) : list event := List.filter is_launch evs.

(** The write of the [except] clause of the supervisor. *)
Definition failed (job_id : string) (e : exn) : event :=
  Save job_id "failed" 0 (Some (exn_msg e)).

(** A progress write of job [j]: status processing, progress at most 99. *)
Definition progress_write (j : string) (e : event) : Prop :=
  ∃ p, e = Save j "processing" p None ∧ p <= 99.

(** A terminal write of job [j]: completed with progress 100, or failed. *)
Definition terminal_write (j : string) (e : event) : Prop :=
  e = Save j "completed" 100 None ∨ ∃ p msg, e = Save j "failed" p (Some msg).

(** *** Clock texts *)

Definition digit (n : Z) : ascii := ascii_of_nat (48 + Z.to_nat n).

Definition two_digits (n : Z) : string :=
  String (digit (n / 10)) (String (digit (n mod 10)) EmptyString).

(** The marker [HH:MM:SS.ff]. *)
Definition clock (hh mm ss ff : Z) : string :=
  two_digits hh +:+ ":" +:+ two_digits mm +:+ ":" +:+ two_digits ss
    +:+ "." +:+ two_digits ff.

(** The float nearest to an integer. *)
Definition nearest (z : Z) : PyFloat.float :=
  binary_normalize PyFloat.prec PyFloat.emax z 0 false.

(** [h*3600 + m*60 + s] for the marker [HH:MM:SS.ff], [s] being the
    float that [SS.ff] reads as. *)
Definition clock_seconds (hh mm ss ff : Z) : PyFloat.float :=
  PyFloat.add (nearest (hh * 3600 + mm * 60))
              (PyFloat.of_decimal false (ss * 100 + ff) (-2)).

(** [(current_sec / total_duration) * 100] *)
Definition percentage (current_sec total_duration : PyFloat.float)
  : PyFloat.float :=
  PyFloat.mul (SFdiv PyFloat.prec PyFloat.emax current_sec total_duration)
              (nearest 100).

(** A time text that the conversion cannot read: the body of its [try]
    raises. *)
Definition malformed (time_str : string) : Prop :=
  ∃ e, time_str_to_sec_try time_str = Raise e.

(** *** Escaping *)

(** A backslash escapes the character after it.  [unescaped target esc s]
    tells whether [target] occurs in [s] without being escaped; [esc]
    tells whether the first character of [s] is escaped. *)
Fixpoint unescaped (target : ascii) (esc : bool) (s : string) : bool :=
  match s with
  | EmptyString => false
  | String c s' =>
      if esc then unescaped target false s'
      else if Ascii.eqb c "\" then unescaped target true s'
      else if Ascii.eqb c target then true
      else unescaped target false s'
  end.

(** What one character of the content becomes. *)
Definition escape_char (c : ascii) : string :=
  if Ascii.eqb c "'" then "'\''"
  else if Ascii.eqb c ":" then "\:"
  else String c EmptyString.

Fixpoint occurs (target : ascii) (s : string) : bool :=
  match s with
  | EmptyString => false
  | String c s' => Ascii.eqb c target || occurs target s'
  end.

(** *** Floats *)

(** The integers from 0 up to [n], [n] left out. *)
Definition range (n : nat) : list Z := map Z.of_nat (seq 0 n).

(** Equality of floats as data. *)
Definition same_float (a b : PyFloat.float) : bool :=
  match a, b with
  | S754_zero s, S754_zero t => Bool.eqb s t
  | S754_infinity s, S754_infinity t => Bool.eqb s t
  | S754_nan, S754_nan => true
  | S754_finite s m e, S754_finite t n f =>
      Bool.eqb s t && Pos.eqb m n && Z.eqb e f
  | _, _ => false
  end.

(** The field [HH] or [MM] of a marker reads as its number and holds no
    colon. *)
Definition reads_as_int (n : Z) : bool :=
  match PyInt.of_string (two_digits n) with
  | Ok v => v =? n
  | Raise _ => false
  end && negb (occurs ":" (two_digits n)).

(** The field [SS.ff] of a marker reads as the float nearest to it and
    holds no colon. *)
Definition reads_as_float (ss ff : Z) : bool :=
  match PyFloat.of_string (two_digits ss +:+ "." +:+ two_digits ff) with
  | Ok v => same_float v (PyFloat.of_decimal false (ss * 100 + ff) (-2))
  | Raise _ => false
  end && negb (occurs ":" (two_digits ss +:+ "." +:+ two_digits ff)).

(** The hours and minutes of a marker convert to a float. *)
Definition converts (hh mm : Z) : bool :=
  match PyFloat.of_int (hh * 3600 + mm * 60) with
  | Ok v => same_float v (nearest (hh * 3600 + mm * 60))
  | Raise _ => false
  end.

(** Not a negative number: zero, positive, infinite or NaN. *)
Definition not_negative (f : PyFloat.float) : Prop :=
  match f with
  | S754_finite true _ _ => False
  | _ => True
  end.

(** [0 <= f <= 1] *)
Definition in_unit_interval (f : PyFloat.float) : bool :=
  SFleb PyFloat.zero f && SFleb f (nearest 1).

(** *** Examples *)

Definition dec (m e : Z) : PyFloat.float := PyFloat.of_decimal false m e.

(** A machine on which the prober prints the given duration and
    dimensions, only the overlay file [a.png] exists, and the engine
    prints the given lines and exits with the given code. *)
Definition machine (duration dimensions : string) (lines : list string)
    (code : Z) : environment := {|
  check_output := λ cmd,
    if existsb (String.eqb "format=duration") cmd
    then Ok (duration +:+ String "010" "")
    else Ok (dimensions +:+ String "010" "");
  Popen := λ cmd, Ok {| stderr := lines; returncode := code |};
  OUTPUT_DIR := λ name, "/srv/outputs/" +:+ name;
  OVERLAY_DIR := λ name, "/srv/uploads/overlays/" +:+ name;
  path_exists := λ p, String.eqb p "/srv/uploads/overlays/a.png"
|}.

(** The prober reports 100 seconds and 1920x1080. *)
Definition example_env : list string → Z → environment :=
  machine "100.000000" "1920x1080".


(** The overlay of the example: text "Hi" from 1 to 3 at (0.5, 0.5), no
    size given. *)
Definition hi_item : overlay_item := {|
  it_id := None; it_type := "text"; it_content := "Hi";
  it_start_time := dec 1 0; it_end_time := dec 3 0;
  it_x := dec 5 (-1); it_y := dec 5 (-1);
  it_width := None; it_height := None
|}.

(** A snapshot as the store writes it. *)
Definition snapshot_text : string :=
  "{" +:+ String "034" "job_id" +:+ String "034" ": "
      +:+ String "034" "J" +:+ String "034" ", "
      +:+ String "034" "status" +:+ String "034" ": "
      +:+ String "034" "processing" +:+ String "034" ", "
      +:+ String "034" "progress" +:+ String "034" ": 42, "
      +:+ String "034" "error" +:+ String "034" ": null, "
      +:+ String "034" "updated_at" +:+ String "034" ": "
      +:+ String "034" "2024-05-01T10:00:00.000000" +:+ String "034" "}".

(** The first [n] characters of a text: a write cut short. *)
Definition truncated (n : nat) (text : string) : string :=
  String.substring 0 n text.

(** An image overlay of the given file and size. *)
Definition image_item (file : string) (w h : option (option PyFloat.float))
  : overlay_item := {|
  it_id := None; it_type := "image"; it_content := file;
  it_start_time := dec 0 0; it_end_time := dec 5 0;
  it_x := dec 25 (-2); it_y := dec 75 (-2);
  it_width := w; it_height := h
|}.

(** *** Inputs *)

(** The input that an overlay adds to the command: the file of an image
    or video overlay that exists. *)
Definition added_inputs (env : environment) (ov : OverlayMetadata)
  : list string :=
  if (String.eqb (ov_type ov) "image" || String.eqb (ov_type ov) "video")
     && path_exists env (OVERLAY_DIR env (ov_content ov))
  then ["-i"; OVERLAY_DIR env (ov_content ov)]
  else [].

(** *** Snapshots *)

(** A text of 7-bit characters. *)
Fixpoint seven_bit (s : string) : bool :=
  match s with
  | EmptyString => true
  | String c s' => (nat_of_ascii c <? 128)%nat && seven_bit s'
  end.

(** What stands between the quotes when [json.dumps] writes a string. *)
Definition encoded (s : string) : string :=
  PyStr.concat (map JsonDump.escape (JsonDump.code_points s)).

(** The dictionary of the five fields of a snapshot, as [json.loads]
    returns it. *)
Definition snapshot_value (job_id status : string) (progress : Z)
    (error : option string) (updated_at : string) : Json.value :=
  Json.JDict
    [("job_id", Json.JStr job_id); ("status", Json.JStr status);
     ("progress", Json.JInt progress);
     ("error", match error with
               | Some msg => Json.JStr msg
               | None => Json.JNull
               end);
     ("updated_at", Json.JStr updated_at)].

(** *** Digit strings *)

(** every character is one of [0-9] *)
Fixpoint all_digits (s : string) : bool :=
  match s with
  | EmptyString => true
  | String c s' => PyStr.is_digit c && all_digits s'
  end.

(** *** The progress formula in exact arithmetic *)

(** The number that a finite float stands for. *)
Definition exact (f : PyFloat.float) : option Q :=
  match f with
  | S754_zero _ => Some (inject_Z 0)
  | S754_finite s m e =>
      Some (Qmult (inject_Z (cond_Zopp s (Zpos m))) (Qpower (inject_Z 2) e))
  | _ => None
  end.

(** The progress as the specification words it, for the marker
    [HH:MM:SS.ff] and the duration [d]: the floor of
    [((h*3600 + m*60 + s) / d) * 100], [s] being [SS.ff], clamped to at
    most 99. *)
Definition claimed_progress (hh mm ss ff : Z) (d : Q) : Z :=
  Z.min
    (Qfloor
       (Qmult
          (Qdiv (Qplus (inject_Z (hh * 3600 + mm * 60))
                       (Qdiv (inject_Z (ss * 100 + ff)) (inject_Z 100)))
                d)
          (inject_Z 100)))
    99.

(** * Properties *)

(** ** The error monad *)

Lemma bind_Ok {A B} (f : A → res B) (a : A) : (Ok a ≫= f) = f a.
Proof. reflexivity. Qed.

Lemma bind_Raise {A B} (f : A → res B) (e : exn) : (Raise e ≫= f) = Raise e.
Proof. reflexivity. Qed.

Lemma bind_Ok_inv {A B} (f : A → res B) (m : res A) (b : B) :
  (m ≫= f) = Ok b → ∃ a, m = Ok a ∧ f a = Ok b.
Proof. destruct m as [a|e]; simpl; [eauto | discriminate]. Qed.

Lemma PyInt_min_spec (a b : Z) : PyInt.min a b = Z.min a b.
Proof. unfold PyInt.min. destruct (Z.ltb_spec b a); lia. Qed.

Lemma PyInt_max_spec (a b : Z) : PyInt.max a b = Z.max a b.
Proof. unfold PyInt.max. destruct (Z.ltb_spec a b); lia. Qed.

(** ** The filter graph compiler *)

Lemma or_default_truthy (f d : PyFloat.float) :
  PyFloat.truthy f = true → or_default (Some f) d = f.
Proof. intros Hf. unfold or_default. now rewrite Hf. Qed.

Lemma or_default_zero (d : PyFloat.float) :
  or_default (Some PyFloat.zero) d = d.
Proof. reflexivity. Qed.

Lemma or_default_None (d : PyFloat.float) : or_default None d = d.
Proof. reflexivity. Qed.

(** Making even rounds down to the even number at or just below. *)
Lemma make_even_spec (t : Z) :
  Z.even (make_even t) = true ∧ make_even t <= t ∧ t - 1 <= make_even t.
Proof.
  unfold make_even.
  pose proof (Z.mod_pos_bound t 2 ltac:(lia)) as Hb.
  destruct (Z.eqb_spec (t mod 2) 0) as [H0|H1]; simpl.
  - repeat split; try lia.
    rewrite Zeven_mod. now apply Z.eqb_eq.
  - repeat split; try lia.
    rewrite Zeven_mod. apply Z.eqb_eq.
    rewrite Zminus_mod. replace (t mod 2) with 1 by lia. reflexivity.
Qed.

(** The example overlay has height 0.2 once the model is built, and its
    font size follows. *)
Lemma hi_item_height :
  ov_height (OverlayMetadata_init hi_item) = Some f_0_2.
Proof. reflexivity. Qed.

(** C1, as stated, fails: with no height given the draw-text stage of the
    example overlay does not carry the font size of height 0.05 (54). *)
Lemma C1_font_size_counterexample :
  ¬ (∃ g fs,
       overlay_step (example_env [] 0) 1920 1080 0
         (OverlayMetadata_init hi_item) (initial_graph "in.mp4") = Ok g
       ∧ to_pixels f_0_05 1080 = Ok fs
       ∧ filter_complex g =
           "[0:v]drawtext=text='Hi':fontcolor=white:fontsize="
             +:+ PyStr.of_int (PyInt.max 16 fs)
             +:+ ":x=960:y=540:enable='between(t,1.0,3.0)'[v1];").
Proof.
  intros (g & fs & Hg & Hfs & Hfc).
  vm_compute in Hg. vm_compute in Hfs.
  injection Hg as <-. injection Hfs as <-.
  vm_compute in Hfc. discriminate Hfc.
Qed.

(** C1 (amended): the overlay text "Hi", start 1, end 3, x 0.5, y 0.5, no
    height given, on a 1920x1080 frame compiles to a draw-text stage at
    pixel position (960, 540), gated by between(t,1.0,3.0), whose font
    size comes from the default height 0.2 of the model: 216.  The
    fallback 0.05 (54 pixels) is used when the height is null. *)
Theorem C1_text_overlay_example (env : environment) (video_path : string) :
  overlay_step env 1920 1080 0 (OverlayMetadata_init hi_item)
      (initial_graph video_path)
    = Ok {| input_args := ["-i"; video_path];
            filter_complex :=
              "[0:v]drawtext=text='Hi':fontcolor=white:fontsize=216:x=960:y=540:enable='between(t,1.0,3.0)'[v1];";
            last_stream_label := "[v1]" |}
  ∧ font_size (OverlayMetadata_init hi_item) 1080 = Ok 216
  ∧ to_pixels f_0_2 1080 = Ok 216
  ∧ to_pixels (ov_x (OverlayMetadata_init hi_item)) 1920 = Ok 960
  ∧ to_pixels (ov_y (OverlayMetadata_init hi_item)) 1080 = Ok 540
  ∧ font_size
      (OverlayMetadata_init
         {| it_id := None; it_type := "text"; it_content := "Hi";
            it_start_time := dec 1 0; it_end_time := dec 3 0;
            it_x := dec 5 (-1); it_y := dec 5 (-1);
            it_width := None; it_height := Some None |}) 1080 = Ok 54.
Proof. repeat split; vm_compute; reflexivity. Qed.

Lemma image_or_video_not_text (ov : OverlayMetadata) :
  String.eqb (ov_type ov) "image" || String.eqb (ov_type ov) "video" = true →
  String.eqb (ov_type ov) "text" = false.
Proof.
  intros H. apply orb_true_iff in H as [H|H];
    apply String.eqb_eq in H; rewrite H; reflexivity.
Qed.

(** C7, as stated, fails: the width fraction 0.0 lies in [0,1], its
    truncated product with the frame width 1920 is 0, and the target
    width is 384. *)
Lemma C7_zero_fraction_counterexample :
  ¬ (∀ size dim t p,
       in_unit_interval size = true →
       target_size (Some size) dim = Ok t →
       to_pixels size dim = Ok p →
       Z.even t = true ∧ t <= p).
Proof.
  intros H.
  destruct (H PyFloat.zero 1920 384 0) as [_ Hle];
    try (vm_compute; reflexivity).
  lia.
Qed.

(** C7 (amended): for an image or clip overlay whose asset exists, the
    width and height given to the scale stage are even, and each is the
    truncated product of the effective fraction ([size or 0.2]: a null or
    zero fraction is replaced by 0.2) and the frame dimension, rounded
    down to an even number: at most that product and at least one less. *)
Theorem C7_scale_target_even (env : environment) (W H i : Z)
    (ov : OverlayMetadata) (g : graph) (x_px y_px pw ph : Z) :
  String.eqb (ov_type ov) "image" || String.eqb (ov_type ov) "video" = true →
  path_exists env (OVERLAY_DIR env (ov_content ov)) = true →
  to_pixels (ov_x ov) W = Ok x_px →
  to_pixels (ov_y ov) H = Ok y_px →
  to_pixels (or_default (ov_width ov) f_0_2) W = Ok pw →
  to_pixels (or_default (ov_height ov) f_0_2) H = Ok ph →
  ∃ tw th,
    target_size (ov_width ov) W = Ok tw ∧
    target_size (ov_height ov) H = Ok th ∧
    (Z.even tw = true ∧ tw <= pw ∧ pw - 1 <= tw) ∧
    (Z.even th = true ∧ th <= ph ∧ ph - 1 <= th) ∧
    overlay_step env W H i ov g =
      Ok {| input_args :=
              (input_args g ++ ["-i"; OVERLAY_DIR env (ov_content ov)])%list;
            filter_complex :=
              (filter_complex g
                 +:+ ("[" +:+ PyStr.of_int
                               (Z.of_nat (length (input_args g ++
                                  ["-i"; OVERLAY_DIR env (ov_content ov)])%list)
                                  / 2 - 1)
                        +:+ ":v]scale=" +:+ PyStr.of_int tw +:+ ":"
                        +:+ PyStr.of_int th
                        +:+ ("[sc" +:+ PyStr.of_int i +:+ "]") +:+ ";"))
                +:+ (last_stream_label g
                       +:+ ("[sc" +:+ PyStr.of_int i +:+ "]") +:+ "overlay="
                       +:+ PyStr.of_int x_px +:+ ":" +:+ PyStr.of_int y_px
                       +:+ ":"
                     +:+ enable ov
                       +:+ ("[v" +:+ PyStr.of_int (i + 1) +:+ "]") +:+ ";");
            last_stream_label := "[v" +:+ PyStr.of_int (i + 1) +:+ "]" |}.
Proof.
  intros Hty Hex Hx Hy Hw Hh.
  exists (make_even pw), (make_even ph).
  assert (Htw : target_size (ov_width ov) W = Ok (make_even pw))
    by (unfold target_size; rewrite Hw; reflexivity).
  assert (Hth : target_size (ov_height ov) H = Ok (make_even ph))
    by (unfold target_size; rewrite Hh; reflexivity).
  repeat split; try apply make_even_spec; try assumption.
  unfold overlay_step.
  rewrite Hx, Hy. simpl.
  rewrite (image_or_video_not_text ov Hty), Hty, Hex. simpl.
  rewrite Htw, Hth. reflexivity.
Qed.

(** The theorem applies to the image [a.png] of width fraction 0.333 on a
    1920x1080 frame: 639 is made 638, and 216 stays. *)
Lemma C7_scale_target_even_witness :
  ∃ tw th,
    target_size (Some (dec 333 (-3))) 1920 = Ok tw ∧
    target_size (Some f_0_2) 1080 = Ok th ∧
    (Z.even tw = true ∧ tw <= 639 ∧ 639 - 1 <= tw) ∧
    (Z.even th = true ∧ th <= 216 ∧ 216 - 1 <= th).
Proof.
  destruct (C7_scale_target_even (example_env [] 0) 1920 1080 2
              (OverlayMetadata_init
                 (image_item "a.png" (Some (Some (dec 333 (-3)))) None))
              (initial_graph "in.mp4") 480 810 639 216)
    as (tw & th & Hw & Hh & Ew & Eh & _);
    try (vm_compute; reflexivity).
  exists tw, th. repeat split; first [exact Hw | exact Hh | apply Ew | apply Eh].
Defined.

(** *** Escaping of the text content *)

Lemma append_nil_l (s : string) : "" +:+ s = s.
Proof. reflexivity. Qed.

Lemma append_cons (c : ascii) (a b : string) :
  String c a +:+ b = String c (a +:+ b).
Proof. reflexivity. Qed.

Lemma append_assoc (a b c : string) : (a +:+ b) +:+ c = a +:+ (b +:+ c).
Proof.
  induction a as [|x a IH]; [reflexivity|].
  rewrite !append_cons. now rewrite IH.
Qed.

Lemma append_nil_r (a : string) : a +:+ "" = a.
Proof.
  induction a as [|x a IH]; [reflexivity|].
  rewrite append_cons. now rewrite IH.
Qed.

Lemma replace_app (old : ascii) (new a b : string) :
  PyStr.replace old new (a +:+ b)
  = PyStr.replace old new a +:+ PyStr.replace old new b.
Proof.
  induction a as [|c a IH]; [reflexivity|].
  rewrite append_cons. simpl.
  destruct (Ascii.eqb c old); rewrite IH.
  - now rewrite append_assoc.
  - now rewrite append_cons.
Qed.

Lemma safe_text_cons (c : ascii) (s : string) :
  safe_text (String c s) = escape_char c +:+ safe_text s.
Proof.
  unfold safe_text, escape_char. simpl.
  destruct (Ascii.eqb_spec c "'") as [->|Hq].
  - rewrite replace_app. reflexivity.
  - simpl. destruct (Ascii.eqb c ":"); reflexivity.
Qed.

(** Content without a backslash: every colon of the emitted text is
    escaped. *)
Lemma safe_text_colons_escaped (content : string) :
  occurs "\" content = false →
  unescaped ":" false (safe_text content) = false.
Proof.
  induction content as [|c s IH]; intros Hb; [reflexivity|].
  simpl in Hb. apply orb_false_iff in Hb as [Hc Hs].
  rewrite safe_text_cons. unfold escape_char.
  destruct (Ascii.eqb_spec c "'") as [->|Hq]; [simpl; auto|].
  destruct (Ascii.eqb_spec c ":") as [->|Hcol]; [simpl; auto|].
  rewrite append_cons, append_nil_l. simpl. rewrite Hc.
  destruct (Ascii.eqb_spec c ":"); [contradiction|]. auto.
Qed.

(** C9 at the content [\:] (a backslash, then a colon): the backslash is
    copied as it is, so the emitted text is [\\:], where the two
    backslashes read as one escaped backslash and the colon of the
    content stands unescaped; the draw-text stage carries it. *)
Theorem C9_backslash_not_escaped (env : environment) :
  safe_text "\:" = "\\:"
  ∧ unescaped ":" false (safe_text "\:") = true
  ∧ (filter_complex <$>
       match overlay_step env 1920 1080 0
               (OverlayMetadata_init
                  {| it_id := None; it_type := "text"; it_content := "\:";
                     it_start_time := dec 1 0; it_end_time := dec 3 0;
                     it_x := dec 5 (-1); it_y := dec 5 (-1);
                     it_width := None; it_height := None |})
               (initial_graph "in.mp4") with
       | Ok g => Some g
       | Raise _ => None
       end)
    = Some "[0:v]drawtext=text='\\:':fontcolor=white:fontsize=216:x=960:y=540:enable='between(t,1.0,3.0)'[v1];".
Proof. repeat split; vm_compute; reflexivity. Qed.

(** ** The supervisor *)

(** The trace of a run, case by case. *)
Lemma process_video_task_cases (env : environment) (job_id video_path : string)
    (overlays : list OverlayMetadata) :
  process_video_task env job_id video_path overlays =
    match probe env video_path with
    | Raise e => [failed job_id e]
    | Ok (total_duration, W, H) =>
        Save job_id "processing" 0 None ::
        match build_filter env W H video_path overlays with
        | Raise e => [failed job_id e]
        | Ok g =>
            let cmd := ffmpeg_cmd g (OUTPUT_DIR env (job_id +:+ ".mp4")) in
            Launch cmd ::
            match Popen env cmd with
            | Raise e => [failed job_id e]
            | Ok proc =>
                (fst (report_progress job_id total_duration (stderr proc)) ++
                 match snd (report_progress job_id total_duration (stderr proc)) with
                 | Raise e => [failed job_id e]
                 | Ok _ =>
                     if returncode proc =? 0
                     then [Save job_id "completed" 100 None]
                     else [failed job_id
                             (Exn PlainException "FFmpeg process failed")]
                 end)%list
            end
        end
    end.
Proof.
  unfold process_video_task, process_video_try, failed.
  destruct (probe env video_path) as [[[d W] H]|e]; [|reflexivity].
  cbn [lift mbind task_bind save_job_status emit].
  destruct (build_filter env W H video_path overlays) as [g|e]; [|reflexivity].
  cbn [lift mbind task_bind save_job_status emit app].
  destruct (Popen env _) as [proc|e]; [|reflexivity].
  cbn [lift mbind task_bind save_job_status emit app].
  destruct (report_progress job_id d (stderr proc)) as [evs [[]|e]];
    cbn [fst snd]; [|reflexivity].
  destruct (returncode proc =? 0); unfold mbind, task_bind, lift, emit;
    simpl; rewrite ?app_nil_r; reflexivity.
Qed.

(** *** The progress loop *)

Lemma line_progress_le_99 (d : PyFloat.float) (line : string) (p : Z) :
  line_progress d line = Ok (Some p) → p <= 99.
Proof.
  unfold line_progress.
  destruct (search_time line) as [g|]; [|discriminate].
  destruct (PyFloat.ltb PyFloat.zero d); [|discriminate].
  destruct (PyFloat.div _ d) as [q|]; [|discriminate].
  destruct (PyFloat.of_int 100) as [h|]; [|discriminate].
  simpl. destruct (PyFloat.to_int _) as [pc|]; [|discriminate].
  simpl. intros [= <-]. rewrite PyInt_min_spec. lia.
Qed.

Lemma report_progress_cons (j : string) (d : PyFloat.float) (line : string)
    (rest : list string) :
  report_progress j d (line :: rest) =
    match line_progress d line with
    | Raise e => ([], Raise e)
    | Ok None => report_progress j d rest
    | Ok (Some p) =>
        (Save j "processing" p None :: fst (report_progress j d rest),
         snd (report_progress j d rest))
    end.
Proof.
  simpl. unfold mbind, task_bind, lift, save_job_status, emit, mret, task_ret.
  destruct (line_progress d line) as [[p|]|e]; [| |reflexivity];
    destruct (report_progress j d rest) as [evs r]; reflexivity.
Qed.

(** The loop writes progress snapshots only. *)
Lemma report_progress_writes (j : string) (d : PyFloat.float)
    (lines : list string) :
  Forall (progress_write j) (fst (report_progress j d lines)).
Proof.
  induction lines as [|line rest IH]; [constructor|].
  rewrite report_progress_cons.
  destruct (line_progress d line) as [[p|]|e] eqn:E; simpl; auto.
  constructor; [|exact IH].
  exists p. split; [reflexivity|]. eapply line_progress_le_99, E.
Qed.

Lemma progress_write_is_save (j : string) (e : event) :
  progress_write j e → is_save e = true.
Proof. intros (p & -> & _). reflexivity. Qed.

Lemma progress_write_not_terminal (j : string) (e : event) :
  progress_write j e → ¬ terminal_write j e.
Proof.
  intros (p & -> & _) [H|(q & msg & H)]; discriminate H.
Qed.

Lemma saves_progress (j : string) (evs : list event) :
  Forall (progress_write j) evs → saves evs = evs.
Proof.
  induction 1 as [|e evs He _ IH]; [reflexivity|].
  unfold saves in *. simpl. rewrite (progress_write_is_save j e He).
  now rewrite IH.
Qed.

Lemma saves_app (a b : list event) : saves (a ++ b) = (saves a ++ saves b)%list.
Proof. unfold saves. apply List.filter_app. Qed.

Lemma launches_progress (j : string) (evs : list event) :
  Forall (progress_write j) evs → launches evs = [].
Proof.
  induction 1 as [|e evs (p & -> & _) _ IH]; [reflexivity|].
  unfold launches in *. simpl. exact IH.
Qed.

(** The snapshot writes of a run: progress writes, then one terminal
    write, which is either the completion or the write of the [except]
    clause. *)
Lemma saves_of_run (env : environment) (job_id video_path : string)
    (overlays : list OverlayMetadata) :
  ∃ pre t,
    saves (process_video_task env job_id video_path overlays) = (pre ++ [t])%list
    ∧ Forall (progress_write job_id) pre
    ∧ (t = Save job_id "completed" 100 None ∨ ∃ e, t = failed job_id e).
Proof.
  rewrite process_video_task_cases.
  destruct (probe env video_path) as [[[d W] H]|e].
  2:{ exists [], (failed job_id e). repeat split; eauto. }
  assert (P0 : progress_write job_id (Save job_id "processing" 0 None))
    by (exists 0; split; [reflexivity | lia]).
  destruct (build_filter env W H video_path overlays) as [g|e].
  2:{ exists [Save job_id "processing" 0 None], (failed job_id e).
      repeat split; eauto. }
  cbv zeta.
  destruct (Popen env _) as [proc|e].
  2:{ exists [Save job_id "processing" 0 None], (failed job_id e).
      repeat split; eauto. }
  pose proof (report_progress_writes job_id d (stderr proc)) as Hw.
  set (evs := fst (report_progress job_id d (stderr proc))) in *.
  set (tl := match snd (report_progress job_id d (stderr proc)) with
             | Ok _ => _ | Raise e => _ end).
  assert (Ht : ∃ t, tl = [t] ∧
            (t = Save job_id "completed" 100 None ∨ ∃ e, t = failed job_id e)).
  { subst tl. destruct (snd _) as [[]|e]; [destruct (returncode proc =? 0)|];
      eexists; split; eauto. }
  destruct Ht as (t & -> & Ht).
  exists (Save job_id "processing" 0 None :: evs), t.
  split; [|split; [constructor; assumption | exact Ht]].
  change (Save job_id "processing" 0 None :: Launch ?c :: ?r)
    with ([Save job_id "processing" 0 None; Launch c] ++ r)%list.
  assert (Hs : saves [t] = [t]) by (destruct Ht as [->|[e ->]]; reflexivity).
  rewrite !saves_app, (saves_progress job_id evs Hw), Hs. reflexivity.
Qed.

(** Every event of a run is a launch, a progress write, the completion
    or the write of the [except] clause. *)
Lemma events_of_run (env : environment) (job_id video_path : string)
    (overlays : list OverlayMetadata) :
  Forall (λ e, is_launch e = true ∨ progress_write job_id e
               ∨ e = Save job_id "completed" 100 None
               ∨ ∃ ex, e = failed job_id ex)
         (process_video_task env job_id video_path overlays).
Proof.
  assert (F : ∀ ex, Forall (λ e, is_launch e = true ∨ progress_write job_id e
                      ∨ e = Save job_id "completed" 100 None
                      ∨ ∃ ex, e = failed job_id ex) [failed job_id ex]).
  { intros ex. apply List.Forall_cons; [|apply List.Forall_nil]. eauto. }
  rewrite process_video_task_cases.
  destruct (probe env video_path) as [[[d W] H]|e]; [|apply F].
  apply List.Forall_cons.
  { right; left. exists 0. split; [reflexivity | lia]. }
  destruct (build_filter env W H video_path overlays) as [g|e]; [|apply F].
  cbv zeta. apply List.Forall_cons; [left; reflexivity|].
  destruct (Popen env _) as [proc|e]; [|apply F].
  apply Forall_app. split.
  - eapply Forall_impl; [apply report_progress_writes|]. intros e He. auto.
  - destruct (snd _) as [[]|e]; [destruct (returncode proc =? 0)|];
      try apply F.
    apply List.Forall_cons; [|apply List.Forall_nil]. auto.
Qed.

(** C6: within one run of a job, the snapshot writes are progress writes
    (status processing, progress at most 99) followed by exactly one
    terminal write (completed with progress 100, or failed), which is the
    last write of the run. *)
Theorem C6_one_terminal_write_last (env : environment)
    (job_id video_path : string) (overlays : list OverlayMetadata) :
  ∃ pre t,
    saves (process_video_task env job_id video_path overlays) = (pre ++ [t])%list
    ∧ Forall (progress_write job_id) pre
    ∧ Forall (λ e, ¬ terminal_write job_id e) pre
    ∧ terminal_write job_id t
    ∧ (t = Save job_id "completed" 100 None
       ∨ ∃ msg, t = Save job_id "failed" 0 (Some msg)).
Proof.
  destruct (saves_of_run env job_id video_path overlays)
    as (pre & t & Hs & Hpre & Ht).
  exists pre, t. split; [exact Hs|]. split; [exact Hpre|]. split.
  - eapply Forall_impl; [exact Hpre|]. apply progress_write_not_terminal.
  - destruct Ht as [->|[e ->]]; unfold terminal_write, failed; split; eauto.
Qed.

(** C10: a failed snapshot always carries progress 0, whatever was
    reported before: it is the write of the [except] clause, made when
    the run raised; after 50 percent were reported, a non-zero exit of
    the engine writes failed with progress 0. *)
Theorem C10_failed_snapshot_progress_zero :
  (∀ env job_id video_path overlays j p err,
     In (Save j "failed" p err)
        (process_video_task env job_id video_path overlays) → p = 0)
  ∧ (∀ env job_id video_path overlays evs e,
       process_video_try env job_id video_path overlays = (evs, Raise e) →
       process_video_task env job_id video_path overlays
       = (evs ++ [Save job_id "failed" 0 (Some (exn_msg e))])%list)
  ∧ saves (process_video_task
             (example_env ["frame=1200 fps=25 time=00:00:50.00 bitrate=900k"] 1)
             "J" "in.mp4" [])
    = [Save "J" "processing" 0 None; Save "J" "processing" 50 None;
       Save "J" "failed" 0 (Some "FFmpeg process failed")].
Proof.
  split; [|split].
  - intros env job_id video_path overlays j p err Hin.
    pose proof (events_of_run env job_id video_path overlays) as Hall.
    rewrite List.Forall_forall in Hall. specialize (Hall _ Hin).
    destruct Hall as [H|[(q & H & _)|[H|(ex & H)]]]; try discriminate H.
    unfold failed in H. now injection H.
  - intros env job_id video_path overlays evs e H.
    unfold process_video_task. now rewrite H.
  - vm_compute. reflexivity.
Qed.

(** *** Probe failures *)








(** Probe failures of each kind, run: a duration that is not a number, an
    empty dimension output, a dimension output that is not numeric. *)
Lemma probe_failure_examples :
  process_video_task (machine "N/A" "1920x1080" [] 0) "J" "in.mp4" []
    = [Save "J" "failed" 0
         (Some "Could not determine video duration. Is the file corrupted?")]
  ∧ process_video_task (machine "12.5" "" [] 0) "J" "in.mp4" []
    = [Save "J" "failed" 0 (Some "Could not determine video dimensions.")]
  ∧ process_video_task (machine "12.5" "N/AxN/A" [] 0) "J" "in.mp4" []
    = [Save "J" "failed" 0
         (Some "invalid literal for int() with base 10: 'N/A'")]
  ∧ process_video_task (machine "12.5" "1920" [] 0) "J" "in.mp4" []
    = [Save "J" "failed" 0
         (Some "not enough values to unpack (expected 2, got 1)")].
Proof. repeat split; vm_compute; reflexivity. Qed.

(** *** Missing overlay assets *)

Lemma missing_asset_step (env : environment) (W H i : Z)
    (ov : OverlayMetadata) (g : graph) (x_px y_px : Z) :
  String.eqb (ov_type ov) "image" || String.eqb (ov_type ov) "video" = true →
  path_exists env (OVERLAY_DIR env (ov_content ov)) = false →
  to_pixels (ov_x ov) W = Ok x_px →
  to_pixels (ov_y ov) H = Ok y_px →
  overlay_step env W H i ov g = Ok g.
Proof.
  intros Hty Hex Hx Hy. unfold overlay_step.
  rewrite Hx, Hy. simpl.
  now rewrite (image_or_video_not_text ov Hty), Hty, Hex.
Qed.

Lemma overlay_loop_app (env : environment) (W H : Z)
    (l1 l2 : list (Z * OverlayMetadata)) (g : graph) :
  overlay_loop env W H (l1 ++ l2) g
  = (overlay_loop env W H l1 g ≫= overlay_loop env W H l2).
Proof.
  revert g. induction l1 as [|[i ov] l1 IH]; intros g; [reflexivity|].
  simpl. destruct (overlay_step env W H i ov g) as [g'|e]; simpl; [apply IH|].
  reflexivity.
Qed.

Lemma enumerate_app {A} (i : Z) (l1 l2 : list A) :
  enumerate i (l1 ++ l2)
  = (enumerate i l1 ++ enumerate (i + Z.of_nat (length l1)) l2)%list.
Proof.
  revert i. induction l1 as [|a l1 IH]; intros i; simpl.
  - now rewrite Z.add_0_r.
  - rewrite IH. do 3 f_equal. lia.
Qed.

(** The loop with a missing asset in it is the loop over the other
    overlays, each at its own index. *)
Lemma overlay_loop_skip (env : environment) (W H : Z)
    (before after : list OverlayMetadata) (ov : OverlayMetadata)
    (g : graph) (x_px y_px : Z) :
  String.eqb (ov_type ov) "image" || String.eqb (ov_type ov) "video" = true →
  path_exists env (OVERLAY_DIR env (ov_content ov)) = false →
  to_pixels (ov_x ov) W = Ok x_px →
  to_pixels (ov_y ov) H = Ok y_px →
  overlay_loop env W H (enumerate 0 (before ++ ov :: after)) g
  = overlay_loop env W H
      (enumerate 0 before
         ++ enumerate (Z.of_nat (length before) + 1) after) g.
Proof.
  intros Hty Hex Hx Hy.
  rewrite enumerate_app, !overlay_loop_app. simpl.
  destruct (overlay_loop env W H (enumerate 0 before) g) as [g'|e];
    [|reflexivity].
  simpl. now rewrite (missing_asset_step env W H _ ov g' x_px y_px).
Qed.

(** A run whose probe, compilation and launch succeed, whose progress
    loop does not raise and whose engine exits with code 0 ends
    completed. *)
Lemma run_completes (env : environment) (job_id video_path : string)
    (overlays : list OverlayMetadata) (d : PyFloat.float) (W H : Z)
    (g : graph) (proc : process) (evs : list event) :
  probe env video_path = Ok (d, W, H) →
  build_filter env W H video_path overlays = Ok g →
  Popen env (ffmpeg_cmd g (OUTPUT_DIR env (job_id +:+ ".mp4"))) = Ok proc →
  report_progress job_id d (stderr proc) = (evs, Ok tt) →
  returncode proc = 0 →
  process_video_task env job_id video_path overlays
  = (Save job_id "processing" 0 None
       :: Launch (ffmpeg_cmd g (OUTPUT_DIR env (job_id +:+ ".mp4")))
       :: evs ++ [Save job_id "completed" 100 None])%list.
Proof.
  intros Hp Hb Hl Hr Hc.
  rewrite process_video_task_cases, Hp, Hb. cbv zeta.
  now rewrite Hl, Hr, Hc.
Qed.

(** C8: an image or clip overlay whose asset file does not exist adds no
    input and no stage (its turn of the loop leaves the graph as it
    was), the graph is the one compiled from the other overlays at their
    own indices, and the job still ends completed when the engine exits
    with code 0. *)
Theorem C8_missing_asset_skipped (env : environment)
    (job_id video_path : string) (before after : list OverlayMetadata)
    (ov : OverlayMetadata) (d : PyFloat.float) (W H x_px y_px : Z) :
  String.eqb (ov_type ov) "image" || String.eqb (ov_type ov) "video" = true →
  path_exists env (OVERLAY_DIR env (ov_content ov)) = false →
  to_pixels (ov_x ov) W = Ok x_px →
  to_pixels (ov_y ov) H = Ok y_px →
  probe env video_path = Ok (d, W, H) →
  (∀ i g, overlay_step env W H i ov g = Ok g)
  ∧ build_filter env W H video_path (before ++ ov :: after)
    = (g ← overlay_loop env W H
             (enumerate 0 before
                ++ enumerate (Z.of_nat (length before) + 1) after)
             (initial_graph video_path);
       Ok (finish_graph g))
  ∧ (∀ g proc evs,
       build_filter env W H video_path (before ++ ov :: after) = Ok g →
       Popen env (ffmpeg_cmd g (OUTPUT_DIR env (job_id +:+ ".mp4"))) = Ok proc →
       report_progress job_id d (stderr proc) = (evs, Ok tt) →
       returncode proc = 0 →
       process_video_task env job_id video_path (before ++ ov :: after)
       = (Save job_id "processing" 0 None
            :: Launch (ffmpeg_cmd g (OUTPUT_DIR env (job_id +:+ ".mp4")))
            :: evs ++ [Save job_id "completed" 100 None])%list).
Proof.
  intros Hty Hex Hx Hy Hp. split; [|split].
  - intros i g. eapply missing_asset_step; eauto.
  - unfold build_filter.
    now rewrite (overlay_loop_skip env W H before after ov _ x_px y_px).
  - intros g proc evs Hb Hl Hr Hc. eapply run_completes; eauto.
Qed.

(** The theorem applies to a job with the text overlay, an image whose
    file [b.png] is missing and the image [a.png]: only [a.png] becomes
    an input, and the job ends completed. *)
Lemma C8_missing_asset_skipped_witness :
  process_video_task (example_env ["time=00:00:50.00"] 0) "J" "in.mp4"
    (map OverlayMetadata_init
       [hi_item; image_item "b.png" None None; image_item "a.png" None None])
  = [Save "J" "processing" 0 None;
     Launch
       ["ffmpeg"; "-y"; "-i"; "in.mp4"; "-i"; "/srv/uploads/overlays/a.png";
        "-filter_complex";
        "[0:v]drawtext=text='Hi':fontcolor=white:fontsize=216:x=960:y=540:enable='between(t,1.0,3.0)'[v1];[1:v]scale=384:216[sc2];[v1][sc2]overlay=480:810:enable='between(t,0.0,5.0)'[v3]";
        "-map"; "[v3]"; "-map"; "0:a?"; "-c:v"; "libx264";
        "-preset"; "ultrafast"; "-c:a"; "aac"; "/srv/outputs/J.mp4"];
     Save "J" "processing" 50 None;
     Save "J" "completed" 100 None].
Proof.
  pose proof (C8_missing_asset_skipped (example_env ["time=00:00:50.00"] 0)
                "J" "in.mp4"
                [OverlayMetadata_init hi_item]
                [OverlayMetadata_init (image_item "a.png" None None)]
                (OverlayMetadata_init (image_item "b.png" None None))
                (dec 100 0) 1920 1080 480 810
                ltac:(vm_compute; reflexivity) ltac:(vm_compute; reflexivity)
                ltac:(vm_compute; reflexivity) ltac:(vm_compute; reflexivity)
                ltac:(vm_compute; reflexivity)) as (_ & _ & T).
  exact (T {| input_args := ["-i"; "in.mp4"; "-i"; "/srv/uploads/overlays/a.png"];
              filter_complex :=
                "[0:v]drawtext=text='Hi':fontcolor=white:fontsize=216:x=960:y=540:enable='between(t,1.0,3.0)'[v1];[1:v]scale=384:216[sc2];[v1][sc2]overlay=480:810:enable='between(t,0.0,5.0)'[v3]";
              last_stream_label := "[v3]" |}
           {| stderr := ["time=00:00:50.00"]; returncode := 0 |}
           [Save "J" "processing" 50 None]
           ltac:(vm_compute; reflexivity) ltac:(vm_compute; reflexivity)
           ltac:(vm_compute; reflexivity) ltac:(vm_compute; reflexivity)).
Defined.

(** ** The job store *)

(** The decoder raises decoding errors only. *)
Lemma loads_raises_decode_error (s : string) (e : exn) :
  Json.loads s = Raise e → exn_kind_of e = JSONDecodeError.
Proof.
  unfold Json.loads.
  destruct (Json.scan_once _ _) as [[v rest]|msg].
  - destruct (Json.skip_ws rest); [discriminate|]. now intros [= <-].
  - now intros [= <-].
Qed.

(** A missing snapshot loads as [None], and its status is not found. *)
Lemma missing_snapshot (JOBS_DIR : jobs_dir) (job_id : string) :
  JOBS_DIR !! (job_id +:+ ".json") = None →
  load_job_status JOBS_DIR job_id = Ok None
  ∧ get_status JOBS_DIR job_id = Raise (Exn (HTTPException 404) "Job not found").
Proof.
  intros H. unfold get_status, load_job_status. now rewrite H.
Qed.

(** C4: a snapshot file that is empty (after stripping white space) or
    that is not valid JSON loads as [None], just as a missing snapshot
    does, so the status request answers 404 "Job not found" in both
    cases; no exception of the decoder leaves the loader. *)
Theorem C4_unreadable_snapshot_is_not_found (JOBS_DIR : jobs_dir)
    (job_id text : string) :
  JOBS_DIR !! (job_id +:+ ".json") = Some text →
  (PyStr.strip PyStr.is_space_str text = ""
   ∨ ∃ e, Json.loads (PyStr.strip PyStr.is_space_str text) = Raise e) →
  load_job_status JOBS_DIR job_id = Ok None
  ∧ load_job_status JOBS_DIR job_id
    = load_job_status (delete (job_id +:+ ".json") JOBS_DIR) job_id
  ∧ get_status JOBS_DIR job_id = Raise (Exn (HTTPException 404) "Job not found")
  ∧ get_status JOBS_DIR job_id
    = get_status (delete (job_id +:+ ".json") JOBS_DIR) job_id.
Proof.
  intros Hf Hbad.
  assert (L : load_job_status JOBS_DIR job_id = Ok None).
  { unfold load_job_status. rewrite Hf.
    destruct Hbad as [->|(e & He)]; [reflexivity|].
    destruct (String.eqb _ ""); [reflexivity|].
    rewrite He. simpl. now rewrite (loads_raises_decode_error _ _ He). }
  destruct (missing_snapshot (delete (job_id +:+ ".json") JOBS_DIR) job_id)
    as [L' G']; [apply lookup_delete_eq|].
  assert (G : get_status JOBS_DIR job_id
              = Raise (Exn (HTTPException 404) "Job not found"))
    by (unfold get_status; now rewrite L).
  now rewrite L, L', G, G'.
Qed.

(** The theorem applies to a snapshot cut after 40 characters. *)
Lemma C4_unreadable_snapshot_is_not_found_witness :
  load_job_status {[ "J.json" := truncated 40 snapshot_text ]} "J" = Ok None
  ∧ load_job_status {[ "J.json" := truncated 40 snapshot_text ]} "J"
    = load_job_status (delete ("J" +:+ ".json")
                         {[ "J.json" := truncated 40 snapshot_text ]}) "J"
  ∧ get_status {[ "J.json" := truncated 40 snapshot_text ]} "J"
    = Raise (Exn (HTTPException 404) "Job not found")
  ∧ get_status {[ "J.json" := truncated 40 snapshot_text ]} "J"
    = get_status (delete ("J" +:+ ".json")
                    {[ "J.json" := truncated 40 snapshot_text ]}) "J".
Proof.
  apply (C4_unreadable_snapshot_is_not_found
           {[ "J.json" := truncated 40 snapshot_text ]} "J"
           (truncated 40 snapshot_text)).
  - vm_compute. reflexivity.
  - right. eexists. vm_compute. reflexivity.
Defined.

(** The whole snapshot loads; cut at any length short of the whole, or
    empty, or blank, it loads as [None]. *)
Lemma snapshot_prefixes_load_as_None :
  load_job_status {[ "J.json" := snapshot_text ]} "J"
    = Ok (Some (Json.JDict
            [("job_id", Json.JStr "J"); ("status", Json.JStr "processing");
             ("progress", Json.JInt 42); ("error", Json.JNull);
             ("updated_at", Json.JStr "2024-05-01T10:00:00.000000")]))
  ∧ String.length snapshot_text = 114%nat
  ∧ forallb
      (λ n, match load_job_status {[ "J.json" := truncated n snapshot_text ]} "J" with
            | Ok None => true
            | _ => false
            end)
      (seq 0 114) = true
  ∧ load_job_status {[ "J.json" := "   " ]} "J" = Ok None.
Proof. repeat split; vm_compute; reflexivity. Qed.

(** *** Listing *)

Lemma load_all_raises (files : list (string * string)) (f : string * string)
    (e : exn) :
  f ∈ files → Json.loads (snd f) = Raise e → ∃ e', load_all files = Raise e'.
Proof.
  intros Hin He. induction Hin as [f files|f g files Hin IH]; simpl.
  - rewrite He. simpl. eauto.
  - destruct (Json.loads (snd g)); simpl; [|eauto].
    destruct (IH He) as [e' ->]. simpl. eauto.
Qed.

Lemma load_all_ok (files : list (string * string)) :
  (∀ f, f ∈ files → ∃ v, Json.loads (snd f) = Ok v) →
  ∃ vs, load_all files = Ok vs
        ∧ Forall2 (λ f v, Json.loads (snd f) = Ok v) files vs.
Proof.
  induction files as [|f files IH]; intros H; simpl.
  - exists []. split; [reflexivity | constructor].
  - destruct (H f) as [v Hv]; [left|].
    destruct IH as (vs & Hvs & Hall); [intros g Hg; apply H; now right|].
    exists (v :: vs). rewrite Hv, Hvs. simpl. split; [reflexivity|].
    now constructor.
Qed.

Lemma elem_of_glob_json (JOBS_DIR : jobs_dir) (name text : string) :
  (name, text) ∈ glob_json JOBS_DIR
  ↔ JOBS_DIR !! name = Some text ∧ PyStr.ends_with ".json" name = true.
Proof.
  unfold glob_json. rewrite list_elem_of_filter, elem_of_map_to_list. simpl.
  tauto.
Qed.

(** When every snapshot file is readable, the listing returns them all. *)
Lemma list_jobs_complete (JOBS_DIR : jobs_dir) :
  (∀ name text, JOBS_DIR !! name = Some text →
                PyStr.ends_with ".json" name = true →
                ∃ v, Json.loads text = Ok v) →
  ∃ vs, list_jobs JOBS_DIR = Ok (Z.of_nat (length vs), vs)
    ∧ length vs = length (glob_json JOBS_DIR)
    ∧ ∀ name text, JOBS_DIR !! name = Some text →
                   PyStr.ends_with ".json" name = true →
                   ∃ v, Json.loads text = Ok v ∧ v ∈ vs.
Proof.
  intros Hall.
  destruct (load_all_ok (glob_json JOBS_DIR)) as (vs & Hvs & H2).
  { intros [name text] Hin. apply elem_of_glob_json in Hin as [Hl He].
    simpl. eauto. }
  exists vs. unfold list_jobs. rewrite Hvs. simpl.
  split; [reflexivity|]. split; [symmetry; eapply Forall2_length, H2|].
  intros name text Hl He.
  assert (Hin : (name, text) ∈ glob_json JOBS_DIR)
    by (apply elem_of_glob_json; auto).
  apply list_elem_of_lookup in Hin as [i Hi].
  destruct (Forall2_lookup_l _ _ _ _ _ H2 Hi) as (v & Hv & Hload).
  exists v. split; [exact Hload|]. eapply list_elem_of_lookup_2, Hv.
Qed.

(** One unreadable snapshot file makes the listing raise. *)
Lemma list_jobs_raises (JOBS_DIR : jobs_dir) (name text : string) (e : exn) :
  JOBS_DIR !! name = Some text →
  PyStr.ends_with ".json" name = true →
  Json.loads text = Raise e →
  ∃ e', list_jobs JOBS_DIR = Raise e' ∧ exn_kind_of e' = JSONDecodeError.
Proof.
  intros Hl He Hr.
  destruct (load_all_raises (glob_json JOBS_DIR) (name, text) e) as [e' He'];
    [apply elem_of_glob_json; auto | exact Hr |].
  exists e'. unfold list_jobs. rewrite He'. split; [reflexivity|].
  clear - He'. induction (glob_json JOBS_DIR) as [|f files IH]; [discriminate|].
  simpl in He'. destruct (Json.loads (snd f)) eqn:E; simpl in He'.
  - destruct (load_all files); [discriminate|]. simpl in He'.
    injection He' as <-. now apply IH.
  - injection He' as <-. eapply loads_raises_decode_error, E.
Qed.

(** C5 at a jobs directory with one readable snapshot and one that is
    empty (or cut short): the listing raises the decoding error, where
    loading the same job by its identifier answers [None]. *)
Theorem C5_listing_raises_on_unreadable_snapshot :
  list_jobs {[ "J.json" := "" ]}
    = Raise (Exn JSONDecodeError "Expecting value")
  ∧ load_job_status {[ "J.json" := "" ]} "J" = Ok None
  ∧ list_jobs (<[ "K.json" := snapshot_text ]>
                 {[ "J.json" := truncated 40 snapshot_text ]})
    = Raise (Exn JSONDecodeError
               "Expecting property name enclosed in double quotes")
  ∧ (∀ (JOBS_DIR : jobs_dir) name text e,
       JOBS_DIR !! name = Some text →
       PyStr.ends_with ".json" name = true →
       Json.loads text = Raise e →
       ∃ e', list_jobs JOBS_DIR = Raise e' ∧ exn_kind_of e' = JSONDecodeError).
Proof.
  split; [vm_compute; reflexivity|].
  split; [vm_compute; reflexivity|].
  split; [vm_compute; reflexivity|].
  apply list_jobs_raises.
Qed.

(** ** Floats: signs *)

Lemma binary_round_aux_not_negative (m e : Z) (l : location) :
  not_negative (binary_round_aux PyFloat.prec PyFloat.emax false m e l).
Proof.
  unfold binary_round_aux.
  destruct (shr_fexp _ _ m e l) as [mrs' e'].
  destruct (shr_fexp _ _ _ e' loc_Exact) as [mrs'' e''].
  destruct (shr_m mrs''); simpl; auto.
  destruct (Z.leb _ _); simpl; auto.
Qed.

Lemma binary_round_not_negative (m : positive) (e : Z) :
  not_negative (binary_round PyFloat.prec PyFloat.emax false m e).
Proof.
  unfold binary_round. destruct (shl_align _ _ _) as [mz ez].
  apply binary_round_aux_not_negative.
Qed.

Lemma nearest_not_negative (z : Z) : 0 <= z → not_negative (nearest z).
Proof.
  intros Hz. unfold nearest, binary_normalize.
  destruct z as [|p|p]; [exact I | apply binary_round_not_negative | lia].
Qed.

Lemma of_decimal_not_negative (m e10 : Z) :
  not_negative (PyFloat.of_decimal false m e10).
Proof.
  unfold PyFloat.of_decimal. destruct m as [|p|p]; try exact I.
  destruct (0 <=? e10).
  - destruct (Z.pos p * 10 ^ e10); try exact I.
    apply binary_round_not_negative.
  - destruct (SFdiv_core_binary _ _ _ _ _ _) as [[q e] l].
    apply binary_round_aux_not_negative.
Qed.

Lemma add_not_negative (x y : PyFloat.float) :
  not_negative x → not_negative y → not_negative (PyFloat.add x y).
Proof.
  unfold PyFloat.add, SFadd.
  destruct x as [sx|sx| |sx mx ex], y as [sy|sy| |sy my ey]; simpl; auto;
    try (destruct sx, sy; simpl; auto; fail).
  destruct sx; [contradiction|]. destruct sy; [contradiction|].
  intros _ _. simpl. apply binary_round_not_negative.
Qed.

Lemma div_not_negative (x y : PyFloat.float) :
  not_negative x → PyFloat.ltb PyFloat.zero y = true →
  not_negative (SFdiv PyFloat.prec PyFloat.emax x y).
Proof.
  unfold SFdiv.
  destruct x as [sx|sx| |sx mx ex], y as [sy|sy| |sy my ey]; simpl; auto.
  destruct sx; [contradiction|]. destruct sy; [discriminate|].
  intros _ _. destruct (SFdiv_core_binary _ _ _ _ _ _) as [[q e] l].
  apply binary_round_aux_not_negative.
Qed.

Lemma mul_not_negative (x y : PyFloat.float) :
  not_negative x → not_negative y → not_negative (PyFloat.mul x y).
Proof.
  unfold PyFloat.mul, SFmul.
  destruct x as [sx|sx| |sx mx ex], y as [sy|sy| |sy my ey]; simpl; auto.
  destruct sx; [contradiction|]. destruct sy; [contradiction|].
  intros _ _. apply binary_round_aux_not_negative.
Qed.

(** On a float that is not negative, [int(x)] is the floor of [x], and
    it raises when there is none. *)
Lemma to_int_floor (f : PyFloat.float) :
  not_negative f →
  match PyFloat.floor f with
  | Some z => PyFloat.to_int f = Ok z
  | None => ∃ e, PyFloat.to_int f = Raise e
  end.
Proof.
  destruct f as [s|s| |s m e]; simpl; eauto.
  destruct s; [contradiction | reflexivity].
Qed.

Lemma floor_not_negative (f : PyFloat.float) (z : Z) :
  not_negative f → PyFloat.floor f = Some z → 0 <= z.
Proof.
  destruct f as [s|s| |s m e]; simpl; try discriminate.
  - intros _ [= <-]. lia.
  - destruct s; [contradiction|]. intros _ [= <-]. simpl.
    apply Z.shiftl_nonneg. lia.
Qed.

Lemma ltb_zero_not_zero (d : PyFloat.float) :
  PyFloat.ltb PyFloat.zero d = true → SFeqb d PyFloat.zero = false.
Proof. destruct d as [s|s| |s m e]; try discriminate; destruct s; auto. Qed.

(** ** The progress extractor *)

Lemma range_spec (n : nat) (f : Z → bool) :
  forallb f (range n) = true → ∀ k, 0 <= k < Z.of_nat n → f k = true.
Proof.
  intros H k Hk. rewrite forallb_forall in H. apply H.
  unfold range. apply in_map_iff. exists (Z.to_nat k).
  split; [lia|]. apply in_seq. lia.
Qed.

Lemma same_float_eq (a b : PyFloat.float) : same_float a b = true → a = b.
Proof.
  destruct a as [s|s| |s m e], b as [t|t| |t n f]; simpl; try discriminate;
    try reflexivity.
  - intros H. apply Bool.eqb_prop in H. now subst.
  - intros H. apply Bool.eqb_prop in H. now subst.
  - intros H. apply andb_true_iff in H as [H He].
    apply andb_true_iff in H as [Hs Hm].
    apply Bool.eqb_prop in Hs. apply Pos.eqb_eq in Hm. apply Z.eqb_eq in He.
    now subst.
Qed.

(** The fields of every marker read as their numbers. *)
Lemma fields_read :
  forallb reads_as_int (range 100) = true
  ∧ forallb (λ ss, forallb (reads_as_float ss) (range 100)) (range 100) = true
  ∧ forallb (λ hh, forallb (converts hh) (range 100)) (range 100) = true.
Proof.
  split; [vm_compute; reflexivity|].
  split; vm_compute; reflexivity.
Qed.

Lemma reads_as_int_spec (n : Z) :
  0 <= n < 100 →
  PyInt.of_string (two_digits n) = Ok n ∧ occurs ":" (two_digits n) = false.
Proof.
  intros Hn. pose proof (range_spec 100 _ (proj1 fields_read) n Hn) as H.
  unfold reads_as_int in H. apply andb_true_iff in H as [H1 H2].
  apply negb_true_iff in H2. split; [|exact H2].
  destruct (PyInt.of_string (two_digits n)) as [v|]; [|discriminate].
  apply Z.eqb_eq in H1. now subst.
Qed.

Lemma reads_as_float_spec (ss ff : Z) :
  0 <= ss < 100 → 0 <= ff < 100 →
  PyFloat.of_string (two_digits ss +:+ "." +:+ two_digits ff)
    = Ok (PyFloat.of_decimal false (ss * 100 + ff) (-2))
  ∧ occurs ":" (two_digits ss +:+ "." +:+ two_digits ff) = false.
Proof.
  intros Hs Hf.
  pose proof (range_spec 100 _ (proj1 (proj2 fields_read)) ss Hs) as H.
  pose proof (range_spec 100 _ H ff Hf) as H'. clear H.
  unfold reads_as_float in H'. apply andb_true_iff in H' as [H1 H2].
  apply negb_true_iff in H2. split; [|exact H2].
  destruct (PyFloat.of_string _) as [v|]; [|discriminate].
  now rewrite (same_float_eq _ _ H1).
Qed.

Lemma converts_spec (hh mm : Z) :
  0 <= hh < 100 → 0 <= mm < 100 →
  PyFloat.of_int (hh * 3600 + mm * 60) = Ok (nearest (hh * 3600 + mm * 60)).
Proof.
  intros Hh Hm.
  pose proof (range_spec 100 _ (proj2 (proj2 fields_read)) hh Hh) as H.
  pose proof (range_spec 100 _ H mm Hm) as H'. clear H.
  unfold converts in H'.
  destruct (PyFloat.of_int _) as [v|]; [|discriminate].
  now rewrite (same_float_eq _ _ H').
Qed.

Lemma split_not_nil (sep : ascii) (s : string) : PyStr.split sep s ≠ [].
Proof.
  destruct s as [|c s]; simpl; [discriminate|].
  destruct (Ascii.eqb c sep); [discriminate|].
  destruct (PyStr.split sep s); discriminate.
Qed.

Lemma split_no_sep (sep : ascii) (s : string) :
  occurs sep s = false → PyStr.split sep s = [s].
Proof.
  induction s as [|c s IH]; simpl; [reflexivity|].
  intros H. apply orb_false_iff in H as [Hc Hs].
  rewrite Hc, (IH Hs). reflexivity.
Qed.

Lemma split_app_sep (sep : ascii) (a b : string) :
  occurs sep a = false →
  PyStr.split sep (a +:+ String sep b) = a :: PyStr.split sep b.
Proof.
  induction a as [|c a IH]; intros H.
  - rewrite append_nil_l. simpl. now rewrite Ascii.eqb_refl.
  - simpl in H. apply orb_false_iff in H as [Hc Ha].
    rewrite append_cons. simpl. rewrite Hc, (IH Ha). reflexivity.
Qed.

Lemma time_str_to_sec_try_fields (time_str h m s : string) (hi mi : Z)
    (sf hm : PyFloat.float) :
  PyStr.split ":" time_str = [h; m; s] →
  PyInt.of_string h = Ok hi →
  PyInt.of_string m = Ok mi →
  PyFloat.of_string s = Ok sf →
  PyFloat.of_int (hi * 3600 + mi * 60) = Ok hm →
  time_str_to_sec_try time_str = Ok (PyFloat.add hm sf).
Proof.
  intros Hsplit Hh Hm Hs Hc. unfold time_str_to_sec_try.
  rewrite Hsplit. cbn [unpack3 mbind res_bind].
  rewrite Hh. cbn [mbind res_bind]. rewrite Hm. cbn [mbind res_bind].
  rewrite Hs. cbn [mbind res_bind]. rewrite Hc. reflexivity.
Qed.

Lemma clock_fields (hh mm ss ff : Z) :
  0 <= hh < 100 → 0 <= mm < 100 → 0 <= ss < 100 → 0 <= ff < 100 →
  PyStr.split ":" (clock hh mm ss ff)
  = [two_digits hh; two_digits mm; two_digits ss +:+ "." +:+ two_digits ff].
Proof.
  intros Hh Hm Hs Hf.
  destruct (reads_as_int_spec hh Hh) as [_ Ch].
  destruct (reads_as_int_spec mm Hm) as [_ Cm].
  destruct (reads_as_float_spec ss ff Hs Hf) as [_ Cs].
  unfold clock.
  rewrite (append_cons ":" "" (two_digits mm +:+ _)), append_nil_l.
  rewrite (append_cons ":" "" (two_digits ss +:+ _)), append_nil_l.
  rewrite (split_app_sep _ _ _ Ch), (split_app_sep _ _ _ Cm),
    (split_no_sep _ _ Cs).
  reflexivity.
Qed.

(** The conversion of a marker: its hours and minutes as an integer
    number of seconds, plus the float that its seconds read as. *)
Lemma time_str_to_sec_clock (hh mm ss ff : Z) :
  0 <= hh < 100 → 0 <= mm < 100 → 0 <= ss < 100 → 0 <= ff < 100 →
  time_str_to_sec_try (clock hh mm ss ff) = Ok (clock_seconds hh mm ss ff)
  ∧ time_str_to_sec (clock hh mm ss ff) = clock_seconds hh mm ss ff.
Proof.
  intros Hh Hm Hs Hf.
  assert (E : time_str_to_sec_try (clock hh mm ss ff)
              = Ok (clock_seconds hh mm ss ff)).
  { eapply time_str_to_sec_try_fields.
    - apply clock_fields; assumption.
    - apply reads_as_int_spec, Hh.
    - apply reads_as_int_spec, Hm.
    - apply reads_as_float_spec; assumption.
    - apply converts_spec; assumption. }
  split; [exact E|]. unfold time_str_to_sec. now rewrite E.
Qed.

(** *** Finding the marker *)

Lemma is_digit_digit (c : ascii) :
  PyStr.is_digit c = true →
  0 <= PyStr.digit_val c <= 9 ∧ c = digit (PyStr.digit_val c).
Proof.
  destruct c as [[] [] [] [] [] [] [] []]; intros H;
    try discriminate H; (split; [vm_compute; split; discriminate | reflexivity]).
Qed.

Lemma digit_is_digit (n : Z) : 0 <= n <= 9 → PyStr.is_digit (digit n) = true.
Proof.
  intros H.
  assert (n = 0 ∨ n = 1 ∨ n = 2 ∨ n = 3 ∨ n = 4 ∨ n = 5 ∨ n = 6 ∨ n = 7
          ∨ n = 8 ∨ n = 9) as Hn by lia.
  repeat (destruct Hn as [->|Hn]; [reflexivity|]). subst. reflexivity.
Qed.

Lemma two_digits_digits (a b : Z) :
  0 <= a <= 9 → 0 <= b <= 9 →
  String (digit a) (String (digit b) "") = two_digits (10 * a + b)
  ∧ 0 <= 10 * a + b < 100.
Proof.
  intros Ha Hb. split; [|lia]. unfold two_digits.
  replace ((10 * a + b) / 10) with a by (apply Z.div_unique with b; lia).
  replace ((10 * a + b) mod 10) with b
    by (apply Z.mod_unique with a; lia).
  reflexivity.
Qed.

Lemma match_clock_shape (s g : string) :
  match_clock s = Some g →
  ∃ hh mm ss ff,
    (0 <= hh < 100 ∧ 0 <= mm < 100 ∧ 0 <= ss < 100 ∧ 0 <= ff < 100)
    ∧ g = clock hh mm ss ff.
Proof.
  unfold match_clock.
  destruct s as [|h1 [|h2 [|c1 [|m1 [|m2 [|c2 [|s1 [|s2 [|c3 [|f1 [|f2 rest]]]]]]]]]]];
    try discriminate.
  destruct (_ && _) eqn:E; [|discriminate]. intros [= <-].
  do 10 (apply andb_true_iff in E as [E ?]).
  repeat match goal with
         | H : Ascii.eqb _ _ = true |- _ => apply Ascii.eqb_eq in H; subst
         | H : PyStr.is_digit _ = true |- _ =>
             apply is_digit_digit in H as [? ?]
         end.
  destruct (two_digits_digits (PyStr.digit_val h1) (PyStr.digit_val h2))
    as [Eh Rh]; [assumption..|].
  destruct (two_digits_digits (PyStr.digit_val m1) (PyStr.digit_val m2))
    as [Em Rm]; [assumption..|].
  destruct (two_digits_digits (PyStr.digit_val s1) (PyStr.digit_val s2))
    as [Es Rs]; [assumption..|].
  destruct (two_digits_digits (PyStr.digit_val f1) (PyStr.digit_val f2))
    as [Ef Rf]; [assumption..|].
  eexists _, _, _, _. split; [exact (conj Rh (conj Rm (conj Rs Rf)))|].
  unfold clock. rewrite <- Eh, <- Em, <- Es, <- Ef.
  cbn [String.substring].
  replace (String.substring 0 0 rest) with "" by (destruct rest; reflexivity).
  repeat match goal with H : ?c = digit _ |- _ => rewrite <- H; clear H end.
  reflexivity.
Qed.

Lemma search_time_shape (line g : string) :
  search_time line = Some g →
  ∃ hh mm ss ff,
    (0 <= hh < 100 ∧ 0 <= mm < 100 ∧ 0 <= ss < 100 ∧ 0 <= ff < 100)
    ∧ g = clock hh mm ss ff.
Proof.
  induction line as [|c line IH].
  - discriminate.
  - cbn [search_time].
    destruct (match_time (String c line)) as [g'|] eqn:E.
    + intros [= <-]. unfold match_time in E.
      destruct line as [|b [|c' [|d [|e s']]]]; try discriminate.
      destruct (_ && _); [|discriminate].
      eapply match_clock_shape, E.
    + exact IH.
Qed.

Lemma two_digits_is_digit (n : Z) :
  0 <= n < 100 →
  PyStr.is_digit (digit (n / 10)) = true
  ∧ PyStr.is_digit (digit (n mod 10)) = true.
Proof.
  intros Hn. split; apply digit_is_digit.
  - pose proof (Z.div_pos n 10). pose proof (Z.div_lt_upper_bound n 10 10). lia.
  - pose proof (Z.mod_pos_bound n 10). lia.
Qed.

(** At a marker, the pattern matches and its group is the marker. *)
Lemma match_time_marker (hh mm ss ff : Z) (post : string) :
  0 <= hh < 100 → 0 <= mm < 100 → 0 <= ss < 100 → 0 <= ff < 100 →
  match_time ("time=" +:+ clock hh mm ss ff +:+ post)
  = Some (clock hh mm ss ff).
Proof.
  intros Hh Hm Hs Hf.
  destruct (two_digits_is_digit hh Hh) as [H1 H2].
  destruct (two_digits_is_digit mm Hm) as [H3 H4].
  destruct (two_digits_is_digit ss Hs) as [H5 H6].
  destruct (two_digits_is_digit ff Hf) as [H7 H8].
  unfold clock, two_digits.
  repeat (rewrite ?append_cons, ?append_nil_l).
  unfold match_time, match_clock.
  rewrite H1, H2, H3, H4, H5, H6, H7, H8.
  cbv [andb Ascii.eqb Bool.eqb]. cbn [String.substring].
  replace (String.substring 0 0 post) with "" by (destruct post; reflexivity).
  reflexivity.
Qed.

(** A line that holds a marker anywhere has a match. *)
Lemma search_time_finds (pre post : string) (hh mm ss ff : Z) :
  0 <= hh < 100 → 0 <= mm < 100 → 0 <= ss < 100 → 0 <= ff < 100 →
  ∃ g, search_time (pre +:+ "time=" +:+ clock hh mm ss ff +:+ post) = Some g.
Proof.
  intros Hh Hm Hs Hf. induction pre as [|c pre IH].
  - rewrite append_nil_l.
    pose proof (match_time_marker hh mm ss ff post Hh Hm Hs Hf) as M.
    destruct ("time=" +:+ clock hh mm ss ff +:+ post) as [|c s] eqn:E;
      [discriminate M|].
    cbn [search_time]. rewrite M. eauto.
  - rewrite append_cons. cbn [search_time].
    destruct (match_time _); eauto.
Qed.

Lemma of_int_100 : PyFloat.of_int 100 = Ok (nearest 100).
Proof. vm_compute. reflexivity. Qed.

Lemma clock_seconds_not_negative (hh mm ss ff : Z) :
  0 <= hh → 0 <= mm → not_negative (clock_seconds hh mm ss ff).
Proof.
  intros Hh Hm. unfold clock_seconds. apply add_not_negative.
  - apply nearest_not_negative. lia.
  - apply of_decimal_not_negative.
Qed.

Lemma percentage_not_negative (secs d : PyFloat.float) :
  not_negative secs → PyFloat.ltb PyFloat.zero d = true →
  not_negative (percentage secs d).
Proof.
  intros Hs Hd. unfold percentage. apply mul_not_negative.
  - now apply div_not_negative.
  - apply nearest_not_negative. lia.
Qed.

(** What the loop body reports for a line whose match is the marker
    [HH:MM:SS.ff], the total duration being positive. *)
Lemma line_progress_marker (d : PyFloat.float) (line : string)
    (hh mm ss ff : Z) :
  0 <= hh < 100 → 0 <= mm < 100 → 0 <= ss < 100 → 0 <= ff < 100 →
  search_time line = Some (clock hh mm ss ff) →
  PyFloat.ltb PyFloat.zero d = true →
  match PyFloat.floor (percentage (clock_seconds hh mm ss ff) d) with
  | Some fl => line_progress d line = Ok (Some (Z.min fl 99))
  | None => ∃ e, line_progress d line = Raise e
  end.
Proof.
  intros Hh Hm Hs Hf Hg Hd.
  pose proof (to_int_floor (percentage (clock_seconds hh mm ss ff) d)
                (percentage_not_negative _ d
                   (clock_seconds_not_negative hh mm ss ff
                      ltac:(lia) ltac:(lia)) Hd)) as T.
  unfold line_progress. rewrite Hg, Hd.
  rewrite (proj2 (time_str_to_sec_clock hh mm ss ff Hh Hm Hs Hf)).
  unfold PyFloat.div. rewrite (ltb_zero_not_zero d Hd).
  cbn [mbind res_bind]. rewrite of_int_100. cbn [mbind res_bind].
  fold (percentage (clock_seconds hh mm ss ff) d).
  destruct (PyFloat.floor _) as [fl|].
  - rewrite T. cbn [mbind res_bind]. now rewrite PyInt_min_spec.
  - destruct T as [e ->]. eauto.
Qed.

(** C2, as stated, fails: at the marker [00:00:29.00] and the duration
    100 the floor of [((h*3600 + m*60 + s) / d) * 100] is 29, and the
    progress reported is 28. *)
Lemma C2_exact_floor_counterexample :
  ¬ (∀ line d dq hh mm ss ff,
       0 <= hh < 100 → 0 <= mm < 100 → 0 <= ss < 100 → 0 <= ff < 100 →
       search_time line = Some (clock hh mm ss ff) →
       PyFloat.ltb PyFloat.zero d = true →
       exact d = Some dq →
       line_progress d line = Ok (Some (claimed_progress hh mm ss ff dq))).
Proof.
  intros H.
  specialize (H "time=00:00:29.00" (dec 100 0) _ 0 0 29 0
                ltac:(lia) ltac:(lia) ltac:(lia) ltac:(lia)
                eq_refl eq_refl eq_refl).
  vm_compute in H. discriminate H.
Qed.

(** The formula of the specification on the examples, at the duration
    100. *)
Lemma claimed_progress_examples :
  ∃ q, exact (dec 100 0) = Some q
       ∧ Qeq q (inject_Z 100)
       ∧ claimed_progress 0 0 29 0 q = 29
       ∧ claimed_progress 0 0 50 0 q = 50
       ∧ claimed_progress 0 1 40 0 q = 99.
Proof. eexists. split; [reflexivity|]. repeat split; vm_compute; reflexivity. Qed.

Lemma to_int_no_floor (f : PyFloat.float) :
  PyFloat.floor f = None →
  PyFloat.to_int f
    = Raise (Exn ValueError "cannot convert float NaN to integer")
  ∨ PyFloat.to_int f
    = Raise (Exn OverflowError "cannot convert float infinity to integer").
Proof. destruct f; simpl; try discriminate; auto. Qed.

(** At a marker and a positive duration, the loop body reports the floor
    of the percentage when it is finite, and raises what [int] raises
    when it is not. *)
Lemma line_progress_cases (d : PyFloat.float) (line : string)
    (hh mm ss ff : Z) :
  0 <= hh < 100 → 0 <= mm < 100 → 0 <= ss < 100 → 0 <= ff < 100 →
  search_time line = Some (clock hh mm ss ff) →
  PyFloat.ltb PyFloat.zero d = true →
  (∀ fl, PyFloat.floor (percentage (clock_seconds hh mm ss ff) d) = Some fl →
         line_progress d line = Ok (Some (Z.min fl 99)) ∧ 0 <= fl)
  ∧ (PyFloat.floor (percentage (clock_seconds hh mm ss ff) d) = None →
     line_progress d line
       = Raise (Exn ValueError "cannot convert float NaN to integer")
     ∨ line_progress d line
       = Raise (Exn OverflowError "cannot convert float infinity to integer")).
Proof.
  intros Hh Hm Hs Hf Hg Hd.
  assert (N : not_negative (percentage (clock_seconds hh mm ss ff) d)).
  { apply percentage_not_negative; [|exact Hd].
    apply clock_seconds_not_negative; lia. }
  assert (E : line_progress d line
              = percent ← PyFloat.to_int
                            (percentage (clock_seconds hh mm ss ff) d);
                Ok (Some (PyInt.min percent 99))).
  { unfold line_progress. rewrite Hg, Hd.
    rewrite (proj2 (time_str_to_sec_clock hh mm ss ff Hh Hm Hs Hf)).
    unfold PyFloat.div. rewrite (ltb_zero_not_zero d Hd).
    cbn [mbind res_bind]. rewrite of_int_100. reflexivity. }
  split.
  - intros fl F. pose proof (to_int_floor _ N) as T. rewrite F in T.
    rewrite E, T. cbn [mbind res_bind]. rewrite PyInt_min_spec.
    split; [reflexivity|]. exact (floor_not_negative _ _ N F).
  - intros F. rewrite E.
    destruct (to_int_no_floor _ F) as [-> | ->]; [left|right]; reflexivity.
Qed.

(** A time text that does not split into three fields, or one of whose
    fields is not a number, converts to 0.0. *)
Lemma time_str_to_sec_unreadable (time_str : string) :
  (∀ h m s, PyStr.split ":" time_str ≠ [h; m; s])
  ∨ (∃ h m s, PyStr.split ":" time_str = [h; m; s]
       ∧ ((∃ e, PyInt.of_string h = Raise e)
          ∨ (∃ e, PyInt.of_string m = Raise e)
          ∨ (∃ e, PyFloat.of_string s = Raise e))) →
  time_str_to_sec time_str = PyFloat.zero.
Proof.
  unfold time_str_to_sec, time_str_to_sec_try.
  intros [H|(h & m & s & -> & H)].
  - destruct (PyStr.split ":" time_str) as [|a [|b [|c [|x l]]]];
      try reflexivity.
    exfalso. exact (H a b c eq_refl).
  - cbn [unpack3 mbind res_bind].
    destruct (PyInt.of_string h) as [hi|eh]; [|reflexivity].
    cbn [mbind res_bind].
    destruct (PyInt.of_string m) as [mi|em]; [|reflexivity].
    cbn [mbind res_bind].
    destruct (PyFloat.of_string s) as [sf|es]; [|reflexivity].
    destruct H as [[e H]|[[e H]|[e H]]]; discriminate H.
Qed.

(** C2 (amended): for a line in which a marker [HH:MM:SS.ff] is found and
    a total duration [d > 0], the percentage
    [((h*3600 + m*60 + s) / d) * 100] is computed in double precision,
    each operation rounded to nearest.  When it is finite, the progress
    reported is its floor, which is not negative, clamped to at most 99;
    when it is not, [int] raises and nothing is reported.  For [d = 100]
    the marker [00:00:50.00] reports 50, [00:01:40.00] reports 99 and
    [00:00:29.00] reports 28; for [d = 5e-324] the body raises
    OverflowError.  A time text that does not split at the colons into
    three fields, or whose hours or minutes [int] rejects, or whose
    seconds [float] rejects, converts to 0.0 instead of raising. *)
Theorem C2_progress_extraction :
  (∀ line d g,
     search_time line = Some g →
     PyFloat.ltb PyFloat.zero d = true →
     ∃ hh mm ss ff,
       (0 <= hh < 100 ∧ 0 <= mm < 100 ∧ 0 <= ss < 100 ∧ 0 <= ff < 100)
       ∧ g = clock hh mm ss ff
       ∧ (∀ fl,
            PyFloat.floor (percentage (clock_seconds hh mm ss ff) d) = Some fl →
            line_progress d line = Ok (Some (Z.min fl 99))
            ∧ 0 <= Z.min fl 99 <= 99)
       ∧ (PyFloat.floor (percentage (clock_seconds hh mm ss ff) d) = None →
          line_progress d line
            = Raise (Exn ValueError "cannot convert float NaN to integer")
          ∨ line_progress d line
            = Raise (Exn OverflowError
                       "cannot convert float infinity to integer")))
  ∧ line_progress (dec 100 0)
      "frame= 1250 fps= 25 q=28.0 size=    2048kB time=00:00:50.00 bitrate= 335.5kbits/s"
    = Ok (Some 50)
  ∧ line_progress (dec 100 0)
      "frame= 2500 fps= 25 q=28.0 size=    4096kB time=00:01:40.00 bitrate= 335.5kbits/s"
    = Ok (Some 99)
  ∧ line_progress (dec 100 0)
      "frame=  725 fps= 25 q=28.0 size=    1024kB time=00:00:29.00 bitrate= 335.5kbits/s"
    = Ok (Some 28)
  ∧ line_progress (dec 5 (-324))
      "frame=  725 fps= 25 q=28.0 size=    1024kB time=00:00:29.00 bitrate= 335.5kbits/s"
    = Raise (Exn OverflowError "cannot convert float infinity to integer")
  ∧ (∀ time_str,
       (∀ h m s, PyStr.split ":" time_str ≠ [h; m; s])
       ∨ (∃ h m s, PyStr.split ":" time_str = [h; m; s]
            ∧ ((∃ e, PyInt.of_string h = Raise e)
               ∨ (∃ e, PyInt.of_string m = Raise e)
               ∨ (∃ e, PyFloat.of_string s = Raise e))) →
       time_str_to_sec time_str = PyFloat.zero).
Proof.
  split; [|do 4 (split; [vm_compute; reflexivity|]);
           exact time_str_to_sec_unreadable].
  intros line d g Hg Hd.
  destruct (search_time_shape line g Hg) as (hh & mm & ss & ff & R & ->).
  exists hh, mm, ss, ff. split; [exact R|]. split; [reflexivity|].
  destruct R as (Hh & Hm & Hs & Hf).
  destruct (line_progress_cases d line hh mm ss ff Hh Hm Hs Hf Hg Hd)
    as [P1 P2].
  split; [|exact P2].
  intros fl F. destruct (P1 fl F) as [P Hfl]. split; [exact P | lia].
Qed.

(** The theorem applies to a line with the marker [00:00:50.00] and the
    duration 100. *)
Lemma C2_progress_extraction_witness :
  ∃ hh mm ss ff,
    (0 <= hh < 100 ∧ 0 <= mm < 100 ∧ 0 <= ss < 100 ∧ 0 <= ff < 100)
    ∧ "00:00:50.00" = clock hh mm ss ff
    ∧ (∀ fl,
         PyFloat.floor (percentage (clock_seconds hh mm ss ff) (dec 100 0))
           = Some fl →
         line_progress (dec 100 0) "speed=1.0x time=00:00:50.00"
           = Ok (Some (Z.min fl 99))
         ∧ 0 <= Z.min fl 99 <= 99)
    ∧ (PyFloat.floor (percentage (clock_seconds hh mm ss ff) (dec 100 0))
         = None →
       line_progress (dec 100 0) "speed=1.0x time=00:00:50.00"
         = Raise (Exn ValueError "cannot convert float NaN to integer")
       ∨ line_progress (dec 100 0) "speed=1.0x time=00:00:50.00"
         = Raise (Exn OverflowError
                    "cannot convert float infinity to integer")).
Proof.
  apply (proj1 C2_progress_extraction "speed=1.0x time=00:00:50.00"
           (dec 100 0) "00:00:50.00").
  - vm_compute. reflexivity.
  - vm_compute. reflexivity.
Defined.

(** Time texts that cannot be read, and texts that are not markers but
    can. *)
Lemma time_str_to_sec_examples :
  malformed "" ∧ malformed "abc" ∧ malformed "12:34" ∧ malformed "1:2:3:4"
  ∧ malformed "aa:bb:cc.dd" ∧ malformed "00:00:5x.00"
  ∧ time_str_to_sec "aa:bb:cc.dd" = PyFloat.zero
  ∧ time_str_to_sec "1:2:3" = dec 3723 0
  ∧ time_str_to_sec " 1 :-2: 1e1 " = dec 3490 0.
Proof.
  unfold malformed.
  do 6 (split; [eexists; vm_compute; reflexivity|]).
  do 2 (split; [vm_compute; reflexivity|]).
  vm_compute. reflexivity.
Qed.

(** The arithmetic is that of doubles: at 29 of 100 seconds the quotient
    0.29 times 100 is 28.999999999999996, and 28 is reported. *)
Lemma progress_in_double_precision :
  line_progress (dec 100 0) "time=00:00:29.00" = Ok (Some 28)
  ∧ PyFloat.repr (percentage (clock_seconds 0 0 29 0) (dec 100 0))
    = "28.999999999999996".
Proof. split; vm_compute; reflexivity. Qed.

(** A duration so small that the percentage overflows makes the loop
    body raise. *)
Lemma progress_overflow :
  line_progress (dec 5 (-324)) "time=00:00:29.00"
  = Raise (Exn OverflowError "cannot convert float infinity to integer").
Proof. vm_compute. reflexivity. Qed.

(** * Further properties of the code *)

(** ** The compiler *)

Lemma overlay_step_inputs (env : environment) (W H i : Z)
    (ov : OverlayMetadata) (g g' : graph) :
  overlay_step env W H i ov g = Ok g' →
  input_args g' = (input_args g ++ added_inputs env ov)%list.
Proof.
  unfold overlay_step, added_inputs.
  destruct (to_pixels (ov_x ov) W) as [x|]; [|discriminate].
  destruct (to_pixels (ov_y ov) H) as [y|]; [|discriminate]. simpl.
  destruct (String.eqb (ov_type ov) "text") eqn:Et.
  - apply String.eqb_eq in Et. rewrite Et. simpl.
    destruct (font_size ov H); [|discriminate]. simpl.
    intros [= <-]. simpl. now rewrite app_nil_r.
  - destruct (_ || _); simpl.
    + destruct (path_exists env _); simpl.
      * destruct (target_size (ov_width ov) W); [|discriminate].
        destruct (target_size (ov_height ov) H); [|discriminate]. simpl.
        intros [= <-]. reflexivity.
      * intros [= <-]. now rewrite app_nil_r.
    + intros [= <-]. now rewrite app_nil_r.
Qed.

Lemma overlay_loop_inputs (env : environment) (W H : Z)
    (items : list (Z * OverlayMetadata)) (g g' : graph) :
  overlay_loop env W H items g = Ok g' →
  input_args g'
  = (input_args g ++ concat (map (λ it, added_inputs env (snd it)) items))%list.
Proof.
  revert g. induction items as [|[i ov] items IH]; intros g; simpl.
  - intros [= <-]. now rewrite app_nil_r.
  - destruct (overlay_step env W H i ov g) as [g1|] eqn:E; [|discriminate].
    simpl. intros Hl. rewrite (IH _ Hl), (overlay_step_inputs _ _ _ _ _ _ _ E).
    now rewrite <- app_assoc.
Qed.

Lemma map_snd_enumerate {A} (i : Z) (l : list A) :
  map snd (enumerate i l) = l.
Proof.
  revert i. induction l as [|a l IH]; intros i; simpl; [reflexivity|].
  now rewrite IH.
Qed.

(** The inputs of the command are the base video and then, in the order
    of the overlay list, the file of each image or video overlay whose
    file exists: text overlays, missing files and other types add none. *)
Theorem build_filter_inputs (env : environment) (W H : Z)
    (video_path : string) (overlays : list OverlayMetadata) (g : graph) :
  build_filter env W H video_path overlays = Ok g →
  input_args g
  = (["-i"; video_path] ++ concat (map (added_inputs env) overlays))%list.
Proof.
  unfold build_filter.
  destruct (overlay_loop _ _ _ _ _) as [g1|] eqn:E; [|discriminate].
  simpl. intros [= <-]. simpl.
  rewrite (overlay_loop_inputs _ _ _ _ _ _ E). simpl. do 2 f_equal.
  rewrite <- (map_snd_enumerate 0 overlays) at 2.
  now rewrite map_map.
Qed.

Lemma build_filter_inputs_witness :
  input_args
    {| input_args := ["-i"; "in.mp4"; "-i"; "/srv/uploads/overlays/a.png"];
       filter_complex :=
         "[0:v]drawtext=text='Hi':fontcolor=white:fontsize=216:x=960:y=540:enable='between(t,1.0,3.0)'[v1];[1:v]scale=384:216[sc2];[v1][sc2]overlay=480:810:enable='between(t,0.0,5.0)'[v3]";
       last_stream_label := "[v3]" |}
  = (["-i"; "in.mp4"]
       ++ concat (map (added_inputs (example_env [] 0))
            (map OverlayMetadata_init
               [hi_item; image_item "b.png" None None;
                image_item "a.png" None None])))%list.
Proof.
  apply (build_filter_inputs (example_env [] 0) 1920 1080).
  vm_compute. reflexivity.
Defined.

Lemma append_not_nil_r (a b : string) : b ≠ "" → a +:+ b ≠ "".
Proof.
  destruct a as [|c a]; [now rewrite append_nil_l|].
  rewrite append_cons. discriminate.
Qed.

Lemma rstrip_app (p : ascii → bool) (a b : string) :
  PyStr.rstrip p b ≠ "" →
  PyStr.rstrip p (a +:+ b) = a +:+ PyStr.rstrip p b.
Proof.
  intros Hb. induction a as [|c a IH]; [now rewrite !append_nil_l|].
  rewrite !append_cons. cbn [PyStr.rstrip]. rewrite IH.
  destruct (a +:+ PyStr.rstrip p b) eqn:E; [|reflexivity].
  exfalso. eapply append_not_nil_r; eauto.
Qed.






(** An overlay whose type is neither text nor image nor video adds
    nothing: its turn of the loop leaves the graph as it was. *)
Theorem unknown_type_ignored (env : environment) (W H i : Z)
    (ov : OverlayMetadata) (g : graph) (x_px y_px : Z) :
  ov_type ov ≠ "text" → ov_type ov ≠ "image" → ov_type ov ≠ "video" →
  to_pixels (ov_x ov) W = Ok x_px →
  to_pixels (ov_y ov) H = Ok y_px →
  overlay_step env W H i ov g = Ok g.
Proof.
  intros Ht Hi Hv Hx Hy. unfold overlay_step. rewrite Hx, Hy. simpl.
  apply String.eqb_neq in Ht, Hi, Hv. now rewrite Ht, Hi, Hv.
Qed.

Lemma unknown_type_ignored_witness :
  overlay_step (example_env [] 0) 1920 1080 0
    {| ov_id := None; ov_type := "Text"; ov_content := "x";
       ov_start_time := dec 0 0; ov_end_time := dec 1 0;
       ov_x := dec 5 (-1); ov_y := dec 5 (-1);
       ov_width := None; ov_height := None |} (initial_graph "in.mp4")
  = Ok (initial_graph "in.mp4").
Proof.
  apply (unknown_type_ignored (example_env [] 0) 1920 1080 0 _ _ 960 540);
    try discriminate; vm_compute; reflexivity.
Defined.

Lemma to_pixels_not_a_number (x : PyFloat.float) (dim : Z) :
  (x = S754_nan ∨ ∃ s, x = S754_infinity s) → ∃ e, to_pixels x dim = Raise e.
Proof.
  intros Hx. unfold to_pixels.
  destruct (PyFloat.of_int dim) as [w|e]; [|eauto]. simpl.
  destruct Hx as [->|[s ->]]; [simpl; eauto|].
  destruct w as [t|t| |t m e]; simpl; eauto.
Qed.

Lemma overlay_loop_raises (env : environment) (W H : Z)
    (items : list (Z * OverlayMetadata)) (i : Z) (ov : OverlayMetadata) :
  In (i, ov) items →
  (∀ g, ∃ e, overlay_step env W H i ov g = Raise e) →
  ∀ g, ∃ e, overlay_loop env W H items g = Raise e.
Proof.
  intros Hin Hstep. induction items as [|[j ov'] items IH]; [contradiction|].
  intros g. simpl.
  destruct Hin as [[= -> ->]|Hin].
  - destruct (Hstep g) as [e ->]. simpl. eauto.
  - destruct (overlay_step env W H j ov' g) as [g1|e]; simpl; [|eauto].
    now apply IH.
Qed.

Lemma In_enumerate {A} (a : A) (l : list A) (i : Z) :
  In a l → ∃ k, In (k, a) (enumerate i l).
Proof.
  revert i. induction l as [|b l IH]; intros i; [contradiction|].
  intros [->|Hin]; simpl.
  - eauto.
  - destruct (IH (i + 1) Hin) as [k Hk]. eauto.
Qed.

(** A position that is not a number fails the job before the engine is
    launched: when the [x] or [y] of any overlay of the list, whatever
    its type, is a NaN or infinite, the run of a probed video writes
    processing and then failed, and launches nothing. *)
Theorem bad_position_fails_job (env : environment) (job_id video_path : string)
    (overlays : list OverlayMetadata) (ov : OverlayMetadata)
    (d : PyFloat.float) (W H : Z) :
  In ov overlays →
  (ov_x ov = S754_nan ∨ (∃ s, ov_x ov = S754_infinity s)
   ∨ ov_y ov = S754_nan ∨ (∃ s, ov_y ov = S754_infinity s)) →
  probe env video_path = Ok (d, W, H) →
  ∃ msg, process_video_task env job_id video_path overlays
         = [Save job_id "processing" 0 None;
            Save job_id "failed" 0 (Some msg)].
Proof.
  intros Hin Hbad Hp.
  assert (S : ∀ i g, ∃ e, overlay_step env W H i ov g = Raise e).
  { intros i g. unfold overlay_step.
    destruct Hbad as [Hx|[Hx|Hy]].
    - destruct (to_pixels_not_a_number (ov_x ov) W (or_introl Hx)) as [e ->].
      simpl. eauto.
    - destruct (to_pixels_not_a_number (ov_x ov) W (or_intror Hx)) as [e ->].
      simpl. eauto.
    - destruct (to_pixels (ov_x ov) W) as [x|e]; simpl; [|eauto].
      assert (Hy' : ov_y ov = S754_nan ∨ ∃ s, ov_y ov = S754_infinity s)
        by tauto.
      destruct (to_pixels_not_a_number (ov_y ov) H Hy') as [e ->].
      simpl. eauto. }
  destruct (In_enumerate ov overlays 0 Hin) as [k Hk].
  destruct (overlay_loop_raises env W H _ k ov Hk (S k)
              (initial_graph video_path)) as [e He].
  exists (exn_msg e).
  rewrite process_video_task_cases, Hp. unfold build_filter. rewrite He.
  reflexivity.
Qed.

Lemma bad_position_fails_job_witness :
  ∃ msg, process_video_task (example_env [] 0) "J" "in.mp4"
           [OverlayMetadata_init hi_item;
            {| ov_id := None; ov_type := "image"; ov_content := "missing.png";
               ov_start_time := dec 0 0; ov_end_time := dec 1 0;
               ov_x := dec 5 (-1); ov_y := S754_nan;
               ov_width := None; ov_height := None |}]
         = [Save "J" "processing" 0 None; Save "J" "failed" 0 (Some msg)].
Proof.
  eapply (bad_position_fails_job (example_env [] 0) "J" "in.mp4" _ _
            (dec 100 0) 1920 1080).
  - right. left. reflexivity.
  - right. right. left. reflexivity.
  - vm_compute. reflexivity.
Defined.

(** ** The supervisor: what a run writes *)

Lemma line_progress_range (d : PyFloat.float) (line : string) (p : Z) :
  line_progress d line = Ok (Some p) → 0 <= p <= 99.
Proof.
  intros Hp.
  destruct (search_time line) as [g|] eqn:Hg.
  2:{ unfold line_progress in Hp. rewrite Hg in Hp. discriminate. }
  destruct (PyFloat.ltb PyFloat.zero d) eqn:Hd.
  2:{ unfold line_progress in Hp. rewrite Hg, Hd in Hp. discriminate. }
  destruct (search_time_shape line g Hg)
    as (hh & mm & ss & ff & (Hh & Hm & Hs & Hf) & ->).
  pose proof (line_progress_marker d line hh mm ss ff Hh Hm Hs Hf Hg Hd) as P.
  destruct (PyFloat.floor _) as [fl|] eqn:F.
  - rewrite P in Hp. injection Hp as <-.
    assert (0 <= fl).
    { eapply floor_not_negative; [|exact F].
      apply percentage_not_negative; [|exact Hd].
      apply clock_seconds_not_negative; lia. }
    lia.
  - destruct P as [e P]. rewrite P in Hp. discriminate.
Qed.

Lemma report_progress_range (j : string) (d : PyFloat.float)
    (lines : list string) :
  Forall (λ e, ∃ p, e = Save j "processing" p None ∧ 0 <= p <= 99)
         (fst (report_progress j d lines)).
Proof.
  induction lines as [|line rest IH]; [constructor|].
  rewrite report_progress_cons.
  destruct (line_progress d line) as [[p|]|e] eqn:E; simpl; auto.
  constructor; [|exact IH].
  exists p. split; [reflexivity|]. eapply line_progress_range, E.
Qed.

(** Every snapshot that a run writes is one of three kinds, and all are
    written for the job of the run: processing with a progress from 0 to
    99 and no error, completed with progress 100 and no error, or failed
    with progress 0 and an error message.  In particular no progress is
    negative, whatever the engine prints. *)
Theorem writes_of_a_run (env : environment) (job_id video_path : string)
    (overlays : list OverlayMetadata) (j st : string) (p : Z)
    (err : option string) :
  In (Save j st p err) (process_video_task env job_id video_path overlays) →
  j = job_id
  ∧ ((st = "processing" ∧ 0 <= p <= 99 ∧ err = None)
     ∨ (st = "completed" ∧ p = 100 ∧ err = None)
     ∨ (st = "failed" ∧ p = 0 ∧ ∃ msg, err = Some msg)).
Proof.
  assert (F : ∀ ex, In (Save j st p err) [failed job_id ex] →
    j = job_id
    ∧ ((st = "processing" ∧ 0 <= p <= 99 ∧ err = None)
       ∨ (st = "completed" ∧ p = 100 ∧ err = None)
       ∨ (st = "failed" ∧ p = 0 ∧ ∃ msg, err = Some msg))).
  { intros ex [[= <- <- <- <-]|[]]. split; [reflexivity|].
    right. right. eauto. }
  rewrite process_video_task_cases.
  destruct (probe env video_path) as [[[d W] H]|e]; [|exact (F e)].
  intros [[= <- <- <- <-]|Hin].
  { split; [reflexivity|]. left. repeat split; lia. }
  destruct (build_filter env W H video_path overlays) as [g|e]; [|exact (F _ Hin)].
  cbv zeta in Hin. destruct Hin as [Hin|Hin]; [discriminate Hin|].
  destruct (Popen env _) as [proc|e]; [|exact (F _ Hin)].
  apply in_app_or in Hin as [Hin|Hin].
  - pose proof (report_progress_range job_id d (stderr proc)) as R.
    rewrite List.Forall_forall in R.
    destruct (R _ Hin) as (q & [= -> -> -> ->] & Hq).
    split; [reflexivity|]. left. auto.
  - destruct (snd _) as [[]|e]; [|exact (F _ Hin)].
    destruct (returncode proc =? 0); [|exact (F _ Hin)].
    destruct Hin as [[= <- <- <- <-]|[]].
    split; [reflexivity|]. right. left. auto.
Qed.

Lemma writes_of_a_run_witness :
  "J" = "J"
  ∧ (("processing" = "processing" ∧ 0 <= 50 <= 99 ∧ @None string = None)
     ∨ ("processing" = "completed" ∧ 50 = 100 ∧ @None string = None)
     ∨ ("processing" = "failed" ∧ 50 = 0 ∧ ∃ msg, @None string = Some msg)).
Proof.
  apply (writes_of_a_run
           (example_env ["frame=1200 fps=25 time=00:00:50.00 bitrate=900k"] 0)
           "J" "in.mp4" [] "J" "processing" 50 None).
  vm_compute. right. right. left. reflexivity.
Defined.

(** *** A duration that is not positive *)

Lemma report_progress_silent (j : string) (d : PyFloat.float)
    (lines : list string) :
  PyFloat.ltb PyFloat.zero d = false →
  report_progress j d lines = ([], Ok tt).
Proof.
  intros Hd. induction lines as [|line rest IH]; [reflexivity|].
  rewrite report_progress_cons.
  assert (E : line_progress d line = Ok None).
  { unfold line_progress. rewrite Hd. now destruct (search_time line). }
  now rewrite E.
Qed.

(** When the prober reports a duration that is negative or not a number
    (only 0 is refused), the job is rendered without progress reports:
    whatever the engine prints, the run writes the first processing
    snapshot, launches the engine, and then writes the terminal snapshot
    that the exit code decides. *)
Theorem no_progress_without_positive_duration (env : environment)
    (job_id video_path : string) (overlays : list OverlayMetadata)
    (d : PyFloat.float) (W H : Z) (g : graph) (proc : process) :
  probe env video_path = Ok (d, W, H) →
  PyFloat.ltb PyFloat.zero d = false →
  build_filter env W H video_path overlays = Ok g →
  Popen env (ffmpeg_cmd g (OUTPUT_DIR env (job_id +:+ ".mp4"))) = Ok proc →
  process_video_task env job_id video_path overlays
  = [Save job_id "processing" 0 None;
     Launch (ffmpeg_cmd g (OUTPUT_DIR env (job_id +:+ ".mp4")));
     if returncode proc =? 0 then Save job_id "completed" 100 None
     else Save job_id "failed" 0 (Some "FFmpeg process failed")].
Proof.
  intros Hp Hd Hg Hproc.
  rewrite process_video_task_cases, Hp, Hg. cbv zeta. rewrite Hproc.
  rewrite (report_progress_silent job_id d (stderr proc) Hd). simpl.
  now destruct (returncode proc =? 0).
Qed.

Lemma no_progress_without_positive_duration_witness :
  process_video_task
    (machine "-100.000000" "1920x1080"
       ["frame=1200 fps=25 time=00:00:50.00 bitrate=900k"] 0)
    "J" "in.mp4" []
  = [Save "J" "processing" 0 None;
     Launch (ffmpeg_cmd (finish_graph (initial_graph "in.mp4"))
               "/srv/outputs/J.mp4");
     if 0 =? 0 then Save "J" "completed" 100 None
     else Save "J" "failed" 0 (Some "FFmpeg process failed")].
Proof.
  apply (no_progress_without_positive_duration
           (machine "-100.000000" "1920x1080"
              ["frame=1200 fps=25 time=00:00:50.00 bitrate=900k"] 0)
           "J" "in.mp4" [] (SFopp (dec 100 0)) 1920 1080
           (finish_graph (initial_graph "in.mp4"))
           {| stderr := ["frame=1200 fps=25 time=00:00:50.00 bitrate=900k"];
              returncode := 0 |});
    vm_compute; reflexivity.
Defined.

(** *** The engine *)

(** The engine is launched at most once in a run, and only right after
    the first processing snapshot: a trace with a launch starts with
    that snapshot and the launch, and holds no other launch.  The
    command starts with [ffmpeg -y] and ends with the output file of the
    job. *)
Theorem engine_launched_once (env : environment) (job_id video_path : string)
    (overlays : list OverlayMetadata) :
  launches (process_video_task env job_id video_path overlays) = []
  ∨ ∃ g rest,
      process_video_task env job_id video_path overlays
      = Save job_id "processing" 0 None
          :: Launch (ffmpeg_cmd g (OUTPUT_DIR env (job_id +:+ ".mp4"))) :: rest
      ∧ launches rest = []
      ∧ firstn 2 (ffmpeg_cmd g (OUTPUT_DIR env (job_id +:+ ".mp4")))
        = ["ffmpeg"; "-y"]
      ∧ list.last (ffmpeg_cmd g (OUTPUT_DIR env (job_id +:+ ".mp4")))
        = Some (OUTPUT_DIR env (job_id +:+ ".mp4")).
Proof.
  rewrite process_video_task_cases.
  destruct (probe env video_path) as [[[d W] H]|e]; [|left; reflexivity].
  destruct (build_filter env W H video_path overlays) as [g|e];
    [|left; reflexivity].
  right. cbv zeta. eexists g, _. split; [reflexivity|].
  split; [|split].
  - destruct (Popen env _) as [proc|e]; [|reflexivity].
    unfold launches. rewrite List.filter_app.
    fold (launches (fst (report_progress job_id d (stderr proc)))).
    rewrite (launches_progress job_id _ (report_progress_writes _ _ _)).
    destruct (snd _) as [[]|e]; [destruct (returncode proc =? 0)|];
      reflexivity.
  - reflexivity.
  - unfold ffmpeg_cmd.
    change [?a; ?b; ?c; ?d; ?e; ?f; ?g0; ?h; ?i; ?j; ?k; ?l; ?m]
      with ([a; b; c; d; e; f; g0; h; i; j; k; l] ++ [m])%list.
    rewrite !app_assoc. apply last_snoc.
Qed.

Lemma report_progress_outcome (j : string) (d : PyFloat.float)
    (lines : list string) :
  (∃ u, snd (report_progress j d lines) = Ok u)
  ↔ Forall (λ line, is_Ok (line_progress d line) = true) lines.
Proof.
  induction lines as [|line rest IH].
  - split; [constructor | intros _; exists tt; reflexivity].
  - rewrite report_progress_cons.
    destruct (line_progress d line) as [[p|]|e] eqn:E; simpl.
    + rewrite IH. split; [intros HF; constructor; [now rewrite E | exact HF]|].
      intros HF. now inversion HF.
    + rewrite IH. split; [intros HF; constructor; [now rewrite E | exact HF]|].
      intros HF. now inversion HF.
    + split; [intros [u Hu]; discriminate Hu|].
      intros HF. inversion HF as [|? ? H1 H2]. rewrite E in H1. discriminate H1.
Qed.

(** A launched job is completed exactly when the engine exits with code
    0 and no line of its diagnostics made the progress computation
    raise; in every other case its last snapshot is the failed one. *)
Theorem completed_iff_exit_zero (env : environment)
    (job_id video_path : string) (overlays : list OverlayMetadata)
    (d : PyFloat.float) (W H : Z) (g : graph) (proc : process) :
  probe env video_path = Ok (d, W, H) →
  build_filter env W H video_path overlays = Ok g →
  Popen env (ffmpeg_cmd g (OUTPUT_DIR env (job_id +:+ ".mp4"))) = Ok proc →
  (In (Save job_id "completed" 100 None)
      (process_video_task env job_id video_path overlays)
   ↔ returncode proc = 0
     ∧ Forall (λ line, is_Ok (line_progress d line) = true) (stderr proc))
  ∧ (list.last (process_video_task env job_id video_path overlays)
     = Some (Save job_id "completed" 100 None)
     ∨ ∃ msg, list.last (process_video_task env job_id video_path overlays)
              = Some (Save job_id "failed" 0 (Some msg))).
Proof.
  intros Hp Hg Hproc.
  rewrite process_video_task_cases, Hp, Hg. cbv zeta. rewrite Hproc.
  pose proof (report_progress_outcome job_id d (stderr proc)) as O.
  pose proof (report_progress_range job_id d (stderr proc)) as R.
  rewrite List.Forall_forall in R.
  set (evs := fst (report_progress job_id d (stderr proc))) in *.
  destruct (snd (report_progress job_id d (stderr proc))) as [[]|e] eqn:S.
  - assert (A : Forall (λ line, is_Ok (line_progress d line) = true)
                  (stderr proc)) by (apply O; eauto).
    destruct (Z.eqb_spec (returncode proc) 0) as [Hz|Hz].
    + split; [|left].
      * split; [auto|]. intros _. right. right. apply in_or_app. right.
        now left.
      * change (Save job_id "processing" 0 None :: Launch ?c :: ?l)
          with ([Save job_id "processing" 0 None; Launch c] ++ l)%list.
        rewrite !app_assoc. apply last_snoc.
    + split; [|right; eexists].
      * split; [|intros [? _]; contradiction].
        intros [Hin|[Hin|Hin]]; try discriminate Hin.
        apply in_app_or in Hin as [Hin|[Hin|[]]]; [|discriminate Hin].
        destruct (R _ Hin) as (q & Hq & _). discriminate Hq.
      * change (Save job_id "processing" 0 None :: Launch ?c :: ?l)
          with ([Save job_id "processing" 0 None; Launch c] ++ l)%list.
        rewrite !app_assoc. apply last_snoc.
  - split; [|right; eexists].
    + split.
      * intros [Hin|[Hin|Hin]]; try discriminate Hin.
        apply in_app_or in Hin as [Hin|[Hin|[]]]; [|discriminate Hin].
        destruct (R _ Hin) as (q & Hq & _). discriminate Hq.
      * intros [_ A]. apply O in A as [u Hu]. discriminate Hu.
    + change (Save job_id "processing" 0 None :: Launch ?c :: ?l)
        with ([Save job_id "processing" 0 None; Launch c] ++ l)%list.
      rewrite !app_assoc. apply last_snoc.
Qed.

Lemma completed_iff_exit_zero_witness :
  (In (Save "J" "completed" 100 None)
      (process_video_task
         (example_env ["frame=1200 fps=25 time=00:00:50.00 bitrate=900k"] 1)
         "J" "in.mp4" [])
   ↔ 1 = 0
     ∧ Forall (λ line, is_Ok (line_progress (dec 100 0) line) = true)
         ["frame=1200 fps=25 time=00:00:50.00 bitrate=900k"])
  ∧ (list.last (process_video_task
         (example_env ["frame=1200 fps=25 time=00:00:50.00 bitrate=900k"] 1)
         "J" "in.mp4" [])
     = Some (Save "J" "completed" 100 None)
     ∨ ∃ msg, list.last (process_video_task
         (example_env ["frame=1200 fps=25 time=00:00:50.00 bitrate=900k"] 1)
         "J" "in.mp4" [])
              = Some (Save "J" "failed" 0 (Some msg))).
Proof.
  apply (completed_iff_exit_zero
           (example_env ["frame=1200 fps=25 time=00:00:50.00 bitrate=900k"] 1)
           "J" "in.mp4" [] (dec 100 0) 1920 1080
           (finish_graph (initial_graph "in.mp4"))
           {| stderr := ["frame=1200 fps=25 time=00:00:50.00 bitrate=900k"];
              returncode := 1 |});
    vm_compute; reflexivity.
Defined.

(** ** Snapshots: what is written is what is read *)

Lemma code_points_seven_bit (a : ascii) (s : string) :
  (nat_of_ascii a < 128)%nat →
  JsonDump.code_points (String a s)
  = Z.of_nat (nat_of_ascii a) :: JsonDump.code_points s.
Proof.
  intros Ha. cbn [JsonDump.code_points].
  assert (E1 : (192 <=? Z.of_nat (nat_of_ascii a)) = false) by lia.
  assert (E2 : (224 <=? Z.of_nat (nat_of_ascii a)) = false) by lia.
  assert (E3 : (240 <=? Z.of_nat (nat_of_ascii a)) = false) by lia.
  rewrite E1, E2, E3. cbn [andb].
  destruct s as [|b [|c [|d s]]]; try reflexivity;
    repeat match goal with
           | |- context [if ?b then _ else _] => destruct b
           end; reflexivity.
Qed.

Lemma scanstring_escape (a : ascii) (t : string) :
  (nat_of_ascii a < 128)%nat →
  Json.scanstring (JsonDump.escape (Z.of_nat (nat_of_ascii a)) +:+ t)
  = match Json.scanstring t with
    | Json.Scanned (r, rest) => Json.Scanned (String a r, rest)
    | Json.Bad msg => Json.Bad msg
    end.
Proof.
  destruct a as [[] [] [] [] [] [] [] []]; intros Ha;
    try (exfalso; vm_compute in Ha; lia);
    (cbv - [Json.scanstring]; cbn [Json.scanstring]; cbv - [Json.scanstring];
     destruct (Json.scanstring t) as [[r rest]|msg]; reflexivity).
Qed.

Lemma encoded_cons (a : ascii) (s : string) :
  (nat_of_ascii a < 128)%nat →
  encoded (String a s)
  = JsonDump.escape (Z.of_nat (nat_of_ascii a)) +:+ encoded s.
Proof.
  intros Ha. unfold encoded. now rewrite code_points_seven_bit.
Qed.

Lemma scanstring_encoded (s rest : string) :
  seven_bit s = true →
  Json.scanstring (encoded s +:+ String "034" rest) = Json.Scanned (s, rest).
Proof.
  induction s as [|a s IH]; intros Hs; [reflexivity|].
  cbn [seven_bit] in Hs. apply andb_true_iff in Hs as [Ha Hs].
  apply Nat.ltb_lt in Ha.
  rewrite (encoded_cons a s Ha), append_assoc, (scanstring_escape a _ Ha).
  now rewrite (IH Hs).
Qed.

Lemma scan_once_string (f : nat) (s rest : string) :
  seven_bit s = true →
  Json.scan_once (S f) (String "034" (encoded s +:+ String "034" rest))
  = Json.Scanned (Json.JStr s, rest).
Proof.
  intros Hs. cbn [Json.scan_once]. now rewrite (scanstring_encoded s rest Hs).
Qed.

Lemma substring_all (s : string) : String.substring 0 (String.length s) s = s.
Proof. induction s as [|c s IH]; [reflexivity|]. simpl. now rewrite IH. Qed.

Lemma starts_with_null (rest : string) :
  Json.starts_with "null" (String "n" (String "u" (String "l" (String "l" rest))))
  = Some rest.
Proof.
  unfold Json.starts_with.
  replace (String.prefix _ _) with true by (simpl; now destruct rest).
  cbn [String.length Nat.sub String.substring].
  now rewrite Nat.sub_0_r, substring_all.
Qed.

Lemma scan_once_null (f : nat) (rest : string) :
  Json.scan_once (S f) (String "n" (String "u" (String "l" (String "l" rest))))
  = Json.Scanned (Json.JNull, rest).
Proof.
  cbn [Json.scan_once]. unfold Json.scan_atom. now rewrite starts_with_null.
Qed.

Lemma read_digits_stop (acc n : Z) (rest : string) :
  PyFloat.read_digits acc n (String "," rest) = (acc, n, String "," rest).
Proof. reflexivity. Qed.

Lemma read_digits_uint_acc (d : Decimal.uint) (rest : string) :
  ∀ (acc : positive) (n : Z),
    ∃ n', PyFloat.read_digits (Z.pos acc) n
            (NilEmpty.string_of_uint d +:+ String "," rest)
          = (Z.pos (Pos.of_uint_acc d acc), n', String "," rest).
Proof.
  induction d as [|d IH|d IH|d IH|d IH|d IH|d IH|d IH|d IH|d IH|d IH];
    intros acc n;
    [exists n; reflexivity|..];
    cbn [NilEmpty.string_of_uint Pos.of_uint_acc]; rewrite append_cons;
    cbn [PyFloat.read_digits];
    match goal with
    | |- context [PyStr.is_digit ?c] =>
        change (PyStr.is_digit c) with true; cbv iota
    end;
    match goal with
    | |- context [PyFloat.read_digits ?a ?m _] =>
        match goal with
        | |- context [Pos.of_uint_acc d ?b] =>
            replace a with (Z.pos b)
              by (match goal with
                  | |- context [PyStr.digit_val ?c] =>
                      let v := eval vm_compute in (PyStr.digit_val c) in
                      change (PyStr.digit_val c) with v
                  end; lia);
            apply (IH b m)
        end
    end.
Qed.

Lemma read_digits_to_uint (p : positive) (rest : string) :
  ∃ c s n',
    NilEmpty.string_of_uint (Pos.to_uint p) = String c s
    ∧ PyStr.is_digit c = true ∧ c ≠ "0"%char
    ∧ PyFloat.read_digits 0 0 (String c s +:+ String "," rest)
      = (Z.pos p, n', String "," rest).
Proof.
  pose proof (Unsigned.of_to p) as V.
  pose proof (Unsigned.to_uint_nonnil p) as N1.
  assert (N0 : ∀ l, Pos.to_uint p ≠ Decimal.D0 l).
  { intros l E. pose proof (Unsigned.to_of (Pos.to_uint p)) as T.
    rewrite V in T. cbn [N.to_uint] in T. rewrite E in T.
    unfold Decimal.unorm in T.
    destruct (Decimal.nzhead (Decimal.D0 l)) eqn:Z; try discriminate T.
    - injection T as ->. now apply (Unsigned.to_uint_nonzero p).
    - now apply nzhead_nonzero in Z. }
  destruct (Pos.to_uint p) as [|l|l|l|l|l|l|l|l|l|l] eqn:E;
    [contradiction | exfalso; now apply (N0 l) | ..];
    cbn [Pos.of_uint] in V; injection V as V;
    cbn [NilEmpty.string_of_uint];
    match goal with
    | |- context [String ?c (NilEmpty.string_of_uint l) = _] =>
        match type of V with
        | Pos.of_uint_acc l ?k = _ =>
            destruct (read_digits_uint_acc l rest k 1) as [n' R];
            exists c, (NilEmpty.string_of_uint l), n';
            split; [reflexivity|]; split; [reflexivity|];
            split; [discriminate|];
            rewrite append_cons; cbn [PyFloat.read_digits];
            change (PyStr.is_digit c) with true; cbv iota;
            rewrite <- V; exact R
        end
    end.
Qed.

Lemma scan_number_to_uint (p : positive) (rest : string) :
  Json.scan_number (NilEmpty.string_of_uint (Pos.to_uint p) +:+ String "," rest)
  = Some (Json.JInt (Z.pos p), String "," rest).
Proof.
  destruct (read_digits_to_uint p rest) as (c & s & n' & -> & Hd & H0 & R).
  rewrite append_cons in *. unfold Json.scan_number.
  assert (Hm : c ≠ "-"%char) by (intros ->; discriminate Hd).
  destruct (Ascii.eqb_spec c "-") as [|_]; [contradiction|].
  destruct (Ascii.eqb_spec c "0") as [|_]; [contradiction|].
  destruct c as [[] [] [] [] [] [] [] []]; try discriminate Hd;
    try contradiction; rewrite R; cbn [mbind option_bind];
    cbn [PyFloat.read_exponent PyFloat.lower]; simpl;
    now rewrite String.eqb_refl.
Qed.

Lemma scan_once_int (f : nat) (p : Z) (rest : string) :
  f ≠ 0%nat → 0 <= p →
  Json.scan_once f (PyStr.of_int p +:+ String "," rest)
  = Json.Scanned (Json.JInt p, String "," rest).
Proof.
  intros Hf Hp. destruct f as [|f]; [contradiction|].
  destruct p as [|q|q]; [|  |lia].
  { change (PyStr.of_int 0) with "0". rewrite append_cons, append_nil_l.
    cbn [Json.scan_once]. unfold Json.scan_atom, Json.starts_with. simpl.
    unfold Json.scan_number. simpl. now rewrite String.eqb_refl. }
  destruct (read_digits_to_uint q rest) as (c & s & n' & E & Hd & H0 & _).
  pose proof (scan_number_to_uint q rest) as N.
  assert (Eo : PyStr.of_int (Z.pos q) = String c s).
  { unfold PyStr.of_int. cbn [Z.to_int NilZero.string_of_int].
    unfold NilZero.string_of_uint.
    destruct (Pos.to_uint q); [discriminate E|exact E..]. }
  rewrite E, append_cons in N. rewrite Eo, append_cons.
  destruct c as [[] [] [] [] [] [] [] []]; try discriminate Hd;
    try (exfalso; apply H0; reflexivity);
    cbn [Json.scan_once]; unfold Json.scan_atom, Json.starts_with; simpl;
    now rewrite N.
Qed.

Lemma scan_once_text (f : nat) (s rest : string) :
  f ≠ 0%nat → seven_bit s = true →
  Json.scan_once f (String "034" (encoded s +:+ String "034" rest))
  = Json.Scanned (Json.JStr s, rest).
Proof.
  intros Hf Hs. destruct f as [|f]; [contradiction|].
  now apply scan_once_string.
Qed.

Lemma scan_once_none (f : nat) (rest : string) :
  f ≠ 0%nat →
  Json.scan_once f (String "n" (String "u" (String "l" (String "l" rest))))
  = Json.Scanned (Json.JNull, rest).
Proof.
  intros Hf. destruct f as [|f]; [contradiction|]. apply scan_once_null.
Qed.

Lemma dumps_str_app (s rest : string) :
  JsonDump.dumps_str s +:+ rest
  = String "034" (encoded s +:+ String "034" rest).
Proof.
  unfold JsonDump.dumps_str. fold (encoded s).
  now rewrite append_assoc, !append_cons, append_nil_l.
Qed.

Lemma strip_snapshot_json (job_id status : string) (progress : Z)
    (error : option string) (updated_at : string) :
  PyStr.strip PyStr.is_space_str
    (snapshot_json job_id status progress error updated_at)
  = snapshot_json job_id status progress error updated_at.
Proof.
  unfold PyStr.strip.
  assert (L : PyStr.lstrip PyStr.is_space_str
                (snapshot_json job_id status progress error updated_at)
              = snapshot_json job_id status progress error updated_at).
  { unfold snapshot_json. rewrite append_cons. reflexivity. }
  rewrite L. unfold snapshot_json. rewrite <- !append_assoc.
  now rewrite rstrip_app.
Qed.

Lemma of_int_digit (p : Z) :
  0 <= p → ∃ c s, PyStr.of_int p = String c s ∧ PyStr.is_digit c = true.
Proof.
  intros Hp. destruct p as [|q|q]; [exists "0"%char, ""; now split| |lia].
  destruct (read_digits_to_uint q "") as (c & s & n' & E & Hd & _).
  exists c, s. split; [|exact Hd].
  unfold PyStr.of_int. cbn [Z.to_int NilZero.string_of_int].
  unfold NilZero.string_of_uint.
  destruct (Pos.to_uint q); [discriminate E|exact E..].
Qed.

Lemma skip_ws_of_int (p : Z) (rest : string) :
  0 <= p →
  PyStr.lstrip Json.is_ws (PyStr.of_int p +:+ rest) = PyStr.of_int p +:+ rest.
Proof.
  intros Hp. destruct (of_int_digit p Hp) as (c & s & -> & Hd).
  rewrite append_cons. cbn [PyStr.lstrip].
  destruct c as [[] [] [] [] [] [] [] []]; try discriminate Hd; reflexivity.
Qed.

Lemma loads_snapshot_json (job_id status : string) (progress : Z)
    (error : option string) (updated_at : string) :
  seven_bit job_id = true → seven_bit status = true →
  0 <= progress →
  (∀ msg, error = Some msg → seven_bit msg = true) →
  seven_bit updated_at = true →
  Json.loads (snapshot_json job_id status progress error updated_at)
  = Ok (snapshot_value job_id status progress error updated_at).
Proof.
  intros Hj Hs Hp He Hu. unfold Json.loads.
  remember (String.length
              (snapshot_json job_id status progress error updated_at))
    as f0 eqn:Ef.
  assert (H0 : f0 ≠ 0%nat).
  { subst f0. unfold snapshot_json. rewrite append_cons.
    cbn [String.length]. discriminate. }
  clear Ef. unfold snapshot_json, snapshot_value.
  remember (PyStr.of_int progress) as ptxt eqn:Ep.
  destruct error as [msg|]; cbn [JsonDump.dumps_opt];
    rewrite !dumps_str_app;
    change (encoded "job_id") with "job_id";
    change (encoded "status") with "status";
    change (encoded "progress") with "progress";
    change (encoded "error") with "error";
    change (encoded "updated_at") with "updated_at";
    repeat rewrite append_cons; repeat rewrite append_nil_l;
    cbn [Json.scan_once]; unfold Json.skip_ws; simpl;
    rewrite (scan_once_text f0 job_id _ H0 Hj); simpl;
    rewrite (scan_once_text f0 status _ H0 Hs); simpl;
    subst ptxt; rewrite (skip_ws_of_int progress _ Hp);
    rewrite (scan_once_int f0 progress _ H0 Hp); simpl;
    [rewrite (scan_once_text f0 msg _ H0 (He msg eq_refl))
    |rewrite (scan_once_none f0 _ H0)]; simpl;
    rewrite (scan_once_text f0 updated_at _ H0 Hu); simpl; reflexivity.
Qed.

Lemma load_of_snapshot (JOBS_DIR : jobs_dir) (job_id status : string)
    (progress : Z) (error : option string) (updated_at : string) :
  JOBS_DIR !! (job_id +:+ ".json")
    = Some (snapshot_json job_id status progress error updated_at) →
  seven_bit job_id = true → seven_bit status = true →
  0 <= progress →
  (∀ msg, error = Some msg → seven_bit msg = true) →
  seven_bit updated_at = true →
  load_job_status JOBS_DIR job_id
  = Ok (Some (snapshot_value job_id status progress error updated_at)).
Proof.
  intros Hl Hj Hs Hp He Hu. unfold load_job_status. rewrite Hl.
  rewrite strip_snapshot_json.
  assert (E : String.eqb (snapshot_json job_id status progress error updated_at)
                "" = false).
  { unfold snapshot_json. rewrite append_cons. reflexivity. }
  rewrite E, (loads_snapshot_json _ _ _ _ _ Hj Hs Hp He Hu). reflexivity.
Qed.

Lemma length_append (a b : string) :
  String.length (a +:+ b) = (String.length a + String.length b)%nat.
Proof.
  induction a as [|c a IH]; [now rewrite append_nil_l|].
  rewrite append_cons. simpl. now rewrite IH.
Qed.

Lemma append_inj_l (a b s : string) : a +:+ s = b +:+ s → a = b.
Proof.
  revert b. induction a as [|c a IH]; intros [|d b] E.
  - reflexivity.
  - apply (f_equal String.length) in E. rewrite !length_append in E.
    simpl in E. lia.
  - apply (f_equal String.length) in E. rewrite !length_append in E.
    simpl in E. lia.
  - rewrite !append_cons in E. injection E as -> E. f_equal. now apply IH.
Qed.

(** What is written is what is read: after [save_job_status] has written
    the snapshot of a job, [load_job_status] returns the dictionary of
    its five fields and the status request answers it; the snapshots of
    the other jobs read as before.  The texts are 7-bit and the progress
    is not negative. *)
Theorem save_then_load (JOBS_DIR : jobs_dir) (job_id status : string)
    (progress : Z) (error : option string) (updated_at : string) :
  seven_bit job_id = true → seven_bit status = true →
  0 <= progress →
  (∀ msg, error = Some msg → seven_bit msg = true) →
  seven_bit updated_at = true →
  load_job_status
    (save_job_file JOBS_DIR job_id status progress error updated_at) job_id
  = Ok (Some (snapshot_value job_id status progress error updated_at))
  ∧ get_status
      (save_job_file JOBS_DIR job_id status progress error updated_at) job_id
    = Ok (Some (snapshot_value job_id status progress error updated_at))
  ∧ ∀ other, other ≠ job_id →
      load_job_status
        (save_job_file JOBS_DIR job_id status progress error updated_at) other
      = load_job_status JOBS_DIR other.
Proof.
  intros Hj Hs Hp He Hu.
  assert (L : load_job_status
    (save_job_file JOBS_DIR job_id status progress error updated_at) job_id
    = Ok (Some (snapshot_value job_id status progress error updated_at))).
  { apply load_of_snapshot; auto. unfold save_job_file.
    apply lookup_insert_eq. }
  split; [exact L|]. split.
  - unfold get_status. rewrite L. reflexivity.
  - intros other Ho. unfold load_job_status, save_job_file.
    rewrite lookup_insert_ne; [reflexivity|].
    intros E. apply Ho. symmetry. eapply append_inj_l, E.
Qed.

Lemma save_then_load_witness :
  load_job_status
    (save_job_file ∅ "J" "failed" 0
       (Some ("could not convert string to float: 'a" +:+ String "010" "b\c'"))
       "2024-05-01T10:00:00.000000") "J"
  = Ok (Some (snapshot_value "J" "failed" 0
       (Some ("could not convert string to float: 'a" +:+ String "010" "b\c'"))
       "2024-05-01T10:00:00.000000"))
  ∧ get_status
      (save_job_file ∅ "J" "failed" 0
       (Some ("could not convert string to float: 'a" +:+ String "010" "b\c'"))
       "2024-05-01T10:00:00.000000") "J"
    = Ok (Some (snapshot_value "J" "failed" 0
       (Some ("could not convert string to float: 'a" +:+ String "010" "b\c'"))
       "2024-05-01T10:00:00.000000"))
  ∧ ∀ other, other ≠ "J" →
      load_job_status
        (save_job_file ∅ "J" "failed" 0
          (Some ("could not convert string to float: 'a" +:+ String "010" "b\c'"))
          "2024-05-01T10:00:00.000000") other
      = load_job_status ∅ other.
Proof.
  apply (save_then_load ∅ "J" "failed" 0
           (Some ("could not convert string to float: 'a"
                    +:+ String "010" "b\c'"))
           "2024-05-01T10:00:00.000000");
    [reflexivity | reflexivity | lia | | reflexivity].
  intros msg [= <-]. reflexivity.
Defined.

(** ** The store after a run *)

Lemma store_after_no_saves (now : nat → string) (evs : list event) :
  ∀ n JOBS_DIR, saves evs = [] → store_after now n evs JOBS_DIR = JOBS_DIR.
Proof.
  induction evs as [|[j st p er|cmd] evs IH]; intros n D Hs;
    [reflexivity|discriminate Hs|].
  cbn [store_after]. now apply IH.
Qed.

(** After the writes of a trace of one job, the file of the job holds
    the last snapshot written. *)
Lemma store_after_last (now : nat → string) (j : string) (evs : list event) :
  ∀ n JOBS_DIR pre st p er,
    Forall (λ e, is_launch e = true ∨ ∃ st p er, e = Save j st p er) evs →
    saves evs = (pre ++ [Save j st p er])%list →
    store_after now n evs JOBS_DIR !! (j +:+ ".json")
    = Some (snapshot_json j st p er (now (n + length pre)%nat)).
Proof.
  induction evs as [|e evs IH]; intros n D pre st p er Hall Hs.
  - destruct pre; discriminate Hs.
  - apply List.Forall_cons_iff in Hall as [He Hall].
    destruct He as [He|(st' & p' & er' & ->)].
    + destruct e as [|cmd]; [discriminate He|].
      cbn [store_after]. now apply IH.
    + cbn [store_after]. unfold saves in Hs. cbn [List.filter is_save] in Hs.
      fold (saves evs) in Hs.
      destruct pre as [|x pre].
      * injection Hs as -> -> -> Hs.
        rewrite (store_after_no_saves now evs _ _ Hs).
        unfold save_job_file. rewrite lookup_insert_eq.
        now rewrite Nat.add_0_r.
      * injection Hs as _ Hs.
        rewrite (IH (S n) _ pre st p er Hall Hs).
        cbn [length]. now rewrite Nat.add_succ_r.
Qed.

Lemma snapshot_after_run (env : environment) (now : nat → string)
    (JOBS_DIR : jobs_dir) (job_id video_path : string)
    (overlays : list OverlayMetadata) :
  ∃ k st p er,
    ((st = "completed" ∧ p = 100 ∧ er = None
      ∧ In (Save job_id "completed" 100 None)
           (process_video_task env job_id video_path overlays))
     ∨ (∃ msg, st = "failed" ∧ p = 0 ∧ er = Some msg
        ∧ In (Save job_id "failed" 0 (Some msg))
             (process_video_task env job_id video_path overlays)
        ∧ ¬ In (Save job_id "completed" 100 None)
              (process_video_task env job_id video_path overlays)))
    ∧ store_after now 0 (process_video_task env job_id video_path overlays)
        JOBS_DIR !! (job_id +:+ ".json")
      = Some (snapshot_json job_id st p er (now k)).
Proof.
  destruct (saves_of_run env job_id video_path overlays)
    as (pre & t & Hs & Hpre & Ht).
  pose proof (events_of_run env job_id video_path overlays) as Hev.
  set (trace := process_video_task env job_id video_path overlays) in *.
  assert (Hall : Forall (λ e, is_launch e = true
                              ∨ ∃ st p er, e = Save job_id st p er) trace).
  { eapply Forall_impl; [exact Hev|]. intros e [H|[(p & -> & _)|[->|[ex ->]]]];
      [left; exact H|right; eauto..]. }
  assert (Hin : In t trace).
  { assert (In t (saves trace)) by (rewrite Hs; apply in_or_app; right; now left).
    unfold saves in H. now apply List.filter_In in H as [H _]. }
  destruct Ht as [->|[ex ->]].
  - exists (length pre), "completed", 100, None. split.
    + left. auto.
    + apply (store_after_last now job_id trace 0 JOBS_DIR pre _ _ _ Hall Hs).
  - exists (length pre), "failed", 0, (Some (exn_msg ex)). split.
    + right. exists (exn_msg ex). repeat split; auto.
      intros Hc.
      assert (Hcs : In (Save job_id "completed" 100 None) (saves trace))
        by (unfold saves; apply List.filter_In; split; [exact Hc|reflexivity]).
      rewrite Hs in Hcs. apply in_app_or in Hcs as [Hcs|[Hcs|[]]].
      * rewrite List.Forall_forall in Hpre.
        destruct (Hpre _ Hcs) as (q & Hq & _). discriminate Hq.
      * discriminate Hcs.
    + apply (store_after_last now job_id trace 0 JOBS_DIR pre _ _ _ Hall Hs).
Qed.

(** After a run, the status request answers the snapshot that the run
    wrote last, stamped with the time of that write: completed with
    progress 100 and no error, or failed with progress 0 and the message
    of the failure; it is never "not found".  The job identifier, the
    times and the message are 7-bit texts. *)
Theorem status_after_run (env : environment) (now : nat → string)
    (JOBS_DIR : jobs_dir) (job_id video_path : string)
    (overlays : list OverlayMetadata) :
  seven_bit job_id = true →
  (∀ n, seven_bit (now n) = true) →
  (∀ msg, In (Save job_id "failed" 0 (Some msg))
             (process_video_task env job_id video_path overlays) →
          seven_bit msg = true) →
  ∃ pre st p er,
    saves (process_video_task env job_id video_path overlays)
    = (pre ++ [Save job_id st p er])%list
    ∧ ((st = "completed" ∧ p = 100 ∧ er = None)
       ∨ (st = "failed" ∧ p = 0 ∧ ∃ msg, er = Some msg))
    ∧ get_status
        (store_after now 0 (process_video_task env job_id video_path overlays)
           JOBS_DIR) job_id
      = Ok (Some (snapshot_value job_id st p er (now (length pre)))).
Proof.
  intros Hj Hn Hm.
  destruct (saves_of_run env job_id video_path overlays)
    as (pre & t & Hs & Hpre & Ht).
  pose proof (events_of_run env job_id video_path overlays) as Hev.
  set (trace := process_video_task env job_id video_path overlays) in *.
  assert (Hall : Forall (λ e, is_launch e = true
                              ∨ ∃ st p er, e = Save job_id st p er) trace).
  { eapply Forall_impl; [exact Hev|]. intros e [H|[(p & -> & _)|[->|[ex ->]]]];
      [left; exact H|right; eauto..]. }
  assert (Hin : In t trace).
  { assert (In t (saves trace)) by (rewrite Hs; apply in_or_app; right; now left).
    unfold saves in H. now apply List.filter_In in H as [H _]. }
  unfold get_status.
  destruct Ht as [->|[ex ->]].
  - exists pre, "completed", 100, None.
    split; [exact Hs|]. split; [left; auto|].
    rewrite (load_of_snapshot _ _ _ _ _ _
               (store_after_last now job_id trace 0 JOBS_DIR pre _ _ _ Hall Hs)
               Hj eq_refl ltac:(lia) ltac:(discriminate) (Hn _)).
    reflexivity.
  - exists pre, "failed", 0, (Some (exn_msg ex)).
    split; [exact Hs|]. split; [right; eauto|].
    rewrite (load_of_snapshot _ _ _ _ _ _
               (store_after_last now job_id trace 0 JOBS_DIR pre _ _ _ Hall Hs)
               Hj eq_refl ltac:(lia)
               ltac:(intros ? [= <-]; apply Hm; exact Hin) (Hn _)).
    reflexivity.
Qed.

Lemma status_after_run_witness :
  ∃ pre st p er,
    saves (process_video_task
             (example_env ["frame=1200 fps=25 time=00:00:50.00 bitrate=900k"] 1)
             "J" "in.mp4" [])
    = (pre ++ [Save "J" st p er])%list
    ∧ ((st = "completed" ∧ p = 100 ∧ er = None)
       ∨ (st = "failed" ∧ p = 0 ∧ ∃ msg, er = Some msg))
    ∧ get_status
        (store_after (λ _, "2024-05-01T10:00:00.000000") 0
           (process_video_task
              (example_env ["frame=1200 fps=25 time=00:00:50.00 bitrate=900k"] 1)
              "J" "in.mp4" []) ∅) "J"
      = Ok (Some (snapshot_value "J" st p er
                    ((λ _ : nat, "2024-05-01T10:00:00.000000") (length pre)))).
Proof.
  apply (status_after_run
           (example_env ["frame=1200 fps=25 time=00:00:50.00 bitrate=900k"] 1)
           (λ _, "2024-05-01T10:00:00.000000") ∅ "J" "in.mp4" []).
  - reflexivity.
  - intros n. reflexivity.
  - intros msg H. vm_compute in H.
    destruct H as [H|[H|[H|[H|[]]]]]; try discriminate H.
    injection H as <-. reflexivity.
Defined.

(** After a run, the result request serves the rendered file exactly
    when the run was written as completed and the file exists: for a
    completed run without the file it answers 404 "File missing", and
    for a failed run 400 "Not ready".  The file served is the output
    file of the job, the last argument of the command that the run
    launched. *)
Theorem result_after_run (env : environment) (now : nat → string)
    (JOBS_DIR : jobs_dir) (job_id video_path : string)
    (overlays : list OverlayMetadata) :
  seven_bit job_id = true →
  (∀ n, seven_bit (now n) = true) →
  (∀ msg, In (Save job_id "failed" 0 (Some msg))
             (process_video_task env job_id video_path overlays) →
          seven_bit msg = true) →
  (In (Save job_id "completed" 100 None)
      (process_video_task env job_id video_path overlays) →
   get_result env
     (store_after now 0 (process_video_task env job_id video_path overlays)
        JOBS_DIR) job_id
   = (if path_exists env (OUTPUT_DIR env (job_id +:+ ".mp4"))
      then Reply {| path := OUTPUT_DIR env (job_id +:+ ".mp4");
                    media_type := "video/mp4";
                    filename := "render_" +:+ job_id +:+ ".mp4" |}
      else HTTPError 404 "File missing")
   ∧ ∃ cmd, In (Launch cmd)
               (process_video_task env job_id video_path overlays)
            ∧ list.last cmd = Some (OUTPUT_DIR env (job_id +:+ ".mp4")))
  ∧ (¬ In (Save job_id "completed" 100 None)
         (process_video_task env job_id video_path overlays) →
     get_result env
       (store_after now 0 (process_video_task env job_id video_path overlays)
          JOBS_DIR) job_id
     = HTTPError 400 "Not ready").
Proof.
  intros Hj Hn Hm.
  destruct (snapshot_after_run env now JOBS_DIR job_id video_path overlays)
    as (k & st & p & er & Hk & Hl).
  split.
  - intros Hc. split.
    + destruct Hk as [(-> & -> & -> & _)|(msg & _ & _ & _ & _ & Hnc)];
        [|contradiction].
      unfold get_result.
      rewrite (load_of_snapshot _ _ _ _ _ _ Hl Hj eq_refl ltac:(lia)
                 ltac:(discriminate) (Hn k)).
      cbn. now destruct (path_exists env _).
    + revert Hc. rewrite process_video_task_cases.
      destruct (probe env video_path) as [[[d W] H]|e].
      2:{ intros [Hc|[]]. discriminate Hc. }
      destruct (build_filter env W H video_path overlays) as [g|e].
      2:{ intros [Hc|[Hc|[]]]; discriminate Hc. }
      cbv zeta. intros _. eexists. split; [right; left; reflexivity|].
      unfold ffmpeg_cmd.
      change [?a; ?b; ?c; ?d0; ?e; ?f; ?g0; ?h; ?i; ?j; ?k0; ?l; ?m]
        with ([a; b; c; d0; e; f; g0; h; i; j; k0; l] ++ [m])%list.
      rewrite !app_assoc. apply last_snoc.
  - intros Hnc.
    destruct Hk as [(_ & _ & _ & Hc)|(msg & -> & -> & -> & Hin & _)];
      [contradiction|].
    unfold get_result.
    rewrite (load_of_snapshot _ _ _ _ _ _ Hl Hj eq_refl ltac:(lia)
               ltac:(intros ? [= <-]; now apply Hm) (Hn k)).
    reflexivity.
Qed.

Lemma result_after_run_witness :
  (In (Save "J" "completed" 100 None)
      (process_video_task
         (example_env ["frame=1200 fps=25 time=00:00:50.00 bitrate=900k"] 0)
         "J" "in.mp4" []) →
   get_result
     (example_env ["frame=1200 fps=25 time=00:00:50.00 bitrate=900k"] 0)
     (store_after (λ _, "2024-05-01T10:00:00.000000") 0
        (process_video_task
           (example_env ["frame=1200 fps=25 time=00:00:50.00 bitrate=900k"] 0)
           "J" "in.mp4" []) ∅) "J"
   = (if path_exists
           (example_env ["frame=1200 fps=25 time=00:00:50.00 bitrate=900k"] 0)
           (OUTPUT_DIR
              (example_env
                 ["frame=1200 fps=25 time=00:00:50.00 bitrate=900k"] 0)
              ("J" +:+ ".mp4"))
      then Reply {| path :=
                      OUTPUT_DIR
                        (example_env
                           ["frame=1200 fps=25 time=00:00:50.00 bitrate=900k"]
                           0) ("J" +:+ ".mp4");
                    media_type := "video/mp4";
                    filename := "render_" +:+ "J" +:+ ".mp4" |}
      else HTTPError 404 "File missing")
   ∧ ∃ cmd, In (Launch cmd)
               (process_video_task
                  (example_env
                     ["frame=1200 fps=25 time=00:00:50.00 bitrate=900k"] 0)
                  "J" "in.mp4" [])
            ∧ list.last cmd
              = Some (OUTPUT_DIR
                        (example_env
                           ["frame=1200 fps=25 time=00:00:50.00 bitrate=900k"]
                           0) ("J" +:+ ".mp4")))
  ∧ (¬ In (Save "J" "completed" 100 None)
         (process_video_task
            (example_env ["frame=1200 fps=25 time=00:00:50.00 bitrate=900k"] 0)
            "J" "in.mp4" []) →
     get_result
       (example_env ["frame=1200 fps=25 time=00:00:50.00 bitrate=900k"] 0)
       (store_after (λ _, "2024-05-01T10:00:00.000000") 0
          (process_video_task
             (example_env
                ["frame=1200 fps=25 time=00:00:50.00 bitrate=900k"] 0)
             "J" "in.mp4" []) ∅) "J"
     = HTTPError 400 "Not ready").
Proof.
  apply (result_after_run
           (example_env ["frame=1200 fps=25 time=00:00:50.00 bitrate=900k"] 0)
           (λ _, "2024-05-01T10:00:00.000000") ∅ "J" "in.mp4" []).
  - reflexivity.
  - intros n. reflexivity.
  - intros msg H. vm_compute in H.
    destruct H as [H|[H|[H|[H|[]]]]]; discriminate H.
Defined.

(** ** The result request on damaged snapshots *)

(** The loader protects the result request as it protects the status
    request: a snapshot file that is empty, blank or not JSON is answered
    like a missing one, 404 "Job not found". *)
Theorem result_of_unreadable_snapshot (env : environment)
    (JOBS_DIR : jobs_dir) (job_id text : string) :
  JOBS_DIR !! (job_id +:+ ".json") = Some text →
  (PyStr.strip PyStr.is_space_str text = ""
   ∨ ∃ e, Json.loads (PyStr.strip PyStr.is_space_str text) = Raise e) →
  get_result env JOBS_DIR job_id = HTTPError 404 "Job not found"
  ∧ get_result env JOBS_DIR job_id
    = get_result env (delete (job_id +:+ ".json") JOBS_DIR) job_id.
Proof.
  intros Hf Hbad.
  assert (L : load_job_status JOBS_DIR job_id = Ok None).
  { unfold load_job_status. rewrite Hf.
    destruct Hbad as [->|(e & He)]; [reflexivity|].
    destruct (String.eqb _ ""); [reflexivity|].
    rewrite He. simpl. now rewrite (loads_raises_decode_error _ _ He). }
  destruct (missing_snapshot (delete (job_id +:+ ".json") JOBS_DIR) job_id)
    as [L' _]; [apply lookup_delete_eq|].
  unfold get_result. now rewrite L, L'.
Qed.

Lemma result_of_unreadable_snapshot_witness :
  get_result (example_env [] 0) {[ "J.json" := truncated 40 snapshot_text ]} "J"
  = HTTPError 404 "Job not found"
  ∧ get_result (example_env [] 0)
      {[ "J.json" := truncated 40 snapshot_text ]} "J"
    = get_result (example_env [] 0)
        (delete ("J" +:+ ".json") {[ "J.json" := truncated 40 snapshot_text ]})
        "J".
Proof.
  apply (result_of_unreadable_snapshot (example_env [] 0)
           {[ "J.json" := truncated 40 snapshot_text ]} "J"
           (truncated 40 snapshot_text)).
  - reflexivity.
  - right. eexists. vm_compute. reflexivity.
Defined.

(** A snapshot file that holds JSON of another shape: a value that is
    false ([null], [false], 0, an empty string, list or object) is
    answered 404 "Job not found"; any other value that is not an object
    makes [status["status"]] raise a [TypeError], and an object without
    the key [status] a [KeyError], which leave the handler unhandled. *)
Theorem result_of_foreign_snapshot (env : environment)
    (JOBS_DIR : jobs_dir) (job_id text : string) (v : Json.value) :
  JOBS_DIR !! (job_id +:+ ".json") = Some text →
  PyStr.strip PyStr.is_space_str text ≠ "" →
  Json.loads (PyStr.strip PyStr.is_space_str text) = Ok v →
  (Json.truthy v = false →
   get_result env JOBS_DIR job_id = HTTPError 404 "Job not found")
  ∧ (Json.truthy v = true → (∀ d, v ≠ Json.JDict d) →
     get_result env JOBS_DIR job_id = Unhandled "TypeError")
  ∧ (∀ d, v = Json.JDict d → d ≠ [] → dict_get "status" d = None →
     get_result env JOBS_DIR job_id = Unhandled "KeyError").
Proof.
  intros Hf Hne Hv.
  assert (L : load_job_status JOBS_DIR job_id = Ok (Some v)).
  { unfold load_job_status. rewrite Hf.
    destruct (String.eqb_spec (PyStr.strip PyStr.is_space_str text) "")
      as [E|_]; [contradiction|].
    now rewrite Hv. }
  unfold get_result. rewrite L. cbn [falsy].
  split; [|split].
  - intros ->. reflexivity.
  - intros -> Hd. cbn [negb]. destruct v; try reflexivity.
    now destruct (Hd d).
  - intros d -> Hd Hk. destruct d as [|kv d]; [contradiction|].
    cbn [Json.truthy negb getitem]. now rewrite Hk.
Qed.

Lemma result_of_foreign_snapshot_witness :
  (Json.truthy (Json.JList [Json.JInt 1]) = false →
   get_result (example_env [] 0) {[ "J.json" := " [1] " ]} "J"
   = HTTPError 404 "Job not found")
  ∧ (Json.truthy (Json.JList [Json.JInt 1]) = true →
     (∀ d, Json.JList [Json.JInt 1] ≠ Json.JDict d) →
     get_result (example_env [] 0) {[ "J.json" := " [1] " ]} "J"
     = Unhandled "TypeError")
  ∧ (∀ d, Json.JList [Json.JInt 1] = Json.JDict d → d ≠ [] →
     dict_get "status" d = None →
     get_result (example_env [] 0) {[ "J.json" := " [1] " ]} "J"
     = Unhandled "KeyError").
Proof.
  apply (result_of_foreign_snapshot (example_env [] 0)
           {[ "J.json" := " [1] " ]} "J" " [1] " (Json.JList [Json.JInt 1])).
  - reflexivity.
  - vm_compute. discriminate.
  - vm_compute. reflexivity.
Defined.

(** ** The progress extractor: where markers are found *)

Lemma match_clock_prefix (s g : string) :
  match_clock s = Some g → ∃ post, s = g +:+ post.
Proof.
  unfold match_clock.
  destruct s as [|h1 [|h2 [|c1 [|m1 [|m2 [|c2 [|s1 [|s2 [|c3 [|f1 [|f2 rest]]]]]]]]]]];
    try discriminate.
  destruct (_ && _); [|discriminate]. intros [= <-].
  exists rest. cbn [String.substring].
  replace (String.substring 0 0 rest) with "" by (destruct rest; reflexivity).
  rewrite !append_cons, append_nil_l. reflexivity.
Qed.

(** A progress is reported only for a line that holds a marker: when the
    loop body yields a progress for a line, the line is some text, then
    [time=], then a clock text [HH:MM:SS.ff], then some text. *)
Theorem progress_only_at_markers (d : PyFloat.float) (line : string) (p : Z) :
  line_progress d line = Ok (Some p) →
  ∃ pre post hh mm ss ff,
    (0 <= hh < 100 ∧ 0 <= mm < 100 ∧ 0 <= ss < 100 ∧ 0 <= ff < 100)
    ∧ line = pre +:+ "time=" +:+ clock hh mm ss ff +:+ post.
Proof.
  intros Hp.
  destruct (search_time line) as [g|] eqn:Hg.
  2:{ unfold line_progress in Hp. rewrite Hg in Hp. discriminate. }
  clear Hp.
  destruct (search_time_shape line g Hg) as (hh & mm & ss & ff & R & ->).
  revert Hg. induction line as [|c line IH]; [discriminate|].
  cbn [search_time].
  destruct (match_time (String c line)) as [g'|] eqn:E.
  - intros [= ->]. unfold match_time in E.
    destruct line as [|b [|c' [|d' [|e s']]]]; try discriminate E.
    destruct (_ && _) eqn:B; [|discriminate E].
    do 4 (apply andb_true_iff in B as [B ?]).
    repeat match goal with
           | H : Ascii.eqb _ _ = true |- _ => apply Ascii.eqb_eq in H; subst
           end.
    destruct (match_clock_prefix _ _ E) as [post ->].
    exists "", post, hh, mm, ss, ff. split; [exact R|].
    rewrite append_nil_l, !append_cons, append_nil_l. reflexivity.
  - intros Hg. destruct (IH Hg) as (pre & post & h & m & s & f & R' & ->).
    exists (String c pre), post, h, m, s, f. split; [exact R'|].
    now rewrite append_cons.
Qed.

Lemma progress_only_at_markers_witness :
  ∃ pre post hh mm ss ff,
    (0 <= hh < 100 ∧ 0 <= mm < 100 ∧ 0 <= ss < 100 ∧ 0 <= ff < 100)
    ∧ "frame=1200 fps=25 time=00:00:50.00 bitrate=900k"
      = pre +:+ "time=" +:+ clock hh mm ss ff +:+ post.
Proof.
  apply (progress_only_at_markers (dec 100 0)
           "frame=1200 fps=25 time=00:00:50.00 bitrate=900k" 50).
  vm_compute. reflexivity.
Defined.

(** A line that holds a marker anywhere has a match (the converse). *)
Lemma search_time_finds_witness :
  ∃ g, search_time ("frame= 2500 fps= 25 " +:+ "time=" +:+ clock 0 1 40 0
                      +:+ " bitrate= 335.5kbits/s") = Some g.
Proof.
  apply (search_time_finds "frame= 2500 fps= 25 " " bitrate= 335.5kbits/s"
           0 1 40 0); lia.
Defined.

Lemma safe_text_colons_escaped_witness :
  unescaped ":" false (safe_text "12:30 o'clock") = false.
Proof.
  apply (safe_text_colons_escaped "12:30 o'clock"). reflexivity.
Defined.

Lemma list_jobs_complete_witness :
  ∃ vs, list_jobs (<[ "notes.txt" := "not a snapshot" ]>
                     {[ "J.json" := snapshot_text ]})
        = Ok (Z.of_nat (length vs), vs)
    ∧ length vs = length (glob_json (<[ "notes.txt" := "not a snapshot" ]>
                                       {[ "J.json" := snapshot_text ]}))
    ∧ ∀ name text,
        (<[ "notes.txt" := "not a snapshot" ]>
           {[ "J.json" := snapshot_text ]} : jobs_dir) !! name = Some text →
        PyStr.ends_with ".json" name = true →
        ∃ v, Json.loads text = Ok v ∧ v ∈ vs.
Proof.
  apply (list_jobs_complete (<[ "notes.txt" := "not a snapshot" ]>
                               {[ "J.json" := snapshot_text ]})).
  intros name text Hl He.
  apply lookup_insert_Some in Hl as [[<- <-]|[_ Hl]].
  - vm_compute in He. discriminate He.
  - apply lookup_singleton_Some in Hl as [<- <-].
    eexists. vm_compute. reflexivity.
Defined.

(** ** The compiler: input numbers *)

(** The scale stage of an image or video overlay reads the input that
    the overlay has just added: with [m] inputs before it, its file
    becomes input number [m] of the command and the stage starts with
    [[m:v]scale=]. *)
Theorem scale_reads_own_input (env : environment) (W H i : Z)
    (ov : OverlayMetadata) (g g' : graph) (m : nat) :
  length (input_args g) = (2 * m)%nat →
  (ov_type ov = "image" ∨ ov_type ov = "video") →
  path_exists env (OVERLAY_DIR env (ov_content ov)) = true →
  overlay_step env W H i ov g = Ok g' →
  input_args g'
  = (input_args g ++ ["-i"; OVERLAY_DIR env (ov_content ov)])%list
  ∧ nth_error (input_args g') (2 * m + 1)
    = Some (OVERLAY_DIR env (ov_content ov))
  ∧ ∃ target_w target_h rest,
      filter_complex g'
      = filter_complex g
          +:+ ("[" +:+ PyStr.of_int (Z.of_nat m) +:+ ":v]scale="
                 +:+ PyStr.of_int target_w +:+ ":"
                 +:+ PyStr.of_int target_h +:+ rest).
Proof.
  intros Hlen Hty Hex. unfold overlay_step.
  destruct (to_pixels (ov_x ov) W) as [x|]; [|discriminate].
  destruct (to_pixels (ov_y ov) H) as [y|]; [|discriminate].
  cbn [mbind res_bind].
  assert (Eo : String.eqb (ov_type ov) "image"
               || String.eqb (ov_type ov) "video" = true)
    by (destruct Hty as [->| ->]; reflexivity).
  rewrite (image_or_video_not_text ov Eo), Eo, Hex. cbn [negb].
  destruct (target_size (ov_width ov) W) as [tw|]; [|discriminate].
  destruct (target_size (ov_height ov) H) as [th|]; [|discriminate].
  cbn [mbind res_bind]. intros [= <-]. cbn [input_args filter_complex].
  split; [reflexivity|]. split.
  - rewrite nth_error_app2 by lia.
    replace (2 * m + 1 - length (input_args g))%nat with 1%nat by lia.
    reflexivity.
  - assert (E : Z.of_nat (length (input_args g
                   ++ ["-i"; OVERLAY_DIR env (ov_content ov)])) / 2 - 1
                = Z.of_nat m).
    { rewrite List.length_app, Hlen. cbn [length].
      replace (Z.of_nat (2 * m + 2)) with ((Z.of_nat m + 1) * 2) by lia.
      rewrite Z.div_mul by lia. lia. }
    rewrite E. exists tw, th.
    eexists (("[sc" +:+ PyStr.of_int i +:+ "]") +:+ ";"
               +:+ (last_stream_label g +:+ ("[sc" +:+ PyStr.of_int i +:+ "]")
                      +:+ "overlay=" +:+ PyStr.of_int x +:+ ":"
                      +:+ PyStr.of_int y +:+ ":" +:+ enable ov
                      +:+ ("[v" +:+ PyStr.of_int (i + 1) +:+ "]") +:+ ";")).
    now rewrite !append_assoc.
Qed.

Lemma scale_reads_own_input_witness :
  ∃ g',
    overlay_step (example_env [] 0) 1920 1080 2
      (OverlayMetadata_init (image_item "a.png" None None))
      {| input_args := ["-i"; "in.mp4"; "-i"; "/srv/uploads/overlays/a.png"];
         filter_complex := ""; last_stream_label := "[0:v]" |} = Ok g'
    ∧ nth_error (input_args g') (2 * 2 + 1)
      = Some "/srv/uploads/overlays/a.png"
    ∧ ∃ target_w target_h rest,
        filter_complex g'
        = "" +:+ ("[" +:+ PyStr.of_int (Z.of_nat 2) +:+ ":v]scale="
                    +:+ PyStr.of_int target_w +:+ ":"
                    +:+ PyStr.of_int target_h +:+ rest).
Proof.
  eexists. split; [vm_compute; reflexivity|].
  refine (proj2 (scale_reads_own_input (example_env [] 0) 1920 1080 2
           (OverlayMetadata_init (image_item "a.png" None None))
           {| input_args := ["-i"; "in.mp4"; "-i";
                             "/srv/uploads/overlays/a.png"];
              filter_complex := ""; last_stream_label := "[0:v]" |}
           _ 2 _ _ _ _)).
  - reflexivity.
  - left. reflexivity.
  - reflexivity.
  - vm_compute. reflexivity.
Defined.

(** ** The prober: reading the dimensions *)

Lemma uint_all_digits (d : Decimal.uint) :
  all_digits (NilEmpty.string_of_uint d) = true.
Proof. induction d; simpl; auto. Qed.

Lemma of_int_all_digits (z : Z) :
  0 <= z → all_digits (PyStr.of_int z) = true ∧ PyStr.of_int z ≠ "".
Proof.
  intros Hz. destruct z as [|q|q]; [split; [reflexivity|discriminate]| |lia].
  unfold PyStr.of_int. cbn [Z.to_int NilZero.string_of_int].
  unfold NilZero.string_of_uint.
  pose proof (uint_all_digits (Pos.to_uint q)) as A.
  pose proof (Unsigned.to_uint_nonnil q) as N.
  destruct (Pos.to_uint q); [contradiction|split; [exact A|discriminate]..].
Qed.

Lemma all_digits_occurs (c : ascii) (s : string) :
  PyStr.is_digit c = false → all_digits s = true → occurs c s = false.
Proof.
  intros Hc. induction s as [|a s IH]; [reflexivity|].
  cbn [all_digits occurs]. intros H. apply andb_true_iff in H as [Ha Hs].
  rewrite (IH Hs), orb_false_r.
  destruct (Ascii.eqb_spec a c) as [->|]; [congruence|reflexivity].
Qed.

Lemma lstrip_digits (p : ascii → bool) (s : string) :
  (∀ c, PyStr.is_digit c = true → p c = false) →
  all_digits s = true → PyStr.lstrip p s = s.
Proof.
  intros Hp. destruct s as [|c s]; [reflexivity|].
  cbn [all_digits PyStr.lstrip]. intros H.
  apply andb_true_iff in H as [Hc _]. now rewrite (Hp c Hc).
Qed.

Lemma rstrip_digits (p : ascii → bool) (s : string) :
  (∀ c, PyStr.is_digit c = true → p c = false) →
  all_digits s = true → PyStr.rstrip p s = s.
Proof.
  intros Hp. induction s as [|c s IH]; [reflexivity|].
  cbn [all_digits PyStr.rstrip]. intros H.
  apply andb_true_iff in H as [Hc Hs]. rewrite (IH Hs), (Hp c Hc).
  now destruct s.
Qed.

Lemma rstrip_snoc (p : ascii → bool) (a : string) (c : ascii) :
  p c = true → PyStr.rstrip p (a +:+ String c "") = PyStr.rstrip p a.
Proof.
  intros Hc. induction a as [|x a IH].
  - rewrite append_nil_l. cbn [PyStr.rstrip]. now rewrite Hc.
  - rewrite append_cons. cbn [PyStr.rstrip]. now rewrite IH.
Qed.

Lemma digit_not_space_bytes (c : ascii) :
  PyStr.is_digit c = true → PyStr.is_space_bytes c = false.
Proof.
  destruct c as [[] [] [] [] [] [] [] []]; intros H; try discriminate H;
    reflexivity.
Qed.

Lemma digit_not_space_str (c : ascii) :
  PyStr.is_digit c = true → PyStr.is_space_str c = false.
Proof.
  destruct c as [[] [] [] [] [] [] [] []]; intros H; try discriminate H;
    reflexivity.
Qed.

Lemma read_body_digits (s : string) :
  ∀ prev acc n,
    all_digits s = true → prev ≠ "_"%char →
    PyInt.read_body prev acc s = Some (PyFloat.read_digits acc n s).1.1.
Proof.
  induction s as [|c s IH]; intros prev acc n Hs Hp.
  - cbn. destruct (Ascii.eqb_spec prev "_"); [contradiction|reflexivity].
  - cbn [all_digits] in Hs. apply andb_true_iff in Hs as [Hc Hs].
    cbn [PyInt.read_body PyFloat.read_digits]. rewrite Hc.
    destruct (Ascii.eqb_spec c "_") as [->|_]; [discriminate Hc|].
    apply IH; [exact Hs|]. intros ->. discriminate Hc.
Qed.

Lemma read_digits_prefix (a rest : string) :
  ∀ acc n,
    all_digits a = true →
    (PyFloat.read_digits acc n (a +:+ String "," rest)).1.1
    = (PyFloat.read_digits acc n a).1.1.
Proof.
  induction a as [|c a IH]; intros acc n Ha; [reflexivity|].
  cbn [all_digits] in Ha. apply andb_true_iff in Ha as [Hc Ha].
  rewrite append_cons. cbn [PyFloat.read_digits]. rewrite Hc. now apply IH.
Qed.

(** [int(str(z)) = z] *)
Lemma of_string_of_int (z : Z) :
  0 <= z → PyInt.of_string (PyStr.of_int z) = Ok z.
Proof.
  intros Hz. destruct z as [|q|q]; [reflexivity| |lia].
  destruct (of_int_all_digits (Z.pos q) Hz) as [A _].
  destruct (read_digits_to_uint q "") as (c & s & n' & E & Hd & H0 & R).
  assert (Eo : PyStr.of_int (Z.pos q) = String c s).
  { unfold PyStr.of_int. cbn [Z.to_int NilZero.string_of_int].
    unfold NilZero.string_of_uint.
    destruct (Pos.to_uint q); [discriminate E|exact E..]. }
  assert (V : (PyFloat.read_digits 0 0 (PyStr.of_int (Z.pos q))).1.1 = Z.pos q).
  { rewrite <- (read_digits_prefix _ "" 0 0 A), Eo, R. reflexivity. }
  unfold PyInt.of_string, PyStr.strip.
  rewrite (lstrip_digits _ _ digit_not_space_bytes A),
    (rstrip_digits _ _ digit_not_space_bytes A).
  pose proof (read_body_digits _ "0" 0 0 A ltac:(discriminate)) as B.
  rewrite V in B. rewrite Eo in B |- *.
  destruct c as [[] [] [] [] [] [] [] []]; try discriminate Hd;
    cbn [PyFloat.read_sign]; rewrite B; reflexivity.
Qed.

Lemma read_dimensions_printed (W H : Z) :
  0 <= W → 0 <= H →
  read_dimensions (PyStr.of_int W +:+ "x" +:+ PyStr.of_int H +:+ String "010" "")
  = Ok (W, H).
Proof.
  intros HW HH.
  destruct (of_int_all_digits W HW) as [AW NW].
  destruct (of_int_all_digits H HH) as [AH NH].
  assert (S : PyStr.strip PyStr.is_space_str
                (PyStr.of_int W +:+ "x" +:+ PyStr.of_int H +:+ String "010" "")
              = PyStr.of_int W +:+ String "x" (PyStr.of_int H)).
  { unfold PyStr.strip.
    assert (L : PyStr.lstrip PyStr.is_space_str
                  (PyStr.of_int W +:+ "x" +:+ PyStr.of_int H +:+ String "010" "")
                = PyStr.of_int W +:+ "x" +:+ PyStr.of_int H +:+ String "010" "").
    { destruct (PyStr.of_int W) as [|c s]; [contradiction|].
      cbn [all_digits] in AW. apply andb_true_iff in AW as [Hc _].
      rewrite append_cons. cbn [PyStr.lstrip].
      now rewrite (digit_not_space_str c Hc). }
    rewrite L.
    replace (PyStr.of_int W +:+ "x" +:+ PyStr.of_int H +:+ String "010" "")
      with ((PyStr.of_int W +:+ "x" +:+ PyStr.of_int H) +:+ String "010" "")
      by now rewrite !append_assoc.
    rewrite rstrip_snoc by reflexivity.
    rewrite append_cons, append_nil_l.
    assert (R : PyStr.rstrip PyStr.is_space_str (String "x" (PyStr.of_int H))
                = String "x" (PyStr.of_int H)).
    { cbn [PyStr.rstrip].
      rewrite (rstrip_digits _ _ digit_not_space_str AH).
      destruct (PyStr.of_int H); [contradiction|reflexivity]. }
    rewrite rstrip_app; rewrite R; [reflexivity|discriminate]. }
  unfold read_dimensions. rewrite S.
  destruct (String.eqb_spec (PyStr.of_int W +:+ String "x" (PyStr.of_int H)) "")
    as [E|_].
  { exfalso. eapply append_not_nil_r; [|exact E]. discriminate. }
  rewrite (split_app_sep "x" _ _ (all_digits_occurs "x" _ eq_refl AW)),
    (split_no_sep "x" _ (all_digits_occurs "x" _ eq_refl AH)).
  cbn [unpack_dimensions].
  rewrite (of_string_of_int W HW), (of_string_of_int H HH). reflexivity.
Qed.

(** The probe reads what the prober prints: for a non-zero duration and a
    dimension output of the form [WxH] followed by a newline, the probe
    succeeds with the frame size [(W, H)]. *)
Theorem probe_reads_dimensions (env : environment) (video_path : string)
    (W H : Z) :
  0 <= W → 0 <= H →
  PyFloat.eqb (get_video_duration env video_path) PyFloat.zero = false →
  check_output env (cmd_probe video_path)
  = Ok (PyStr.of_int W +:+ "x" +:+ PyStr.of_int H +:+ String "010" "") →
  probe env video_path = Ok (get_video_duration env video_path, W, H).
Proof.
  intros HW HH Hd Hc. unfold probe. rewrite Hd, Hc. cbn [mbind res_bind].
  now rewrite (read_dimensions_printed W H HW HH).
Qed.

Lemma probe_reads_dimensions_witness :
  probe (machine "12.500000" "1280x720" [] 0) "in.mp4"
  = Ok (get_video_duration (machine "12.500000" "1280x720" [] 0) "in.mp4",
        1280, 720).
Proof.
  apply (probe_reads_dimensions (machine "12.500000" "1280x720" [] 0)
           "in.mp4" 1280 720); [lia | lia | | ]; vm_compute; reflexivity.
Defined.
